(** * tfmigrate: plan classifier, multi-state migrator and history runner

    A shallow embedding of
      - [tfexec/terraform_plan_json.go]   (module [tfexec]),
      - [tfmigrate/multi_state_migrator.go] (module [tfmigrate]),
      - the history runner exercised by [command/history_runner_test.go]
        (module [command]),
    followed by the properties proved about them. *)

From stdpp Require Import gmap strings list fin_maps sorting.

#[local] Set Warnings "-register-all".
#[local] Open Scope string_scope.

(* ===================================================================== *)
(** * Effects: explicit state passing                                    *)
(* ===================================================================== *)

(** A computation that reads and updates a state of type [S] and yields
    an [A]. Go code that calls out to terraform, the file system or the
    history storage is written in this monad over a record of what those
    collaborators hold. *)
Definition StateM (S A : Type) : Type := S -> A * S.

Definition ret {S A : Type} (x : A) : StateM S A := fun w => (x, w).
Definition bind {S A B : Type} (c : StateM S A) (f : A -> StateM S B)
  : StateM S B :=
  fun w => let '(a, w') := c w in f a w'.

Notation "'do' x <- c ; k" := (bind c (fun x => k))
  (at level 10, x name, c at level 100, k at level 200).
Notation "'do' ' pat <- c ; k" := (bind c (fun x => let 'pat := x in k))
  (at level 10, pat pattern, c at level 100, k at level 200).
Notation "c ;; k" := (bind c (fun _ => k))
  (at level 100, k at level 200, right associativity).

(* ===================================================================== *)
(** * Package tfexec: the plan JSON model and its classifier             *)
(* ===================================================================== *)

Module tfexec.

(** ** Values held by [interface{}] fields

    [Change.Before] and [Change.After] are filled by [encoding/json], which
    stores exactly six dynamic types in an [interface{}]: [nil], [bool],
    [float64], [string], [[]interface{}] and [map[string]interface{}].
    Slices and maps produced by the decoder are never nil. A [float64] is
    kept as its IEEE-754 binary64 bit pattern, [0 <= bits < 2^64]. *)
Inductive value : Type :=
  | VNil
  | VBool (b : bool)
  | VFloat64 (bits : Z)
  | VString (s : string)
  | VSlice (l : list value)
  | VMap (m : gmap string value).

(** Go's [==] on [float64]: a NaN equals nothing, the two zeros are equal,
    any other pair is equal exactly when the bit patterns agree. *)
Definition float64_isNaN (bits : Z) : bool :=
  (Z.land (Z.shiftr bits 52) 0x7FF =? 0x7FF)%Z
  && negb (Z.land bits 0xFFFFFFFFFFFFF =? 0)%Z.

Definition float64_isZero (bits : Z) : bool :=
  (Z.land bits 0x7FFFFFFFFFFFFFFF =? 0)%Z.

Definition float64_eq (a b : Z) : bool :=
  negb (float64_isNaN a) && negb (float64_isNaN b)
  && ((a =? b)%Z || (float64_isZero a && float64_isZero b)).

(** [reflect.DeepEqual] on decoded JSON: different dynamic types are
    unequal; scalars compare with [==]; slices compare length and then
    element by element; maps compare length and then, for every key of the
    first, the entry of the second under that key. *)
Fixpoint DeepEqual (x y : value) {struct x} : bool :=
  match x, y with
  | VNil, VNil => true
  | VBool a, VBool b => Bool.eqb a b
  | VFloat64 a, VFloat64 b => float64_eq a b
  | VString a, VString b => String.eqb a b
  | VSlice l1, VSlice l2 =>
      (fix elems (l1 l2 : list value) {struct l1} : bool :=
         match l1, l2 with
         | [], [] => true
         | a :: l1', b :: l2' => DeepEqual a b && elems l1' l2'
         | _, _ => false
         end) l1 l2
  | VMap m1, VMap m2 =>
      (size m1 =? size m2)%nat
      && map_fold (fun k v1 acc =>
                     acc && match m2 !! k with
                            | Some v2 => DeepEqual v1 v2
                            | None => false
                            end) true m1
  | _, _ => false
  end.

(** ** The plan structures *)

(** [Change]: the change details (before, after, actions). *)
Record Change : Type := mkChange {
  Actions : list string;
  Before : value;
  After : value;
}.

(** [ResourceChange]: a change to a resource in the plan. *)
Record ResourceChange : Type := mkResourceChange {
  Address : string;
  ModuleAddress : string;
  Mode : string;
  Type_ : string;
  Name : string;
  Index : value;
  Deposed : string;
  Change_ : Change;
  ActionReason : string;
}.

(** [OutputChange]: a change to an output value. *)
Record OutputChange : Type := mkOutputChange {
  OutputChange_Change : Change;
}.

(** [TerraformPlanJSON]: the Terraform plan in JSON format. *)
Record TerraformPlanJSON : Type := mkTerraformPlanJSON {
  FormatVersion : string;
  Applyable : bool;
  Complete : bool;
  Errored : bool;
  ResourceChanges : list ResourceChange;
  OutputChanges : gmap string OutputChange;
}.

(** [len(actions) == 1 && actions[0] == a]. The right operand of Go's [&&]
    is evaluated only when the slice has an element, so reading the head
    with a default never differs from the source. *)
Definition actionsAre (a : string) (actions : list string) : bool :=
  (length actions =? 1)%nat && String.eqb (hd "" actions) a.

(** [len(actions) != 1 || actions[0] != a]. *)
Definition actionsAreNot (a : string) (actions : list string) : bool :=
  negb (length actions =? 1)%nat || negb (String.eqb (hd "" actions) a).

(** [HasChanges]: the loop never leaves early; it raises a flag. *)
Definition HasChanges (p : TerraformPlanJSON) : bool :=
  fold_left
    (fun hasChanges rc =>
       if actionsAreNot "no-op" (Actions (Change_ rc)) then true
       else hasChanges)
    (ResourceChanges p) false.

(** [HasOnlyOutputChanges]. *)
Definition HasOnlyOutputChanges (p : TerraformPlanJSON) : bool :=
  let hasOutputChanges := (0 <? size (OutputChanges p))%nat in
  (fix loop (rcs : list ResourceChange) : bool :=
     match rcs with
     | [] => hasOutputChanges
     | rc :: rest =>
         if actionsAreNot "no-op" (Actions (Change_ rc)) then false
         else loop rest
     end) (ResourceChanges p).

(** [HasOnlyCreateActions]. *)
Definition HasOnlyCreateActions (p : TerraformPlanJSON) : bool :=
  (fix loop (rcs : list ResourceChange) : bool :=
     match rcs with
     | [] => true
     | rc :: rest =>
         if actionsAre "no-op" (Actions (Change_ rc)) then loop rest
         else if actionsAreNot "create" (Actions (Change_ rc)) then false
         else loop rest
     end) (ResourceChanges p).

(** [isTagField]. *)
Fixpoint isTagField (fieldName : string) (tagFields : list string) : bool :=
  match tagFields with
  | [] => false
  | tagField :: rest =>
      if String.eqb fieldName tagField then true
      else isTagField fieldName rest
  end.

Definition tagFields : list string :=
  ["tags"; "tags_all"; "tag"; "user_tags"; "system_tags"; "default_tags"].

(** First loop of [isTagOnlyChange], over the entries of [beforeMap] in the
    order the runtime yields them; the result is [onlyTagChanges] when the
    loop is left (by [break] or at its end). *)
Fixpoint beforeLoop (entries : list (string * value))
    (afterMap : gmap string value) : bool :=
  match entries with
  | [] => true
  | (key, beforeVal) :: rest =>
      match afterMap !! key with
      | None =>
          if negb (isTagField key tagFields) then false
          else beforeLoop rest afterMap
      | Some afterVal =>
          if negb (DeepEqual beforeVal afterVal) then
            if negb (isTagField key tagFields) then false
            else beforeLoop rest afterMap
          else beforeLoop rest afterMap
      end
  end.

(** Second loop of [isTagOnlyChange], over the keys of [afterMap]. *)
Fixpoint afterLoop (entries : list (string * value))
    (beforeMap : gmap string value) : bool :=
  match entries with
  | [] => true
  | (key, _) :: rest =>
      match beforeMap !! key with
      | None =>
          if negb (isTagField key tagFields) then false
          else afterLoop rest beforeMap
      | Some _ => afterLoop rest beforeMap
      end
  end.

(** [isTagOnlyChange], for given iteration orders of the two maps. Go
    leaves the order of [range] over a map unspecified. *)
Definition isTagOnlyChangeIn (beforeOrder afterOrder : list (string * value))
    (beforeMap afterMap : gmap string value) : bool :=
  let onlyTagChanges := beforeLoop beforeOrder afterMap in
  if onlyTagChanges then afterLoop afterOrder beforeMap
  else onlyTagChanges.

(** [isTagOnlyChange]: the two type assertions, then the loops. *)
Definition isTagOnlyChange (p : TerraformPlanJSON) (rc : ResourceChange) : bool :=
  match Before (Change_ rc), After (Change_ rc) with
  | VMap beforeMap, VMap afterMap =>
      isTagOnlyChangeIn (map_to_list beforeMap) (map_to_list afterMap)
        beforeMap afterMap
  | _, _ => false
  end.

(** [HasOnlySafeActions]. *)
Definition HasOnlySafeActions (p : TerraformPlanJSON) : bool :=
  (fix loop (rcs : list ResourceChange) : bool :=
     match rcs with
     | [] => true
     | rc :: rest =>
         if actionsAre "no-op" (Actions (Change_ rc)) then loop rest
         else if actionsAre "create" (Actions (Change_ rc)) then loop rest
         else if actionsAre "update" (Actions (Change_ rc))
                 && isTagOnlyChange p rc then loop rest
         else false
     end) (ResourceChanges p).

(** The status that [LogResourceChangesWithStatus] prints for a resource
    change that is not a no-op: the [if stateType != ""] block of its
    loop, which sets [statusEmoji] and [statusText]; both stay empty when
    no state type is given. *)
Definition changeStatus (p : TerraformPlanJSON) (allowCreate : bool)
    (stateType : string) (rc : ResourceChange) : string * string :=
  if negb (String.eqb stateType "") then
    if actionsAre "create" (Actions (Change_ rc)) && allowCreate then
      ("✅", "ACCEPTED")
    else if actionsAre "create" (Actions (Change_ rc)) && negb allowCreate
    then ("❌", "REJECTED (create not allowed in source state)")
    else if actionsAre "update" (Actions (Change_ rc))
            && isTagOnlyChange p rc
    then ("✅", "ACCEPTED (tag-only change)")
    else ("❌", "REJECTED (non-safe action in " ++ stateType ++ " state)")
  else ("", "").

(** The resource changes that [LogResourceChangesWithStatus] reports, with
    the number it prints for each ([i+1], the position in the full list):
    the loop skips the no-ops, and reports nothing at all when the plan
    has no resource change. *)
Definition reportedChanges (p : TerraformPlanJSON)
  : list (nat * ResourceChange) :=
  (fix loop (i : nat) (rcs : list ResourceChange)
     : list (nat * ResourceChange) :=
     match rcs with
     | [] => []
     | rc :: rest =>
         if actionsAre "no-op" (Actions (Change_ rc)) then loop (S i) rest
         else (i + 1, rc) :: loop (S i) rest
     end) 0 (ResourceChanges p).

End tfexec.

(* ===================================================================== *)
(** * Package tfmigrate: the multi-state migrator                        *)
(* ===================================================================== *)

Module tfmigrate.
Import tfexec.

(** Modelled from the spec: [tfexec.State] and [tfexec.Plan], opaque byte
    blobs (section 3). *)
Definition State : Type := string.
Definition Plan : Type := string.

(** Go [error] values met by the migrator: [tfexec.ExitError] (a failed
    terraform process, with its exit code), plain errors built by
    [fmt.Errorf] or returned by collaborators, and the result of
    [errors.Join]. *)
Inductive error : Type :=
  | ExitError (code : Z) (msg : string)
  | errorString (msg : string)
  | joinError (errs : list error).

(** The line feed that separates the messages of joined errors. *)
Definition LF : string := String (Ascii.ascii_of_nat 10) "".

(** The [Error()] method. *)
Fixpoint Error (e : error) : string :=
  match e with
  | ExitError _ msg => msg
  | errorString msg => msg
  | joinError errs =>
      (fix lines (es : list error) : string :=
         match es with
         | [] => ""
         | [e'] => Error e'
         | e' :: rest => Error e' ++ LF ++ lines rest
         end) errs
  end.

(** [errors.Join]: nil when every argument is nil, otherwise an error that
    wraps the non-nil arguments. *)
Definition errors_Join (a b : option error) : option error :=
  match a, b with
  | None, None => None
  | Some x, None => Some (joinError [x])
  | None, Some y => Some (joinError [y])
  | Some x, Some y => Some (joinError [x; y])
  end.

(** What the migrator does to the outside world, in the order it does it. *)
Inductive Event : Type :=
  | EvLog (msg : string)
  | EvLogOutputChanges (p : TerraformPlanJSON)
  | EvLogResourceChangesWithStatus (p : TerraformPlanJSON)
      (allowCreate : bool) (stateType : string)
  | EvSetupWorkDir (dir workspace : string)
  | EvSwitchBackToRemote (dir : string)
  | EvPlan (dir : string) (state : State) (opts : list string)
  | EvConvertPlanToJson (dir : string) (plan : option Plan)
  | EvStatePush (dir : string) (state : option State).

(** The world outside the process: the remote state of every working
    directory, and the trace of what has been done so far. *)
Record World : Type := mkWorld {
  remote : gmap string State;
  trace : list Event;
}.

(** Computations that act on the world. *)
Definition M (A : Type) : Type := StateM World A.

(** Recording an event at the end of the trace. *)
Definition emit (e : Event) : M unit :=
  fun w => (tt, mkWorld (remote w) (trace w ++ [e])).

(** Replacing the remote state of a directory. *)
Definition setRemote (dir : string) (s : State) : M unit :=
  fun w => (tt, mkWorld (<[dir := s]> (remote w)) (trace w)).

(** Reading the remote state of a directory; a directory without one
    holds the empty state. *)
Definition getRemote (dir : string) : M State :=
  fun w => (default "" (remote w !! dir), w).

(** [log.Printf]; the logger ends every entry with a newline, which is
    left out of the recorded text. *)
Definition log_Printf (msg : string) : M unit := emit (EvLog msg).

(** Modelled from the spec: [tfexec.TerraformCLI] (section 4.2), the
    interface through which terraform is run in one working directory.
    The responses of the terraform binary are the fields of the record. *)
Record TerraformCLI : Type := mkTerraformCLI {
  Dir : string;
  (** does preparing the directory fail? *)
  setupResult : string -> bool -> list string -> bool -> option error;
  (** does switching the backend back to remote fail? *)
  switchBackResult : option error;
  (** [terraform plan] on a state with options *)
  planResult : State -> list string -> option Plan * option error;
  (** [terraform show -json] on a plan file *)
  showResult : option Plan -> TerraformPlanJSON + error;
  (** does [terraform state push] fail? *)
  pushResult : option State -> option error;
}.

(** Modelled from the spec: [TerraformCLI.Plan] (section 4.2): runs
    [terraform plan] on the state with the options and returns the plan
    together with the error of the process. *)
Definition tf_Plan (tf : TerraformCLI) (state : State) (opts : list string)
  : M (option Plan * option error) :=
  emit (EvPlan (Dir tf) state opts) ;;
  ret (planResult tf state opts).

(** Modelled from the spec: [TerraformCLI.ConvertPlanToJson]
    (section 4.2), which wraps [terraform show -json]. *)
Definition tf_ConvertPlanToJson (tf : TerraformCLI) (plan : option Plan)
  : M (TerraformPlanJSON + error) :=
  emit (EvConvertPlanToJson (Dir tf) plan) ;;
  ret (showResult tf plan).

(** Modelled from the spec: [TerraformCLI.StatePush], raw remote state
    output (section 4.2): on success the remote state of the directory is
    replaced. *)
Definition tf_StatePush (tf : TerraformCLI) (state : option State)
  : M (option error) :=
  emit (EvStatePush (Dir tf) state) ;;
  match pushResult tf state, state with
  | None, Some s => setRemote (Dir tf) s ;; ret None
  | r, _ => ret r
  end.

(** Modelled from the spec: [setupWorkDir], which lives in another file of
    the package. It overrides the backend to local, selects the workspace
    and pulls the remote state (section 4.5, step 1); it returns the
    pulled state and the function that switches the backend back to
    remote. *)
Definition setupWorkDir (tf : TerraformCLI) (workspace : string)
    (isBackendTerraformCloud : bool) (backendConfig : list string)
    (ignoreLegacyStateInitErr : bool)
  : M ((State * M (option error)) + error) :=
  emit (EvSetupWorkDir (Dir tf) workspace) ;;
  match setupResult tf workspace isBackendTerraformCloud backendConfig
          ignoreLegacyStateInitErr with
  | Some err => ret (inr err)
  | None =>
      do currentState <- getRemote (Dir tf);
      ret (inl (currentState,
                (emit (EvSwitchBackToRemote (Dir tf)) ;;
                 ret (switchBackResult tf))))
  end.

(** Modelled from the spec: [MultiStateAction] (section 4.4), the
    interface with the single method
    [MultiStateUpdate(ctx, fromTf, toTf, fromState, toState)]. It works on
    scratch copies and does not touch the remote states. *)
Definition MultiStateAction : Type :=
  TerraformCLI -> TerraformCLI -> State -> State -> (State * State) + error.

(** [MigratorOption]. *)
Record MigratorOption : Type := mkMigratorOption {
  ExecPath : string;
  SourceExecPath : string;
  DestinationExecPath : string;
  PlanOut : string;
  IsBackendTerraformCloud : bool;
  BackendConfig : list string;
}.

(** [MultiStateMigrator]. The option [o] is dereferenced by [plan] without
    a nil test, so it is held by value here. *)
Record MultiStateMigrator : Type := mkMultiStateMigrator {
  fromTf : TerraformCLI;
  fromSkipPlan : bool;
  toTf : TerraformCLI;
  toSkipPlan : bool;
  fromWorkspace : string;
  toWorkspace : string;
  actions : list MultiStateAction;
  o : MigratorOption;
  force : bool;
  fromTfTarget : string;
}.

(** [checkPlan]. The rendered reports ([LogOutputChanges],
    [LogResourceChangesWithStatus]) are recorded as one event each; the
    lines that [HasChanges] itself logs are left out. *)
Definition checkPlan (plan : option Plan) (tf : TerraformCLI)
    (er : option error) (allowCreate : bool) (stateType : string)
  : M (bool * string) :=
  match er with
  | Some er' =>
      match er' with
      | ExitError 2 _ =>
          do r <- tf_ConvertPlanToJson tf plan;
          match r with
          | inr jsonerr =>
              log_Printf ("[ERROR] [migrator] failed to parse plan JSON: "
                          ++ Error jsonerr) ;;
              ret (false, "failed to parse plan JSON: " ++ Error jsonerr)
          | inl planJSON =>
              log_Printf ("[INFO] [migrator@" ++ Dir tf
                          ++ "] analyzing plan for " ++ stateType
                          ++ " state:") ;;
              if negb (HasChanges planJSON) then
                log_Printf "[INFO] [migrator] plan has only output changes" ;;
                emit (EvLogOutputChanges planJSON) ;;
                ret (true, "✅ ACCEPTED: " ++ stateType
                           ++ " state plan has only output changes (no resource changes)")
              else if allowCreate && HasOnlySafeActions planJSON then
                log_Printf "[INFO] [migrator] plan has resource changes:" ;;
                emit (EvLogResourceChangesWithStatus planJSON allowCreate
                        stateType) ;;
                ret (true, "✅ ACCEPTED: " ++ stateType
                           ++ " state plan has only safe actions (create, read, or tag-only changes), which is acceptable for destination state")
              else
                log_Printf "[INFO] [migrator] plan has resource changes:" ;;
                emit (EvLogResourceChangesWithStatus planJSON allowCreate
                        stateType) ;;
                if allowCreate then
                  ret (false, "❌ REJECTED: " ++ stateType
                              ++ " state plan has changes other than safe actions (create, read, or tag-only changes)")
                else
                  ret (false, "❌ REJECTED: " ++ stateType
                              ++ " state plan has unexpected resource changes")
          end
      | _ =>
          log_Printf ("[ERROR] [migrator] unexpected error: " ++ Error er') ;;
          ret (false, "❌ REJECTED: unexpected error in " ++ stateType
                      ++ " state: " ++ Error er')
      end
  | None =>
      ret (true, "✅ ACCEPTED: " ++ stateType ++ " state plan has no changes")
  end.

(** The loop of [plan] over [m.actions]: every action rewrites the pair of
    current states; the first failing action ends the loop. *)
Fixpoint applyActions (acts : list MultiStateAction) (fromTf toTf : TerraformCLI)
    (fromCurrentState toCurrentState : State) : (State * State) + error :=
  match acts with
  | [] => inl (fromCurrentState, toCurrentState)
  | action :: rest =>
      match action fromTf toTf fromCurrentState toCurrentState with
      | inr err => inr err
      | inl (fromNewState, toNewState) =>
          applyActions rest fromTf toTf fromNewState toNewState
      end
  end.

(** The base plan options of [plan]. *)
Definition basePlanOpts (m : MultiStateMigrator) : list string :=
  (["-input=false"; "-no-color"; "-detailed-exitcode"]
   ++ (if negb (String.eqb (PlanOut (o m)) "")
       then [("-out=" ++ PlanOut (o m))%string] else []))%list.

(** The three results of [plan]: the two states and the error. *)
Definition planResults : Type := option State * option State * option error.

(** [plan], from the plan check of [toDir] to the final [return]. *)
Definition planTo (m : MultiStateMigrator)
    (fromCurrentState toCurrentState : State) : M planResults :=
  if toSkipPlan m then
    log_Printf ("[INFO] [migrator@" ++ Dir (toTf m)
                ++ "] skipping check diffs") ;;
    ret (Some fromCurrentState, Some toCurrentState, None)
  else
    let toPlanOpts := basePlanOpts m in
    log_Printf ("[INFO] [migrator@" ++ Dir (toTf m) ++ "] check diffs") ;;
    do '(plan, err) <- tf_Plan (toTf m) toCurrentState toPlanOpts;
    do '(clean, reason) <- checkPlan plan (toTf m) err true "destination";
    if negb clean then
      if force m then
        log_Printf ("[INFO] [migrator@" ++ Dir (toTf m) ++ "] " ++ reason) ;;
        log_Printf ("[INFO] [migrator@" ++ Dir (toTf m)
                    ++ "] plan has unexpected diffs, but force option is true, ignoring") ;;
        ret (Some fromCurrentState, Some toCurrentState, None)
      else
        log_Printf ("[ERROR] [migrator@" ++ Dir (toTf m) ++ "] " ++ reason) ;;
        ret (None, None,
             Some (errorString
                     ("terraform plan command returns unexpected diffs  to_dir: "
                      ++ Dir (toTf m))))
    else
      log_Printf ("[INFO] [migrator@" ++ Dir (toTf m) ++ "] " ++ reason) ;;
      ret (Some fromCurrentState, Some toCurrentState, None).

(** [plan], from the plan check of [fromDir] on. *)
Definition planFrom (m : MultiStateMigrator)
    (fromCurrentState toCurrentState : State) : M planResults :=
  if fromSkipPlan m then
    log_Printf ("[INFO] [migrator@" ++ Dir (fromTf m)
                ++ "] skipping check diffs") ;;
    planTo m fromCurrentState toCurrentState
  else
    let fromPlanOpts :=
      (basePlanOpts m
       ++ (if negb (String.eqb (fromTfTarget m) "")
           then [("-target=" ++ fromTfTarget m)%string] else []))%list in
    log_Printf ("[INFO] [migrator@" ++ Dir (fromTf m) ++ "] check diffs") ;;
    do '(plan, err) <- tf_Plan (fromTf m) fromCurrentState fromPlanOpts;
    do '(clean, reason) <- checkPlan plan (fromTf m) err false "source";
    if negb clean then
      log_Printf ("[ERROR] [migrator@" ++ Dir (fromTf m) ++ "] " ++ reason) ;;
      ret (None, None,
           Some (errorString
                   ("terraform plan command returns unexpected diffs in from_dir: "
                    ++ Dir (fromTf m))))
    else
      log_Printf ("[INFO] [migrator@" ++ Dir (fromTf m) ++ "] " ++ reason) ;;
      planTo m fromCurrentState toCurrentState.

(** [plan], between the two set-ups and the two deferred restores. *)
Definition planBody (m : MultiStateMigrator)
    (fromCurrentState toCurrentState : State) : M planResults :=
  log_Printf ("[INFO] [migrator] compute new states (" ++ Dir (fromTf m)
              ++ " => " ++ Dir (toTf m) ++ ")") ;;
  match applyActions (actions m) (fromTf m) (toTf m)
          fromCurrentState toCurrentState with
  | inr err => ret (None, None, Some err)
  | inl (fromCurrentState, toCurrentState) =>
      planFrom m fromCurrentState toCurrentState
  end.

(** A deferred [err = errors.Join(err, f())] around the rest of the body. *)
Definition deferJoin (switchBackToRemoteFunc : M (option error))
    (body : M planResults) : M planResults :=
  do '(fromState, toState, err) <- body;
  do rerr <- switchBackToRemoteFunc;
  ret (fromState, toState, errors_Join err rerr).

(** [plan]. *)
Definition plan (m : MultiStateMigrator) : M planResults :=
  do r <- setupWorkDir (fromTf m) (fromWorkspace m)
            (IsBackendTerraformCloud (o m)) (BackendConfig (o m)) false;
  match r with
  | inr err => ret (None, None, Some err)
  | inl (fromCurrentState, fromSwitchBackToRemoteFunc) =>
      deferJoin fromSwitchBackToRemoteFunc
        (do r <- setupWorkDir (toTf m) (toWorkspace m)
                   (IsBackendTerraformCloud (o m)) (BackendConfig (o m)) false;
         match r with
         | inr err => ret (None, None, Some err)
         | inl (toCurrentState, toSwitchBackToRemoteFunc) =>
             deferJoin toSwitchBackToRemoteFunc
               (planBody m fromCurrentState toCurrentState)
         end)
  end.

(** [Plan]. *)
Definition Plan_ (m : MultiStateMigrator) : M (option error) :=
  log_Printf "[INFO] [migrator] multi start state migrator plan" ;;
  do '(_, _, err) <- plan m;
  match err with
  | Some e => ret (Some e)
  | None =>
      log_Printf "[INFO] [migrator] multi state migrator plan success!" ;;
      ret None
  end.

(** [Apply]. The two multi-line messages are recorded by their first
    line. *)
Definition Apply (m : MultiStateMigrator) : M (option error) :=
  log_Printf "[INFO] [migrator] start multi state migrator plan phase for apply" ;;
  do '(fromState, toState, err) <- plan m;
  match err with
  | Some e => ret (Some e)
  | None =>
      log_Printf "[INFO] [migrator] multi state migrator plan phase for apply success!" ;;
      log_Printf ("[INFO] [migrator@" ++ Dir (fromTf m)
                  ++ "] push the new state to remote") ;;
      do err <- tf_StatePush (fromTf m) fromState;
      match err with
      | Some e =>
          log_Printf ("[ERROR] [migrator@" ++ Dir (fromTf m)
                      ++ "] failed to push state to remote: " ++ Error e) ;;
          log_Printf "[ERROR] no state has been pushed to remote, please check the state manually" ;;
          ret (Some e)
      | None =>
          log_Printf ("[INFO] [migrator@" ++ Dir (toTf m)
                      ++ "] push the new state to remote") ;;
          do err <- tf_StatePush (toTf m) toState;
          match err with
          | Some e =>
              log_Printf ("[ERROR] [migrator@" ++ Dir (toTf m)
                          ++ "] failed to push state to remote: " ++ Error e) ;;
              log_Printf "[ERROR] no state has been pushed to remote, please check the state manually" ;;
              ret (Some e)
          | None =>
              log_Printf "[INFO] [migrator] multi state migrator apply success!" ;;
              ret None
          end
      end
  end.

End tfmigrate.

(* ===================================================================== *)
(** * Package tfmigrate: the configuration of a multi-state migrator     *)
(* ===================================================================== *)

Module migrator_config.
Import tfmigrate.

(** [MultiStateMigratorConfig]. *)
Record MultiStateMigratorConfig : Type := mkMultiStateMigratorConfig {
  FromDir : string;
  FromSkipPlan : bool;
  ToDir : string;
  ToSkipPlan : bool;
  FromWorkspace : string;
  ToWorkspace : string;
  Actions : list string;
  Force : bool;
  FromTfTarget : string;
}.

Section NewMigrator.

(** Modelled from the spec: [NewMultiStateActionFromString], the parser of
    one action line (section 4.4); it lives in another file of the
    package. *)
Variable NewMultiStateActionFromString : string -> MultiStateAction + error.

(** The constructor [NewMultiStateMigrator], by the arguments it is called
    with; [o] is a pointer and may be nil. *)
Variable Migrator : Type.
Variable NewMultiStateMigrator :
  string -> string -> string -> string -> list MultiStateAction ->
  option MigratorOption -> bool -> bool -> bool -> string -> Migrator.

(** The loop of [NewMigrator] that builds the actions: the strings are
    parsed in order and the first failure is returned. *)
Fixpoint buildActions (actions : list MultiStateAction)
    (cmdStrs : list string) : list MultiStateAction + error :=
  match cmdStrs with
  | [] => inl actions
  | cmdStr :: rest =>
      match NewMultiStateActionFromString cmdStr with
      | inr err => inr err
      | inl action => buildActions (actions ++ [action]) rest
      end
  end.

(** [NewMigrator]. The receiver is a pointer: the defaults of the two
    workspaces are written into the configuration, which is returned
    beside the result. *)
Definition NewMigrator (c : MultiStateMigratorConfig)
    (o : option MigratorOption)
  : (Migrator + error) * MultiStateMigratorConfig :=
  if (length (Actions c) =? 0)%nat then
    (inr (errorString "failed to NewMigrator with no actions"), c)
  else
    match buildActions [] (Actions c) with
    | inr err => (inr err, c)
    | inl actions =>
        let c1 :=
          if (String.length (FromWorkspace c) =? 0)%nat then
            mkMultiStateMigratorConfig (FromDir c) (FromSkipPlan c) (ToDir c)
              (ToSkipPlan c) "default" (ToWorkspace c) (Actions c) (Force c)
              (FromTfTarget c)
          else c in
        let c2 :=
          if (String.length (ToWorkspace c1) =? 0)%nat then
            mkMultiStateMigratorConfig (FromDir c1) (FromSkipPlan c1)
              (ToDir c1) (ToSkipPlan c1) (FromWorkspace c1) "default"
              (Actions c1) (Force c1) (FromTfTarget c1)
          else c1 in
        (inl (NewMultiStateMigrator (FromDir c2) (ToDir c2)
                (FromWorkspace c2) (ToWorkspace c2) actions o (Force c2)
                (FromSkipPlan c2) (ToSkipPlan c2) (FromTfTarget c2)),
         c2)
    end.

End NewMigrator.

End migrator_config.

(* ===================================================================== *)
(** * Package command: the history runner                                *)
(* ===================================================================== *)

(** The runner and the history controller are exercised by
    [command/history_runner_test.go]; their own files are not part of
    the sources at hand, so they are written down from the specification
    (sections 3 and 4.7) and from what the tests set up and observe. *)
Module command.

(** Modelled from the spec: [history.Record], the entry kept for an applied
    migration file: [{type, name, applied_at, md5_hash}]. An absent
    [md5_hash] is the empty string. *)
Record Record_ : Type := mkRecord {
  Type_ : string;
  Name : string;
  AppliedAt : nat;
  MD5Hash : string;
}.

(** Modelled from the spec: [history.History],
    [{version: 1, records: mapping filename -> HistoryRecord}]. *)
Record History : Type := mkHistory {
  version : nat;
  records : gmap string Record_;
}.

(** Modelled from the spec: the mock storage the tests configure
    ([mock.Config{Data, WriteError, ReadError}]). The blob it holds is
    identified with the history it parses to. *)
Record Storage : Type := mkStorage {
  Data : History;
  WriteError : bool;
  ReadError : bool;
}.

(** Modelled from the spec: the mock migrator of the tests,
    [migration "mock" "<name>" { plan_error = ..., apply_error = ... }];
    it stands for any migrator, of which the runner only sees whether
    [Plan] and [Apply] fail. *)
Record Migrator : Type := mkMigrator {
  PlanError : bool;
  ApplyError : bool;
}.

(** Modelled from the spec: [MigrationConfig],
    [{type, name, migrator_config}]. *)
Record MigrationConfig : Type := mkMigrationConfig {
  MigrationType : string;
  MigrationName : string;
  MigratorOf : Migrator;
}.

(** Modelled from the spec: the error kinds of section 7 that the runner
    produces. *)
Inductive error : Type :=
  | ErrStorageRead
  | ErrStorageWrite
  | ErrReadFile (filename : string)
  | ErrParse (filename : string)
  | ErrDuplicateLocalNames (names : list string)
  | ErrDuplicateRemoteNames (names : list string)
  | ErrDuplicateContent (hashes : list string)
  | ErrIntegrity (filename : string)
  | ErrAlreadyApplied (filename : string)
  | ErrPlan (filename : string)
  | ErrApply (filename : string)
  | ErrPlanDir (errs : list error)
  | ErrHistoryPersist (filename : string)
  | ErrApplyAndPersist (applyErr : error).

(** Modelled from the spec: what the runner does to its collaborators
    (the migrators it runs and the storage it writes), as events. *)
Inductive Event : Type :=
  | EvMigratorPlan (filename : string)
  | EvMigratorApply (filename : string)
  | EvStorageWrite (h : History).

(** Modelled from the spec: the collaborators that are functions: content
    hashing (MD5) and the HCL parser of migration files. *)
Record Env : Type := mkEnv {
  md5 : string -> string;
  ParseMigrationFile : string -> string -> option MigrationConfig;
}.

(** Modelled from the spec: the history controller,
    [(migration_dir, storage, history, records_in_memory)]. The immutable
    part is the runner; the rest is the state the runner acts on. *)
Record HistoryRunner : Type := mkHistoryRunner {
  filename : string;
  migrationDir : gmap string string;
  env : Env;
}.

(** Modelled from the spec: the mutable part of the controller: the
    records in memory, the storage, the trace of events and the clock. *)
Record St : Type := mkSt {
  hc : History;
  storage : Storage;
  trace : list Event;
  clock : nat;
}.

(** Modelled from the spec: computations of the runner. *)
Definition M (A : Type) : Type := StateM St A.

(** Modelled from the spec: recording an event. *)
Definition emit (e : Event) : M unit :=
  fun s => (tt, mkSt (hc s) (storage s) (trace s ++ [e]) (clock s)).

(** Modelled from the spec: reading the records held in memory. *)
Definition getHistory : M History := fun s => (hc s, s).

(** Modelled from the spec: replacing the records held in memory. *)
Definition setHistory (h : History) : M unit :=
  fun s => (tt, mkSt h (storage s) (trace s) (clock s)).

(** Modelled from the spec: "now", the instant of [applied_at]; the clock
    advances with every reading. *)
Definition now : M nat :=
  fun s => (clock s, mkSt (hc s) (storage s) (trace s) (S (clock s))).

(** Modelled from the spec: [storage.Write], a single replace of the blob,
    which the mock refuses when [WriteError] is set. *)
Definition storage_Write (h : History) : M (option error) :=
  emit (EvStorageWrite h) ;;
  fun s =>
    if WriteError (storage s) then (Some ErrStorageWrite, s)
    else (None,
          mkSt (hc s)
            (mkStorage h (WriteError (storage s)) (ReadError (storage s)))
            (trace s) (clock s)).

(** Modelled from the spec: persisting the history is writing the records
    held in memory to the storage. *)
Definition Save : M (option error) :=
  do h <- getHistory;
  storage_Write h.

(** Modelled from the spec: the test for the [*.hcl] pattern
    ([strings.HasSuffix]). *)
Definition HasSuffix (s suffix : string) : bool :=
  let n := String.length s in
  let k := String.length suffix in
  (k <=? n)%nat && String.eqb (String.substring (n - k) k s) suffix.

(** Modelled from the spec: the lexicographic sort of file names, by
    insertion into a list ordered by [String.leb]. *)
Fixpoint insertSorted (x : string) (l : list string) : list string :=
  match l with
  | [] => [x]
  | y :: rest =>
      if String.leb x y then x :: y :: rest
      else y :: insertSorted x rest
  end.

(** Modelled from the spec: "sort lexicographically". *)
Definition sortStrings (l : list string) : list string :=
  foldr insertSorted [] l.

(** Modelled from the spec: Scan, "list [*.hcl] files in [migration_dir],
    sort lexicographically". *)
Definition Scan (migrationDir : gmap string string) : list string :=
  sortStrings
    (List.filter (fun f => HasSuffix f ".hcl")
       (map fst (map_to_list migrationDir))).

(** Modelled from the spec: a file is applied when its name is a key of
    [history.records]. *)
Definition AlreadyApplied (h : History) (f : string) : bool :=
  match records h !! f with
  | Some _ => true
  | None => false
  end.

(** Modelled from the spec: Unapplied, "those whose filename is not a key
    in [history.records]", in scan order. *)
Definition UnappliedMigrations (h : History) (files : list string)
  : list string :=
  List.filter (fun f => negb (AlreadyApplied h f)) files.

(** Modelled from the spec: loading a migration file is reading it from
    the migration directory and parsing it. *)
Definition loadMigrationFile (r : HistoryRunner) (f : string)
  : MigrationConfig + error :=
  match migrationDir r !! f with
  | None => inr (ErrReadFile f)
  | Some content =>
      match ParseMigrationFile (env r) f content with
      | None => inr (ErrParse f)
      | Some mc => inl mc
      end
  end.

(** Modelled from the spec: the duplicates that the integrity validation
    reports: the values that occur more than once in a list. *)
Fixpoint duplicates (l : list string) : list string :=
  match l with
  | [] => []
  | x :: rest =>
      if existsb (String.eqb x) rest then x :: duplicates rest
      else duplicates rest
  end.

(** Modelled from the spec: "parse every local migration", stopping at
    the first file that cannot be loaded. *)
Fixpoint parseAll (r : HistoryRunner) (files : list string)
  : list (string * MigrationConfig) + error :=
  match files with
  | [] => inl []
  | f :: rest =>
      match loadMigrationFile r f with
      | inr e => inr e
      | inl mc =>
          match parseAll r rest with
          | inr e => inr e
          | inl l => inl ((f, mc) :: l)
          end
      end
  end.

(** Modelled from the spec: a non-empty string (a given file name, a
    present [md5_hash]). *)
Definition nonEmpty (s : string) : bool := negb (String.eqb s "").

(** Modelled from the spec: the first local file whose content does not
    hash to the non-empty [md5_hash] recorded for it. *)
Fixpoint integrityFailure (r : HistoryRunner) (h : History)
    (files : list string) : option string :=
  match files with
  | [] => None
  | f :: rest =>
      match records h !! f, migrationDir r !! f with
      | Some rec, Some content =>
          if nonEmpty (MD5Hash rec)
             && negb (String.eqb (md5 (env r) content) (MD5Hash rec))
          then Some f
          else integrityFailure r h rest
      | _, _ => integrityFailure r h rest
      end
  end.

(** Modelled from the spec: integrity validation (section 4.7): parse
    every local migration; no two local files declare the same name; no
    two history records share a name; no two history records share a
    non-empty [md5_hash]; a local file with a record that has a non-empty
    [md5_hash] must hash to it. *)
Definition validateNoDuplicates (r : HistoryRunner) (h : History)
  : option error :=
  let files := Scan (migrationDir r) in
  match parseAll r files with
  | inr e => Some e
  | inl parsed =>
      let recs := map snd (map_to_list (records h)) in
      match duplicates (map (fun fm => MigrationName (snd fm)) parsed) with
      | _ :: _ as names => Some (ErrDuplicateLocalNames names)
      | [] =>
          match duplicates (map Name recs) with
          | _ :: _ as names => Some (ErrDuplicateRemoteNames names)
          | [] =>
              match duplicates
                      (List.filter nonEmpty (map MD5Hash recs)) with
              | _ :: _ as hashes => Some (ErrDuplicateContent hashes)
              | [] =>
                  match integrityFailure r h files with
                  | Some f => Some (ErrIntegrity f)
                  | None => None
                  end
              end
          end
      end
  end.

(** Modelled from the spec: the backfill of one record: "for each whose
    [md5_hash] is empty and whose file exists on disk, sets the hash from
    the file's current content. Missing files are skipped silently." *)
Definition backfillRecord (r : HistoryRunner) (f : string) (rec : Record_)
  : Record_ :=
  if String.eqb (MD5Hash rec) "" then
    match migrationDir r !! f with
    | Some content =>
        mkRecord (Type_ rec) (Name rec) (AppliedAt rec) (md5 (env r) content)
    | None => rec
    end
  else rec.

(** Modelled from the spec: Backfill, "[updateMissingMD5Hashes] walks
    history records", changing the records held in memory. *)
Definition updateMissingMD5Hashes (r : HistoryRunner) : M (option error) :=
  do h <- getHistory;
  setHistory
    (mkHistory (version h)
       (map_imap (fun f rec => Some (backfillRecord r f rec)) (records h))) ;;
  ret None.

(** Modelled from the spec: planning one migration file: load it and run
    the migrator's [Plan]. *)
Definition planFile (r : HistoryRunner) (f : string) : M (option error) :=
  match loadMigrationFile r f with
  | inr e => ret (Some e)
  | inl mc =>
      emit (EvMigratorPlan f) ;;
      if PlanError (MigratorOf mc) then ret (Some (ErrPlan f))
      else ret None
  end.

(** Modelled from the spec: "plan every unapplied migration in order;
    accumulate errors per file but continue". *)
Fixpoint planLoop (r : HistoryRunner) (files : list string)
  : M (list error) :=
  match files with
  | [] => ret []
  | f :: rest =>
      do err <- planFile r f;
      do errs <- planLoop r rest;
      ret (match err with Some e => e :: errs | None => errs end)
  end.

(** Modelled from the spec: Plan in directory mode: "validate, backfill,
    and plan every unapplied migration in order". *)
Definition planDir (r : HistoryRunner) : M (option error) :=
  do h <- getHistory;
  match validateNoDuplicates r h with
  | Some e => ret (Some e)
  | None =>
      updateMissingMD5Hashes r ;;
      do h <- getHistory;
      do errs <- planLoop r (UnappliedMigrations h (Scan (migrationDir r)));
      match errs with
      | [] => ret None
      | _ :: _ => ret (Some (ErrPlanDir errs))
      end
  end.

(** Modelled from the spec: [Plan(ctx)]: "if [filename] is given, plan only
    that migration (skip validation). Otherwise validate, backfill, and
    plan every unapplied migration in order". *)
Definition Plan (r : HistoryRunner) : M (option error) :=
  if nonEmpty (filename r) then planFile r (filename r)
  else planDir r.

(** Modelled from the spec: "append a record ([type], [name], now,
    [md5_hash])". *)
Definition appendRecord (r : HistoryRunner) (f : string)
    (mc : MigrationConfig) : M unit :=
  do t <- now;
  do h <- getHistory;
  setHistory
    (mkHistory (version h)
       (<[f := mkRecord (MigrationType mc) (MigrationName mc) t
                 (md5 (env r) (default "" (migrationDir r !! f)))]>
          (records h))).

(** Modelled from the spec: "If a single migration's apply fails, stop
    and persist whatever records were already appended; surface the
    error." [appended] counts the records appended by this run. *)
Definition stopAndPersist (appended : nat) (e : error) : M (option error) :=
  match appended with
  | 0 => ret (Some e)
  | S _ =>
      do werr <- Save;
      match werr with
      | None => ret (Some e)
      | Some _ => ret (Some (ErrApplyAndPersist e))
      end
  end.

(** Modelled from the spec: "for each unapplied file in order: load,
    [Migrator.Apply(ctx)], append a record, persist history via
    [storage.Write]"; a failed persist after a successful apply is the
    distinct error [ErrHistoryPersist]. *)
Fixpoint applyLoop (r : HistoryRunner) (files : list string) (appended : nat)
  : M (option error) :=
  match files with
  | [] => ret None
  | f :: rest =>
      match loadMigrationFile r f with
      | inr e => stopAndPersist appended e
      | inl mc =>
          emit (EvMigratorApply f) ;;
          if ApplyError (MigratorOf mc) then
            stopAndPersist appended (ErrApply f)
          else
            appendRecord r f mc ;;
            do werr <- Save;
            match werr with
            | Some _ => ret (Some (ErrHistoryPersist f))
            | None => applyLoop r rest (S appended)
            end
      end
  end.

(** Modelled from the spec: Apply in directory mode: "validate, backfill,
    then for each unapplied file in order ...". *)
Definition applyDir (r : HistoryRunner) : M (option error) :=
  do h <- getHistory;
  match validateNoDuplicates r h with
  | Some e => ret (Some e)
  | None =>
      updateMissingMD5Hashes r ;;
      do h <- getHistory;
      applyLoop r (UnappliedMigrations h (Scan (migrationDir r))) 0
  end.

(** Modelled from the spec: Apply with a file name: "require it to be
    unapplied and apply only it". *)
Definition applyFile (r : HistoryRunner) (f : string) : M (option error) :=
  do h <- getHistory;
  if AlreadyApplied h f then ret (Some (ErrAlreadyApplied f))
  else applyLoop r [f] 0.

(** Modelled from the spec: [Apply(ctx)]. *)
Definition Apply (r : HistoryRunner) : M (option error) :=
  if nonEmpty (filename r) then applyFile r (filename r)
  else applyDir r.

(** Modelled from the spec: [NewHistoryRunner] reads the history from the
    storage into memory. *)
Definition NewHistoryRunner (filename : string)
    (migrationDir : gmap string string) (env : Env) (st : Storage)
  : (HistoryRunner * St) + error :=
  if ReadError st then inr ErrStorageRead
  else inl (mkHistoryRunner filename migrationDir env,
            mkSt (Data st) st [] 0).

End command.

(* ===================================================================== *)
(** * Specification-side notions                                         *)
(* ===================================================================== *)

Module spec.
Import tfexec.

(** The tag-field set of the tag-only heuristic. *)
Definition tagFieldSet : gset string :=
  {[ "tags"; "tags_all"; "tag"; "user_tags"; "system_tags"; "default_tags" ]}.

(** The size of a value, for induction through slices and maps. *)
Fixpoint vsize (v : value) : nat :=
  match v with
  | VSlice l => S (list_sum (map vsize l))
  | VMap m => S (map_fold (fun _ w acc => vsize w + acc) 0 m)
  | _ => 1
  end.

(** The bit patterns of the numbers a JSON document can denote, with one
    pattern per number: in range, not a NaN, and not the negative zero. *)
Definition float64_canonical (bits : Z) : Prop :=
  (0 <= bits < 2 ^ 64)%Z /\ float64_isNaN bits = false /\ bits <> (2 ^ 63)%Z.

(** Values in which every number is canonical. *)
Inductive canonical : value -> Prop :=
  | canonical_nil : canonical VNil
  | canonical_bool b : canonical (VBool b)
  | canonical_float bits : float64_canonical bits -> canonical (VFloat64 bits)
  | canonical_string s : canonical (VString s)
  | canonical_slice l : Forall canonical l -> canonical (VSlice l)
  | canonical_map m : map_Forall (fun _ v => canonical v) m -> canonical (VMap m).

(** The value under a key differs between [before] and [after]: the key
    was removed, was added, or holds values that are not deeply equal. *)
Definition differs (before after : option value) : Prop :=
  match before, after with
  | Some x, Some y => DeepEqual x y = false
  | Some _, None => True
  | None, Some _ => True
  | None, None => False
  end.

(** The tag-only heuristic in the words of the specification: both sides
    are mappings, and every key whose value differs is a tag field. *)
Definition TagOnly (c : Change) : Prop :=
  exists beforeMap afterMap,
    Before c = VMap beforeMap /\ After c = VMap afterMap /\
    forall key, differs (beforeMap !! key) (afterMap !! key) ->
                key ∈ tagFieldSet.

Definition isMapping (v : value) : Prop := exists m, v = VMap m.

(** A safe change: [create], or an [update] that is tag-only. *)
Definition SafeChange (c : Change) : Prop :=
  Actions c = ["create"] \/ (Actions c = ["update"] /\ TagOnly c).

(** What an accepted plan may contain, by the side it was taken on. *)
Definition AcceptedChange (allowCreate : bool) (c : Change) : Prop :=
  Actions c = ["no-op"] \/ (allowCreate = true /\ SafeChange c).

(** The [terraform plan] commands found in a trace: directory, state and
    options of each, in the order they were run. *)
Definition planCall (e : tfmigrate.Event)
  : list (string * tfmigrate.State * list string) :=
  match e with
  | tfmigrate.EvPlan dir state opts => [(dir, state, opts)]
  | _ => []
  end.

Definition planCalls (t : list tfmigrate.Event)
  : list (string * tfmigrate.State * list string) :=
  flat_map planCall t.

(** The [terraform state push] commands found in a trace. *)
Definition pushCall (e : tfmigrate.Event)
  : list (string * option tfmigrate.State) :=
  match e with
  | tfmigrate.EvStatePush dir state => [(dir, state)]
  | _ => []
  end.

Definition pushCalls (t : list tfmigrate.Event)
  : list (string * option tfmigrate.State) :=
  flat_map pushCall t.

(** A projection of events that sees only the plan and push commands. *)
Definition commandsOnly {X : Type} (f : tfmigrate.Event -> list X) : Prop :=
  forall e, match e with
            | tfmigrate.EvPlan _ _ _ | tfmigrate.EvStatePush _ _ => True
            | _ => f e = []
            end.

(** A computation that, run in [w], adds [new] to a projection of the
    trace. *)
Definition adds {X A : Type} (f : tfmigrate.Event -> list X)
    (c : tfmigrate.M A) (w : tfmigrate.World) (new : list X) : Prop :=
  flat_map f (tfmigrate.trace (c w).2)
  = (flat_map f (tfmigrate.trace w) ++ new)%list.

(** A computation that adds nothing to a projection of the trace. *)
Definition preserves {X A : Type} (f : tfmigrate.Event -> list X)
    (c : tfmigrate.M A) : Prop :=
  forall w, flat_map f (tfmigrate.trace (c w).2)
            = flat_map f (tfmigrate.trace w).

(** The lexicographic (byte-wise) order on file names. *)
Definition lexLe (a b : string) : Prop := String.leb a b = true.

(** The history writes found in a trace of the runner. *)
Definition storageWrites (t : list command.Event) : list command.History :=
  flat_map (fun e => match e with
                     | command.EvStorageWrite h => [h]
                     | _ => []
                     end) t.

(** The migrations whose [Apply] was run, in order. *)
Definition appliedFiles (t : list command.Event) : list string :=
  flat_map (fun e => match e with
                     | command.EvMigratorApply f => [f]
                     | _ => []
                     end) t.

(** The steps that switch the backend of a working directory: the
    override to local made by the set-up, and the switch back to
    remote. *)
Inductive BackendStep : Type :=
  | Overridden (dir : string)
  | SwitchedBack (dir : string).

Definition backendStep (e : tfmigrate.Event) : list BackendStep :=
  match e with
  | tfmigrate.EvSetupWorkDir dir _ => [Overridden dir]
  | tfmigrate.EvSwitchBackToRemote dir => [SwitchedBack dir]
  | _ => []
  end.

Definition backendSteps (t : list tfmigrate.Event) : list BackendStep :=
  flat_map backendStep t.

(** The [terraform show -json] commands found in a trace. *)
Definition showCall (e : tfmigrate.Event)
  : list (string * option tfmigrate.Plan) :=
  match e with
  | tfmigrate.EvConvertPlanToJson dir plan => [(dir, plan)]
  | _ => []
  end.

Definition showCalls (t : list tfmigrate.Event)
  : list (string * option tfmigrate.Plan) :=
  flat_map showCall t.

(** A projection of events that sees neither the logs nor the commands of
    the plan checks. *)
Definition checksIgnored {X : Type} (g : tfmigrate.Event -> list X) : Prop :=
  forall e, match e with
            | tfmigrate.EvSetupWorkDir _ _
            | tfmigrate.EvSwitchBackToRemote _
            | tfmigrate.EvStatePush _ _ => True
            | _ => g e = []
            end.

(** A computation that leaves the remote states as they are. *)
Definition keepsRemote {A : Type} (c : tfmigrate.M A) : Prop :=
  forall w, tfmigrate.remote (c w).2 = tfmigrate.remote w.

(** A computation whose result does not depend on the world. *)
Definition constValue {A : Type} (c : tfmigrate.M A) : Prop :=
  forall w w', (c w).1 = (c w').1.

(** A resource change with its two sides exchanged. *)
Definition swapSides (rc : ResourceChange) : ResourceChange :=
  mkResourceChange (Address rc) (ModuleAddress rc) (Mode rc) (Type_ rc)
    (Name rc) (Index rc) (Deposed rc)
    (mkChange (Actions (Change_ rc)) (After (Change_ rc))
       (Before (Change_ rc)))
    (ActionReason rc).

End spec.

(* ===================================================================== *)
(** * Concrete plans, migrators and histories                            *)
(* ===================================================================== *)

Module sample.
Import tfexec.

(** The update of scenarios (c) and (d) of the specification. *)
Definition tagUpdate (afterId : string) : ResourceChange :=
  mkResourceChange "aws_iam_role.a" "" "managed" "aws_iam_role" "a" VNil ""
    (mkChange ["update"]
       (VMap {[ "id" := VString "x";
                "tags" := VMap {[ "a" := VString "1" ]} ]})
       (VMap {[ "id" := VString afterId;
                "tags" := VMap {[ "a" := VString "2" ]} ]}))
    "".

Definition planOf (rcs : list ResourceChange) : TerraformPlanJSON :=
  mkTerraformPlanJSON "1.2" true true false rcs ∅.

(** A resource change with the given actions and no attribute change. *)
Definition changeWith (actions : list string) : ResourceChange :=
  mkResourceChange "aws_iam_role.a" "" "managed" "aws_iam_role" "a" VNil ""
    (mkChange actions VNil VNil) "".

(** A working directory in which terraform never fails and every plan is
    clean. *)
Definition cleanTf (dir : string) : tfmigrate.TerraformCLI :=
  tfmigrate.mkTerraformCLI dir
    (fun _ _ _ _ => None) None
    (fun _ _ => (Some "tfplan", None))
    (fun _ => inl (planOf []))
    (fun _ => None).

(** A working directory whose plan shows that a resource would be
    deleted: [terraform plan] exits with code 2. *)
Definition driftedTf (dir : string) : tfmigrate.TerraformCLI :=
  tfmigrate.mkTerraformCLI dir
    (fun _ _ _ _ => None) None
    (fun _ _ => (Some "tfplan", Some (tfmigrate.ExitError 2 "exit status 2")))
    (fun _ => inl (planOf [changeWith ["delete"]]))
    (fun _ => None).

(** A working directory whose remote refuses the state push. *)
Definition pushFailTf (dir : string) : tfmigrate.TerraformCLI :=
  tfmigrate.mkTerraformCLI dir
    (fun _ _ _ _ => None) None
    (fun _ _ => (Some "tfplan", None))
    (fun _ => inl (planOf []))
    (fun _ => Some (tfmigrate.errorString "failed to push state")).

(** A destination directory whose plan shows a tag-only update, a create
    and a no-op. *)
Definition taggedTf (dir : string) : tfmigrate.TerraformCLI :=
  tfmigrate.mkTerraformCLI dir
    (fun _ _ _ _ => None) None
    (fun _ _ => (Some "tfplan", Some (tfmigrate.ExitError 2 "exit status 2")))
    (fun _ => inl (planOf [tagUpdate "x"; changeWith ["create"];
                           changeWith ["no-op"]]))
    (fun _ => None).

(** [mv]: the resources of the source state move to the destination
    state. A state is written as the list of its addresses. *)
Definition mvAll : tfmigrate.MultiStateAction :=
  fun _ _ fromState toState => inl ("", toState ++ fromState).

Definition noOptions : tfmigrate.MigratorOption :=
  tfmigrate.mkMigratorOption "" "" "" "" false [].

Definition migratorOf (fromTf toTf : tfmigrate.TerraformCLI) (force : bool)
    (fromTfTarget : string) : tfmigrate.MultiStateMigrator :=
  tfmigrate.mkMultiStateMigrator fromTf false toTf false "default" "default"
    [mvAll] noOptions force fromTfTarget.

(** The remote states before the migration: the resource is tracked by
    the source directory. *)
Definition world0 : tfmigrate.World :=
  tfmigrate.mkWorld
    {[ "from_dir" := "aws_iam_role.a"; "to_dir" := "" ]} [].

(** The migration directory of the history runner tests: four mock
    migrations, the fourth of which fails to apply. A file's content is
    written as the name it declares, followed by the failure it is
    configured with. *)
Definition migrations : gmap string string :=
  {[ "20201109000001_test1.hcl" := "test1";
     "20201109000002_test2.hcl" := "test2";
     "20201109000003_test3.hcl" := "test3";
     "20201109000004_test4.hcl" := "test4 apply_error" ]}.

Definition parseMock (_ content : string) : option command.MigrationConfig :=
  if String.eqb content "test1" then
    Some (command.mkMigrationConfig "mock" "test1"
            (command.mkMigrator false false))
  else if String.eqb content "test2" then
    Some (command.mkMigrationConfig "mock" "test2"
            (command.mkMigrator false false))
  else if String.eqb content "test3" then
    Some (command.mkMigrationConfig "mock" "test3"
            (command.mkMigrator false false))
  else if String.eqb content "test4" then
    Some (command.mkMigrationConfig "mock" "test4"
            (command.mkMigrator false false))
  else if String.eqb content "test4 apply_error" then
    Some (command.mkMigrationConfig "mock" "test4"
            (command.mkMigrator false true))
  else if String.eqb content "test4 plan_error" then
    Some (command.mkMigrationConfig "mock" "test4"
            (command.mkMigrator true false))
  else None.

(** A stand-in for the content hash. *)
Definition contentHash (content : string) : string := "md5:" ++ content.

Definition mockEnv : command.Env := command.mkEnv contentHash parseMock.

(** The history the tests start from: the first two migrations were
    applied by an earlier version, which recorded no [md5_hash]. *)
Definition history12 : command.History :=
  command.mkHistory 1
    {[ "20201109000001_test1.hcl" := command.mkRecord "mock" "test1" 1 "";
       "20201109000002_test2.hcl" := command.mkRecord "mock" "test2" 2 "" ]}.

(** A history with a record whose file is no longer on disk. *)
Definition historyMissing : command.History :=
  command.mkHistory 1
    {[ "20201109000001_test1.hcl" := command.mkRecord "mock" "test1" 1 "";
       "20201109000099_missing.hcl" := command.mkRecord "mock" "missing" 1 "" ]}.

Definition runnerOf (filename : string) : command.HistoryRunner :=
  command.mkHistoryRunner filename migrations mockEnv.

(** The same directory with a fourth migration that applies, and with
    one that fails to plan. *)
Definition runnerWith (filename test4 : string) : command.HistoryRunner :=
  command.mkHistoryRunner filename
    (<["20201109000004_test4.hcl" := test4]> migrations) mockEnv.

(** A storage that refuses writes. *)
Definition stateWriteError (h : command.History) : command.St :=
  command.mkSt h (command.mkStorage h true false) [] 3.

Definition stateOf (h : command.History) : command.St :=
  command.mkSt h (command.mkStorage h false false) [] 3.

(** A migration that skips both plan checks, in directories whose plans
    would be rejected. *)
Definition skippingMigrator : tfmigrate.MultiStateMigrator :=
  tfmigrate.mkMultiStateMigrator (driftedTf "from_dir") true
    (driftedTf "to_dir") true "default" "default" [mvAll] noOptions false "".

(** A migration that saves its plans to [tfplan.out]. *)
Definition planOutMigrator : tfmigrate.MultiStateMigrator :=
  tfmigrate.mkMultiStateMigrator (cleanTf "from_dir") false
    (cleanTf "to_dir") false "default" "default" [mvAll]
    (tfmigrate.mkMigratorOption "" "" "" "tfplan.out" false []) false "".

(** A parser of action lines that knows one [mv]. *)
Definition parseAction (cmdStr : string)
  : tfmigrate.MultiStateAction + tfmigrate.error :=
  if String.eqb cmdStr "mv aws_iam_role.a aws_iam_role.a" then inl mvAll
  else inr (tfmigrate.errorString ("unknown action: " ++ cmdStr)).

(** A configuration that names no workspace. *)
Definition configOf (actions : list string)
  : migrator_config.MultiStateMigratorConfig :=
  migrator_config.mkMultiStateMigratorConfig "from_dir" false "to_dir" false
    "" "" actions false "".

(** A migration between two directories whose plans are clean. *)
Definition cleanMigrator : tfmigrate.MultiStateMigrator :=
  migratorOf (cleanTf "from_dir") (cleanTf "to_dir") false "".

(** A constructor of migrators over directories whose plans are clean;
    without options it takes the empty ones. *)
Definition migratorIn (fromDir toDir fromWorkspace toWorkspace : string)
    (actions : list tfmigrate.MultiStateAction)
    (o : option tfmigrate.MigratorOption)
    (force fromSkipPlan toSkipPlan : bool) (fromTfTarget : string)
  : tfmigrate.MultiStateMigrator :=
  tfmigrate.mkMultiStateMigrator (cleanTf fromDir) fromSkipPlan
    (cleanTf toDir) toSkipPlan fromWorkspace toWorkspace actions
    (default noOptions o) force fromTfTarget.

(** An update whose two sides are the same mapping. *)
Definition unchangedUpdate : ResourceChange :=
  mkResourceChange "aws_iam_role.a" "" "managed" "aws_iam_role" "a" VNil ""
    (mkChange ["update"] (VMap {[ "id" := VString "x" ]})
       (VMap {[ "id" := VString "x" ]}))
    "".

End sample.

(* ===================================================================== *)
(** * Properties of the plan classifier                                  *)
(* ===================================================================== *)

Section classifier.
Import tfexec spec sample.

Lemma actionsAre_true (a : string) (actions : list string) :
  actionsAre a actions = true <-> actions = [a].
Proof.
  unfold actionsAre. destruct actions as [|x [|y rest]]; simpl.
  - split; [discriminate | discriminate].
  - split.
    + intros H%String.eqb_eq. now subst.
    + intros [= ->]. apply String.eqb_refl.
  - split; discriminate.
Qed.

Lemma actionsAre_false (a : string) (actions : list string) :
  actionsAre a actions = false <-> actions <> [a].
Proof.
  rewrite <- actionsAre_true. destruct (actionsAre a actions); split;
    congruence.
Qed.

Lemma actionsAreNot_negb (a : string) (actions : list string) :
  actionsAreNot a actions = negb (actionsAre a actions).
Proof.
  unfold actionsAreNot, actionsAre. now rewrite negb_andb.
Qed.

Lemma actionsAreNot_false (a : string) (actions : list string) :
  actionsAreNot a actions = false <-> actions = [a].
Proof.
  rewrite actionsAreNot_negb, negb_false_iff. apply actionsAre_true.
Qed.

Lemma actionsAreNot_true (a : string) (actions : list string) :
  actionsAreNot a actions = true <-> actions <> [a].
Proof.
  rewrite actionsAreNot_negb, negb_true_iff. apply actionsAre_false.
Qed.

(** [HasChanges] is false exactly when every resource change is [no-op]. *)
Lemma HasChanges_false (p : TerraformPlanJSON) :
  HasChanges p = false <->
  Forall (fun rc => Actions (Change_ rc) = ["no-op"]) (ResourceChanges p).
Proof.
  unfold HasChanges.
  assert (Hflag : forall rcs,
    fold_left (fun hasChanges rc =>
                 if actionsAreNot "no-op" (Actions (Change_ rc)) then true
                 else hasChanges) rcs true = true).
  { induction rcs as [|rc rcs IH]; simpl; [reflexivity|].
    destruct (actionsAreNot _ _); exact IH. }
  induction (ResourceChanges p) as [|rc rcs IH]; simpl.
  - split; [constructor | reflexivity].
  - destruct (actionsAreNot "no-op" (Actions (Change_ rc))) eqn:E.
    + rewrite Hflag. split; [discriminate|].
      intros H. inversion H as [|? ? Hrc _]; subst.
      apply actionsAreNot_true in E. contradiction.
    + apply actionsAreNot_false in E. rewrite IH. split.
      * intros H. constructor; assumption.
      * intros H. inversion H; assumption.
Qed.

Lemma isTagField_elem_of (key : string) (fields : list string) :
  isTagField key fields = true <-> key ∈ fields.
Proof.
  induction fields as [|f fields IH]; simpl.
  - split; [discriminate | intros H; inversion H].
  - rewrite elem_of_cons. destruct (String.eqb_spec key f) as [->|Hne].
    + split; [now left | reflexivity].
    + rewrite IH. split; [now right | intros [?|?]; [contradiction|assumption]].
Qed.

Lemma isTagField_tagFields (key : string) :
  isTagField key tagFields = true <-> key ∈ tagFieldSet.
Proof.
  rewrite isTagField_elem_of. unfold tagFields, tagFieldSet.
  rewrite !elem_of_cons, elem_of_nil, !elem_of_union, !elem_of_singleton.
  tauto.
Qed.

Lemma vsize_slice (l : list value) (v : value) :
  v ∈ l -> vsize v < vsize (VSlice l).
Proof.
  cbn [vsize]. induction l as [|x l IH]; intros Hin; [inversion Hin|].
  apply elem_of_cons in Hin as [->|Hin]; cbn [map list_sum foldr]; [lia|].
  specialize (IH Hin). unfold list_sum in IH. lia.
Qed.

Lemma vsize_map (m : gmap string value) (k : string) (v : value) :
  m !! k = Some v -> vsize v < vsize (VMap m).
Proof.
  cbn [vsize]. rewrite map_fold_foldr. intros Hin%elem_of_map_to_list.
  induction (map_to_list m) as [|[k' v'] l IH]; [inversion Hin|].
  apply elem_of_cons in Hin as [[= <- <-]|Hin]; cbn; [lia|].
  specialize (IH Hin). lia.
Qed.

Lemma float64_eq_canonical (a b : Z) :
  float64_canonical a -> float64_canonical b ->
  float64_eq a b = true <-> a = b.
Proof.
  intros (Ha & Hna & Hza) (Hb & Hnb & Hzb). unfold float64_eq.
  rewrite Hna, Hnb. cbn [negb andb].
  rewrite orb_true_iff, andb_true_iff, Z.eqb_eq.
  unfold float64_isZero. rewrite !Z.eqb_eq.
  change 0x7FFFFFFFFFFFFFFF%Z with (Z.ones 63).
  rewrite !Z.land_ones by lia.
  split; [|intros ->; now left].
  intros [H|[H1 H2]]; [exact H|].
  pose proof (Z.div_mod a (2 ^ 63) ltac:(lia)) as Da.
  pose proof (Z.div_mod b (2 ^ 63) ltac:(lia)) as Db.
  rewrite H1 in Da. rewrite H2 in Db.
  change (2 ^ 63)%Z with 9223372036854775808%Z in *.
  change (2 ^ 64)%Z with 18446744073709551616%Z in *.
  lia.
Qed.

Lemma foldr_andb (g : string -> value -> bool) (l : list (string * value)) :
  foldr (uncurry (fun k v acc => acc && g k v)) true l = true <->
  Forall (fun kv => g kv.1 kv.2 = true) l.
Proof.
  induction l as [|[k v] l IH]; cbn.
  - split; [constructor | reflexivity].
  - rewrite Forall_cons, andb_true_iff, IH. cbn. tauto.
Qed.

Lemma map_fold_andb (g : string -> value -> bool) (m : gmap string value) :
  map_fold (fun k v acc => acc && g k v) true m = true <->
  map_Forall (fun k v => g k v = true) m.
Proof.
  rewrite map_fold_foldr, foldr_andb, map_Forall_to_list.
  split; intros H; (eapply Forall_impl; [exact H|]); intros [k v]; auto.
Qed.

Lemma DeepEqual_map (m1 m2 : gmap string value) :
  DeepEqual (VMap m1) (VMap m2)
  = (size m1 =? size m2)%nat
    && map_fold (fun k v1 acc =>
                   acc && match m2 !! k with
                          | Some v2 => DeepEqual v1 v2
                          | None => false
                          end) true m1.
Proof. reflexivity. Qed.

Lemma DeepEqual_slice_nil_l (l2 : list value) :
  DeepEqual (VSlice []) (VSlice l2) = match l2 with [] => true | _ => false end.
Proof. destruct l2; reflexivity. Qed.

Lemma DeepEqual_slice_cons (a : value) (l1 l2 : list value) :
  DeepEqual (VSlice (a :: l1)) (VSlice l2)
  = match l2 with
    | [] => false
    | b :: l2' => DeepEqual a b && DeepEqual (VSlice l1) (VSlice l2')
    end.
Proof. destruct l2; reflexivity. Qed.

(** On canonical values [reflect.DeepEqual] is structural equality. *)
Lemma DeepEqual_eq (x y : value) :
  canonical x -> canonical y -> (DeepEqual x y = true <-> x = y).
Proof.
  remember (vsize x) as n eqn:Hn. revert x y Hn.
  induction n as [n IH] using lt_wf_ind. intros x y -> Hx Hy.
  destruct Hx as [|a|a Ha|a|l1 Hl1|m1 Hm1];
    destruct Hy as [|b|b Hb|b|l2 Hl2|m2 Hm2];
    try (cbn; split; [discriminate | intros [=]]; fail);
    try (cbn; split; reflexivity).
  - cbn. destruct a, b; cbn; split; congruence.
  - cbn [DeepEqual]. rewrite (float64_eq_canonical a b Ha Hb).
    split; congruence.
  - cbn [DeepEqual]. rewrite String.eqb_eq. split; congruence.
  - (* slices *)
    assert (Hs : forall l1' l2', (forall v, v ∈ l1' -> v ∈ l1) ->
               Forall canonical l1' -> Forall canonical l2' ->
               DeepEqual (VSlice l1') (VSlice l2') = true <-> l1' = l2').
    { induction l1' as [|a l1' IHl]; intros l2' Hsub Hc1 Hc2.
      - rewrite DeepEqual_slice_nil_l. destruct l2'; split; congruence.
      - rewrite DeepEqual_slice_cons. destruct l2' as [|b l2'];
          [split; congruence|].
        apply Forall_cons in Hc1 as [Ha Hc1].
        apply Forall_cons in Hc2 as [Hb Hc2].
        rewrite andb_true_iff.
        rewrite (IH (vsize a)); [| |reflexivity|exact Ha|exact Hb].
        + rewrite IHl; [split; [intros [-> ->]; reflexivity
                               | intros [= -> ->]; auto]| |exact Hc1|exact Hc2].
          intros v Hv. apply Hsub. now right.
        + apply vsize_slice, Hsub. left. }
    rewrite Hs; [split; congruence| auto |exact Hl1|exact Hl2].
  - (* maps *)
    rewrite DeepEqual_map, andb_true_iff, Nat.eqb_eq, map_fold_andb.
    split.
    + intros [Hsize Hall]. f_equal.
      apply map_subseteq_size_eq; [|lia].
      apply map_subseteq_spec. intros k v1 Hk.
      specialize (Hall k v1 Hk). cbn in Hall.
      destruct (m2 !! k) as [v2|] eqn:Hk2; [|discriminate].
      apply (IH (vsize v1)) in Hall;
        [congruence | eapply vsize_map; eauto | reflexivity
         | eapply Hm1; eauto | eapply Hm2; eauto].
    + intros [= <-]. split; [reflexivity|].
      intros k v1 Hk. cbn. rewrite Hk.
      apply (IH (vsize v1));
        [eapply vsize_map; eauto | reflexivity
         | eapply Hm1; eauto | eapply Hm1; eauto | reflexivity].
Qed.

(** On canonical values, a key differs exactly when it is present on one
    side only or holds two different values. *)
Lemma differs_canonical (x y : value) :
  canonical x -> canonical y -> differs (Some x) (Some y) <-> x <> y.
Proof.
  intros Hx Hy. cbn [differs]. rewrite <- (DeepEqual_eq x y Hx Hy).
  destruct (DeepEqual x y); split; congruence.
Qed.

(** The first loop accepts exactly when every entry of [beforeMap] that
    was removed or changed is a tag field. *)
Lemma beforeLoop_true (entries : list (string * value))
    (afterMap : gmap string value) :
  beforeLoop entries afterMap = true <->
  Forall (fun kv => differs (Some kv.2) (afterMap !! kv.1) ->
                    kv.1 ∈ tagFieldSet) entries.
Proof.
  induction entries as [|[key beforeVal] rest IH]; cbn [beforeLoop].
  - split; [constructor | reflexivity].
  - rewrite Forall_cons. cbn [fst snd].
    rewrite <- IH, <- isTagField_tagFields. clear IH.
    destruct (isTagField key tagFields);
      destruct (afterMap !! key) as [afterVal|];
      try destruct (DeepEqual beforeVal afterVal) eqn:Eeq;
      cbn [differs negb]; intuition (try discriminate; try congruence).
Qed.

(** The second loop accepts exactly when every key added in [afterMap] is
    a tag field. *)
Lemma afterLoop_true (entries : list (string * value))
    (beforeMap : gmap string value) :
  afterLoop entries beforeMap = true <->
  Forall (fun kv => beforeMap !! kv.1 = None -> kv.1 ∈ tagFieldSet) entries.
Proof.
  induction entries as [|[key afterVal] rest IH]; cbn [afterLoop].
  - split; [constructor | reflexivity].
  - rewrite Forall_cons. cbn [fst snd].
    rewrite <- IH, <- isTagField_tagFields. clear IH.
    destruct (isTagField key tagFields);
      destruct (beforeMap !! key) as [beforeVal|];
      cbn [negb]; intuition (try discriminate; try congruence).
Qed.

Lemma isTagOnlyChangeIn_true (beforeOrder afterOrder : list (string * value))
    (beforeMap afterMap : gmap string value) :
  isTagOnlyChangeIn beforeOrder afterOrder beforeMap afterMap = true <->
  beforeLoop beforeOrder afterMap = true /\
  afterLoop afterOrder beforeMap = true.
Proof.
  unfold isTagOnlyChangeIn.
  destruct (beforeLoop beforeOrder afterMap); simpl.
  - split; [intros H; split; [reflexivity | exact H] | intros [_ H]; exact H].
  - split; [discriminate | intros [H _]; exact H].
Qed.

(** Go does not fix the order in which [range] yields the entries of a
    map; the verdict of [isTagOnlyChange] is the same for every order. *)
Lemma isTagOnlyChangeIn_order (o1 o1' o2 o2' : list (string * value))
    (beforeMap afterMap : gmap string value) :
  o1 ≡ₚ o1' -> o2 ≡ₚ o2' ->
  isTagOnlyChangeIn o1 o2 beforeMap afterMap
  = isTagOnlyChangeIn o1' o2' beforeMap afterMap.
Proof.
  intros H1 H2. apply eq_true_iff_eq.
  rewrite !isTagOnlyChangeIn_true, !beforeLoop_true, !afterLoop_true.
  now rewrite H1, H2.
Qed.

(** The two loops over the maps decide the tag-only heuristic. *)
Lemma tagOnly_maps (beforeMap afterMap : gmap string value) :
  isTagOnlyChangeIn (map_to_list beforeMap) (map_to_list afterMap)
    beforeMap afterMap = true <->
  forall key, differs (beforeMap !! key) (afterMap !! key) ->
              key ∈ tagFieldSet.
Proof.
  rewrite isTagOnlyChangeIn_true, beforeLoop_true, afterLoop_true.
  rewrite !Forall_forall. split.
  - intros [Hb Ha] key Hd.
    destruct (beforeMap !! key) as [x|] eqn:Ebk.
    + apply (Hb (key, x)); [now apply elem_of_map_to_list | exact Hd].
    + destruct (afterMap !! key) as [y|] eqn:Eak; [|destruct Hd].
      apply (Ha (key, y)); [now apply elem_of_map_to_list | exact Ebk].
  - intros H. split.
    + intros [key x] Hin%elem_of_map_to_list Hd. simpl in *.
      apply H. now rewrite Hin.
    + intros [key y] Hin%elem_of_map_to_list Hnone. simpl in *.
      apply H. now rewrite Hin, Hnone.
Qed.

(** [isTagOnlyChange] decides the tag-only heuristic of the
    specification. *)
Lemma isTagOnlyChange_TagOnly (p : TerraformPlanJSON) (rc : ResourceChange) :
  isTagOnlyChange p rc = true <-> TagOnly (Change_ rc).
Proof.
  unfold isTagOnlyChange, TagOnly.
  destruct (Before (Change_ rc)) as [| | | | |beforeMap];
    try (split; [discriminate | intros (? & ? & ? & _); discriminate]).
  destruct (After (Change_ rc)) as [| | | | |afterMap];
    try (split; [discriminate | intros (? & ? & _ & ? & _); discriminate]).
  rewrite tagOnly_maps. split.
  - intros H. exists beforeMap, afterMap. auto.
  - intros (bm & am & [= <-] & [= <-] & H). exact H.
Qed.

Lemma isTagOnlyChange_not_mapping (p : TerraformPlanJSON)
    (rc : ResourceChange) :
  ~ isMapping (Before (Change_ rc)) \/ ~ isMapping (After (Change_ rc)) ->
  isTagOnlyChange p rc = false.
Proof.
  intros H. unfold isTagOnlyChange.
  destruct (Before (Change_ rc)) as [| | | | |beforeMap]; try reflexivity.
  destruct (After (Change_ rc)) as [| | | | |afterMap]; try reflexivity.
  destruct H as [H|H]; exfalso; apply H; eexists; reflexivity.
Qed.

(** One iteration of the loop of [HasOnlySafeActions] lets a resource
    change pass exactly when it is [no-op] or safe. *)
Lemma HasOnlySafeActions_Forall (p : TerraformPlanJSON) :
  HasOnlySafeActions p = true <->
  Forall (fun rc => Actions (Change_ rc) = ["no-op"] \/
                    SafeChange (Change_ rc)) (ResourceChanges p).
Proof.
  unfold HasOnlySafeActions.
  induction (ResourceChanges p) as [|rc rcs IH]; simpl.
  - split; [constructor | reflexivity].
  - rewrite Forall_cons, <- IH. clear IH. unfold SafeChange.
    destruct (actionsAre "no-op" (Actions (Change_ rc))) eqn:Enoop.
    { apply actionsAre_true in Enoop. tauto. }
    apply actionsAre_false in Enoop.
    destruct (actionsAre "create" (Actions (Change_ rc))) eqn:Ecreate.
    { apply actionsAre_true in Ecreate. tauto. }
    apply actionsAre_false in Ecreate.
    destruct (actionsAre "update" (Actions (Change_ rc))) eqn:Eupdate; simpl.
    + apply actionsAre_true in Eupdate.
      destruct (isTagOnlyChange p rc) eqn:Etag.
      * apply isTagOnlyChange_TagOnly in Etag. tauto.
      * split; [discriminate|]. intros [[H|[H|[_ H]]] _]; try contradiction.
        apply (isTagOnlyChange_TagOnly p) in H. congruence.
    + apply actionsAre_false in Eupdate.
      split; [discriminate|]. intros [[H|[H|[H _]]] _]; contradiction.
Qed.

(** Scenario (c) of the specification: a tag-only update. *)
Example scenario_c_tag_only_update :
  HasOnlySafeActions (planOf [tagUpdate "x"]) = true.
Proof. vm_compute. reflexivity. Qed.

(** Scenario (d): the same update also changes [id]. *)
Example scenario_d_non_tag_update :
  HasOnlySafeActions (planOf [tagUpdate "y"]) = false.
Proof. vm_compute. reflexivity. Qed.

(** C8: [HasOnlyOutputChanges] returns true if and only if the
    output-changes mapping is non-empty and every resource change has
    actions exactly [no-op]. *)
Theorem HasOnlyOutputChanges_iff (p : TerraformPlanJSON) :
  HasOnlyOutputChanges p = true <->
  OutputChanges p <> ∅ /\
  Forall (fun rc => Actions (Change_ rc) = ["no-op"]) (ResourceChanges p).
Proof.
  unfold HasOnlyOutputChanges.
  induction (ResourceChanges p) as [|rc rcs IH]; cbn zeta.
  - rewrite Nat.ltb_lt, <- map_size_non_empty_iff. split.
    + intros H. split; [lia | constructor].
    + intros [H _]. lia.
  - rewrite Forall_cons.
    destruct (actionsAreNot "no-op" (Actions (Change_ rc))) eqn:E.
    + apply actionsAreNot_true in E. split; [discriminate | tauto].
    + apply actionsAreNot_false in E. cbn zeta in IH. rewrite IH. tauto.
Qed.

(** C4: [HasOnlySafeActions] returns true if and only if every resource
    change whose actions are not exactly [no-op] has actions exactly
    [create], or exactly [update] with a tag-only change (both sides are
    mappings and every key that was changed, added or removed is one of
    the six tag fields, values being compared by deep equality); an
    [update] where a side is not a mapping is never tag-only, and a plan
    that contains one is not safe. *)
Theorem HasOnlySafeActions_iff (p : TerraformPlanJSON) :
  (HasOnlySafeActions p = true <->
   forall rc, rc ∈ ResourceChanges p ->
              Actions (Change_ rc) <> ["no-op"] ->
              Actions (Change_ rc) = ["create"] \/
              (Actions (Change_ rc) = ["update"] /\
               exists beforeMap afterMap,
                 Before (Change_ rc) = VMap beforeMap /\
                 After (Change_ rc) = VMap afterMap /\
                 forall key,
                   differs (beforeMap !! key) (afterMap !! key) ->
                   key ∈ tagFieldSet))
  /\
  (forall rc,
     Actions (Change_ rc) = ["update"] ->
     ~ isMapping (Before (Change_ rc)) \/ ~ isMapping (After (Change_ rc)) ->
     isTagOnlyChange p rc = false /\
     (rc ∈ ResourceChanges p -> HasOnlySafeActions p = false)).
Proof.
  split.
  - rewrite HasOnlySafeActions_Forall, Forall_forall.
    unfold SafeChange, TagOnly. split.
    + intros H rc Hin Hne. destruct (H rc Hin) as [Hnoop|Hsafe];
        [contradiction | exact Hsafe].
    + intros H rc Hin.
      destruct (decide (Actions (Change_ rc) = ["no-op"])) as [Hnoop|Hne];
        [left; exact Hnoop | right; exact (H rc Hin Hne)].
  - intros rc Hupdate Hmap.
    pose proof (isTagOnlyChange_not_mapping p rc Hmap) as Hfalse.
    split; [exact Hfalse|]. intros Hin.
    destruct (HasOnlySafeActions p) eqn:Esafe; [|reflexivity].
    apply HasOnlySafeActions_Forall in Esafe.
    rewrite Forall_forall in Esafe.
    destruct (Esafe rc Hin) as [Hnoop|[Hcreate|[_ Htag]]];
      try congruence.
    apply (isTagOnlyChange_TagOnly p) in Htag. congruence.
Qed.

End classifier.

(* ===================================================================== *)
(** * Properties of the multi-state migrator                             *)
(* ===================================================================== *)

Section migrator.
Import tfexec tfmigrate spec sample.

Lemma planCalls_app (t1 t2 : list Event) :
  (planCalls (t1 ++ t2) = planCalls t1 ++ planCalls t2)%list.
Proof. apply flat_map_app. Qed.

Lemma pushCalls_app (t1 t2 : list Event) :
  (pushCalls (t1 ++ t2) = pushCalls t1 ++ pushCalls t2)%list.
Proof. apply flat_map_app. Qed.

(** Unfolding of the monadic glue and of the calls that only record an
    event. *)
Ltac run :=
  unfold tf_Plan, tf_ConvertPlanToJson, log_Printf, emit, getRemote,
    setRemote, bind, ret in *;
  cbn [fst snd remote trace] in *.

(** [checkPlan] accepts a plan that terraform reported clean (no error)
    without asking for its JSON form. *)
Lemma checkPlan_nil_error (plan : option Plan) (tf : TerraformCLI)
    (allowCreate : bool) (stateType : string) (w : World) :
  checkPlan plan tf None allowCreate stateType w
  = (true, "✅ ACCEPTED: " ++ stateType ++ " state plan has no changes", w).
Proof. reflexivity. Qed.

(** When the plan command failed, [checkPlan] accepts only in two ways:
    exit code 2 with a plan JSON that has no changes, or exit code 2 on
    the destination side with a plan JSON that has only safe actions. *)
Lemma checkPlan_accepts (plan : option Plan) (tf : TerraformCLI)
    (e : error) (allowCreate : bool) (stateType : string) (w : World) :
  (checkPlan plan tf (Some e) allowCreate stateType w).1.1 = true ->
  exists msg planJSON,
    e = ExitError 2 msg /\ showResult tf plan = inl planJSON /\
    (HasChanges planJSON = false \/
     (allowCreate = true /\ HasOnlySafeActions planJSON = true)).
Proof.
  unfold checkPlan.
  destruct e as [code msg|msg|errs]; try (run; discriminate).
  destruct code as [|[c|[c|c|]|]|c]; try (run; discriminate).
  run. destruct (showResult tf plan) as [planJSON|jsonerr];
    [|cbn; discriminate].
  intros H. exists msg, planJSON. split; [reflexivity|]. split; [reflexivity|].
  destruct (HasChanges planJSON); [|now left]. right.
  cbn [negb] in H.
  destruct allowCreate; cbn [andb] in H; [|cbn in H; discriminate].
  destruct (HasOnlySafeActions planJSON); [split; reflexivity|].
  cbn in H. discriminate.
Qed.

(** C3: for every plan JSON accepted by [checkPlan]: on the source side
    ([allowCreate = false]) every resource change has actions exactly
    [no-op]; on the destination side ([allowCreate = true]) every
    resource change has actions exactly [no-op], exactly [create], or
    exactly [update] with a tag-only change. *)
Theorem checkPlan_accepted_plan (plan : option Plan) (tf : TerraformCLI)
    (e : error) (allowCreate : bool) (stateType : string) (w : World)
    (planJSON : TerraformPlanJSON) :
  showResult tf plan = inl planJSON ->
  (checkPlan plan tf (Some e) allowCreate stateType w).1.1 = true ->
  Forall (fun rc =>
            Actions (Change_ rc) = ["no-op"] \/
            (allowCreate = true /\
             (Actions (Change_ rc) = ["create"] \/
              (Actions (Change_ rc) = ["update"] /\ TagOnly (Change_ rc)))))
    (ResourceChanges planJSON).
Proof.
  intros Hshow Hacc.
  destruct (checkPlan_accepts _ _ _ _ _ _ Hacc)
    as (msg & planJSON' & _ & Hshow' & Hcases).
  rewrite Hshow in Hshow'. injection Hshow' as <-.
  destruct Hcases as [Hclean|[-> Hsafe]].
  - apply HasChanges_false in Hclean.
    eapply Forall_impl; [exact Hclean|]. intros rc H. now left.
  - apply HasOnlySafeActions_Forall in Hsafe.
    eapply Forall_impl; [exact Hsafe|]. intros rc [H|H]; [now left|].
    right. split; [reflexivity | exact H].
Qed.

Lemma commandsOnly_planCall : commandsOnly planCall.
Proof. intros []; cbn; trivial. Qed.

Lemma commandsOnly_pushCall : commandsOnly pushCall.
Proof. intros []; cbn; trivial. Qed.

Section projections.
Context {X : Type} (f : Event -> list X).

Lemma preserves_ret {A : Type} (x : A) : preserves f (ret x : M A).
Proof. intros w. reflexivity. Qed.

Lemma preserves_bind {A B : Type} (c : M A) (k : A -> M B) :
  preserves f c -> (forall a, preserves f (k a)) -> preserves f (bind c k).
Proof.
  intros Hc Hk w. unfold bind. specialize (Hc w).
  destruct (c w) as [a w'] eqn:E. cbn [snd] in Hc.
  rewrite Hk. exact Hc.
Qed.

Lemma preserves_emit (e : Event) : f e = [] -> preserves f (emit e).
Proof.
  intros He w. unfold emit. cbn [snd trace].
  rewrite flat_map_app. cbn [flat_map]. rewrite He.
  now rewrite !app_nil_r.
Qed.

Lemma flat_map_emit (e : Event) (w : World) :
  (flat_map f (trace (emit e w).2) = flat_map f (trace w) ++ f e)%list.
Proof.
  unfold emit. cbn [snd trace]. rewrite flat_map_app. cbn [flat_map].
  now rewrite app_nil_r.
Qed.

Hypothesis Hf : commandsOnly f.

Lemma preserves_log (msg : string) : preserves f (log_Printf msg).
Proof. apply preserves_emit. exact (Hf (EvLog msg)). Qed.

Lemma preserves_checkPlan (plan : option Plan) (tf : TerraformCLI)
    (er : option error) (allowCreate : bool) (stateType : string) :
  preserves f (checkPlan plan tf er allowCreate stateType).
Proof.
  unfold checkPlan, tf_ConvertPlanToJson.
  repeat first
    [ apply preserves_ret
    | apply preserves_log
    | apply preserves_emit; match goal with |- f ?e = [] => exact (Hf e) end
    | apply preserves_bind; [|intros ?]
    | match goal with
      | |- preserves f (match ?x with _ => _ end) => destruct x
      | |- preserves f (if ?x then _ else _) => destruct x
      end ].
Qed.

Lemma adds_preserves {A : Type} (c : M A) (w : World) :
  preserves f c -> adds f c w [].
Proof. intros H. unfold adds. now rewrite H, app_nil_r. Qed.

Lemma adds_emit (e : Event) (w : World) : adds f (emit e) w (f e).
Proof. apply flat_map_emit. Qed.

Lemma adds_bind {A B : Type} (c : M A) (k : A -> M B) (w : World)
    (new1 new2 : list X) :
  adds f c w new1 -> adds f (k (c w).1) (c w).2 new2 ->
  adds f (bind c k) w (new1 ++ new2).
Proof.
  unfold adds, bind. destruct (c w) as [a w']. cbn [fst snd].
  intros -> ->. now rewrite app_assoc.
Qed.

Lemma adds_eq {A : Type} (c : M A) (w : World) (new new' : list X) :
  adds f c w new -> new = new' -> adds f c w new'.
Proof. now intros H <-. Qed.

(** The plan check of [toDir] runs one plan command, with the base
    options, unless it is skipped. *)
Lemma planTo_adds (m : MultiStateMigrator) (fs ts : State) (w : World) :
  adds f (planTo m fs ts) w
    (if toSkipPlan m then []
     else f (EvPlan (Dir (toTf m)) ts (basePlanOpts m))).
Proof.
  unfold planTo. destruct (toSkipPlan m).
  - apply adds_preserves.
    apply preserves_bind; [apply preserves_log | intros; apply preserves_ret].
  - eapply adds_eq.
    + eapply adds_bind; [apply adds_preserves, preserves_log|].
      eapply adds_bind.
      * unfold tf_Plan. eapply adds_bind; [apply adds_emit|].
        apply adds_preserves, preserves_ret.
      * apply adds_preserves.
        match goal with |- preserves f (let 'pair _ _ := ?x in _) =>
          destruct x as [plan err] end.
        apply preserves_bind; [apply preserves_checkPlan|].
        intros [clean reason].
        destruct clean; cbn [negb]; [|destruct (force m)];
          repeat first [ apply preserves_ret | apply preserves_log
                       | apply preserves_bind; [|intros ?] ].
    + cbn [app]. now rewrite !app_nil_r.
Qed.

(** The plan check of [fromDir] runs one plan command unless skipped, with
    the base options plus the target when one is configured; the plan
    check of [toDir] follows if the source plan was accepted. *)
Lemma planFrom_adds (m : MultiStateMigrator) (fs ts : State) (w : World) :
  exists toCalls,
    adds f (planFrom m fs ts) w
      ((if fromSkipPlan m then []
        else f (EvPlan (Dir (fromTf m)) fs
                  (basePlanOpts m
                   ++ (if negb (String.eqb (fromTfTarget m) "")
                       then [("-target=" ++ fromTfTarget m)%string]
                       else []))%list))
       ++ toCalls) /\
    (toCalls = [] \/
     toCalls = if toSkipPlan m then []
               else f (EvPlan (Dir (toTf m)) ts (basePlanOpts m))).
Proof.
  unfold planFrom. destruct (fromSkipPlan m).
  - eexists. split; [|right; reflexivity].
    eapply adds_eq.
    + eapply adds_bind; [apply adds_preserves, preserves_log|].
      apply planTo_adds.
    + reflexivity.
  - cbn zeta. unfold adds, tf_Plan, log_Printf, emit, bind, ret.
    cbn [fst snd trace remote].
    match goal with |- context [planResult ?tf ?s ?o] =>
      destruct (planResult tf s o) as [plan err] end.
    match goal with |- context [checkPlan ?p ?tf ?e ?a ?s ?w0] =>
      pose proof (preserves_checkPlan p tf e a s w0) as Hcheck;
      destruct (checkPlan p tf e a s w0) as [[clean reason] w3]
    end.
    cbn [fst snd trace] in Hcheck.
    rewrite !flat_map_app in Hcheck. cbn [flat_map] in Hcheck.
    rewrite (Hf (EvLog _)) in Hcheck. rewrite !app_nil_r in Hcheck.
    destruct clean; cbn [negb].
    + eexists. split; [|right; reflexivity].
      pose proof (planTo_adds m fs ts) as Hto. unfold adds in Hto.
      rewrite Hto. cbn [fst snd trace].
      rewrite flat_map_app. cbn [flat_map]. rewrite (Hf (EvLog _)).
      rewrite Hcheck, !app_nil_r. now rewrite <- !app_assoc.
    + exists []. split; [|left; reflexivity].
      cbn [fst snd trace].
      rewrite flat_map_app. cbn [flat_map]. rewrite (Hf (EvLog _)).
      rewrite Hcheck, !app_nil_r. reflexivity.
Qed.

(** What [plan] adds to the trace: at most one plan command in [fromDir],
    then at most one in [toDir]; set-up, actions and the deferred restores
    add none. *)
Lemma plan_adds (m : MultiStateMigrator) (w : World) :
  exists fromCalls toCalls,
    adds f (plan m) w (fromCalls ++ toCalls) /\
    (fromCalls = [] \/
     exists state,
       fromCalls
       = f (EvPlan (Dir (fromTf m)) state
              (basePlanOpts m
               ++ (if negb (String.eqb (fromTfTarget m) "")
                   then [("-target=" ++ fromTfTarget m)%string]
                   else []))%list)) /\
    (toCalls = [] \/
     exists state,
       toCalls = f (EvPlan (Dir (toTf m)) state (basePlanOpts m))).
Proof.
  pose proof (fun d ws => Hf (EvSetupWorkDir d ws)) as Hsetup.
  pose proof (fun d => Hf (EvSwitchBackToRemote d)) as Hswitch.
  pose proof (fun msg => Hf (EvLog msg)) as Hlog.
  cbn beta iota in Hsetup, Hswitch, Hlog.
  unfold adds, plan, deferJoin, setupWorkDir, planBody, getRemote,
    log_Printf, emit, bind, ret.
  cbn [fst snd trace remote].
  destruct (setupResult (fromTf m) _ _ _ _).
  { exists [], []. split; [|split; left; reflexivity].
    cbn [fst snd trace]. rewrite flat_map_app. cbn [flat_map].
    now rewrite Hsetup, !app_nil_r. }
  cbn [fst snd trace remote].
  destruct (setupResult (toTf m) _ _ _ _).
  { exists [], []. split; [|split; left; reflexivity].
    cbn [fst snd trace]. rewrite !flat_map_app. cbn [flat_map].
    now rewrite !Hsetup, Hswitch, !app_nil_r. }
  cbn [fst snd trace remote].
  match goal with |- context [applyActions ?a ?b ?c ?d ?e] =>
    destruct (applyActions a b c d e) as [[fs ts]|err] end.
  - match goal with |- context [planFrom m fs ts ?w0] =>
      destruct (planFrom_adds m fs ts w0) as (toCalls & Hadds & Hto);
      unfold adds in Hadds;
      destruct (planFrom m fs ts w0) as [[[r1 r2] r3] w'] end.
    cbn [fst snd trace] in Hadds |- *.
    rewrite !flat_map_app in Hadds. cbn [flat_map] in Hadds.
    rewrite !Hsetup, Hlog, !app_nil_r in Hadds.
    eexists _, toCalls. split.
    + rewrite !flat_map_app. cbn [flat_map].
      rewrite !Hswitch, !app_nil_r. exact Hadds.
    + split.
      * destruct (fromSkipPlan m); [left; reflexivity|].
        right. eexists. reflexivity.
      * destruct Hto as [->| ->]; [left; reflexivity|].
        destruct (toSkipPlan m); [left; reflexivity|].
        right. eexists. reflexivity.
  - exists [], []. split; [|split; left; reflexivity].
    cbn [fst snd trace]. rewrite !flat_map_app. cbn [flat_map].
    now rewrite !Hsetup, !Hswitch, Hlog, !app_nil_r.
Qed.

End projections.

(** No option of the base plan options is a [-target] option. *)
Lemma basePlanOpts_no_target (m : MultiStateMigrator) (opt : string) :
  opt ∈ basePlanOpts m -> String.prefix "-target=" opt = false.
Proof.
  unfold basePlanOpts. rewrite elem_of_app, !elem_of_cons, elem_of_nil.
  intros [[->|[->|[->|[]]]]|H]; try reflexivity.
  destruct (negb _); [|inversion H].
  apply list_elem_of_singleton in H. subst. reflexivity.
Qed.

(** C9: for a multi-state migration with a non-empty [from_tf_target],
    the plan command run in the source directory receives the base plan
    options followed by [-target=<from_tf_target>], while the plan command
    run in the destination directory receives exactly the base plan
    options, none of which is a [-target] option. [plan] runs no other
    plan command. *)
Theorem plan_target_source_only (m : MultiStateMigrator) (w : World) :
  fromTfTarget m <> "" ->
  exists fromCalls toCalls,
    planCalls (trace (plan m w).2)
    = (planCalls (trace w) ++ fromCalls ++ toCalls)%list /\
    (fromCalls = [] \/
     exists state,
       fromCalls
       = [(Dir (fromTf m), state,
           (basePlanOpts m ++ [("-target=" ++ fromTfTarget m)%string])%list)]) /\
    (toCalls = [] \/
     exists state,
       toCalls = [(Dir (toTf m), state, basePlanOpts m)]) /\
    (forall opt, opt ∈ basePlanOpts m ->
                 String.prefix "-target=" opt = false).
Proof.
  intros Htarget.
  destruct (plan_adds planCall commandsOnly_planCall m w)
    as (fromCalls & toCalls & Hadds & Hfrom & Hto).
  exists fromCalls, toCalls. split; [exact Hadds|].
  split; [|split; [exact Hto | apply basePlanOpts_no_target]].
  destruct Hfrom as [->|[state ->]]; [left; reflexivity|].
  right. exists state.
  apply String.eqb_neq in Htarget. rewrite Htarget. reflexivity.
Qed.

(** With a target configured, both plan commands of the sample migration
    are run, and only the source one carries the target. *)
Example plan_target_example :
  planCalls
    (trace (plan (migratorOf (cleanTf "from_dir") (cleanTf "to_dir") false
                    "aws_iam_role.a") world0).2)
  = [("from_dir", "",
      ["-input=false"; "-no-color"; "-detailed-exitcode";
       "-target=aws_iam_role.a"]);
     ("to_dir", "aws_iam_role.a",
      ["-input=false"; "-no-color"; "-detailed-exitcode"])].
Proof. vm_compute. reflexivity. Qed.

(** The verdict and the reason of [checkPlan] do not depend on the world
    it runs in. *)
Lemma checkPlan_verdict (plan : option Plan) (tf : TerraformCLI)
    (er : option error) (allowCreate : bool) (stateType : string)
    (w w' : World) :
  (checkPlan plan tf er allowCreate stateType w).1
  = (checkPlan plan tf er allowCreate stateType w').1.
Proof.
  unfold checkPlan, tf_ConvertPlanToJson, log_Printf, emit, bind, ret.
  repeat match goal with
         | |- context [match ?x with _ => _ end] => destruct x
         end; reflexivity.
Qed.

(** A rejected source plan ends [plan] with an error, whatever [force]
    is: the source branch never reads it. *)
Lemma planFrom_rejected (m : MultiStateMigrator) (fs ts : State) (w : World) :
  fromSkipPlan m = false ->
  (let '(plan, err) :=
     planResult (fromTf m) fs
       (basePlanOpts m
        ++ (if negb (String.eqb (fromTfTarget m) "")
            then [("-target=" ++ fromTfTarget m)%string] else []))%list in
   (checkPlan plan (fromTf m) err false "source" w).1.1) = false ->
  (planFrom m fs ts w).1
  = (None, None,
     Some (errorString
             ("terraform plan command returns unexpected diffs in from_dir: "
              ++ Dir (fromTf m)))).
Proof.
  intros Hskip. unfold planFrom. rewrite Hskip. cbn zeta.
  unfold tf_Plan, log_Printf, emit, bind, ret. cbn [fst snd].
  destruct (planResult (fromTf m) fs _) as [plan err].
  intros Hrej.
  match goal with |- context [checkPlan plan ?tf err ?a ?s ?w0] =>
    rewrite (checkPlan_verdict plan tf err a s w w0) in Hrej;
    destruct (checkPlan plan tf err a s w0) as [[clean reason] w3]
  end.
  cbn [fst] in Hrej. subst clean. reflexivity.
Qed.

(** A rejected destination plan is an error without [force] and is let
    through with [force]. *)
Lemma planTo_rejected (m : MultiStateMigrator) (fs ts : State) (w : World) :
  toSkipPlan m = false ->
  (let '(plan, err) := planResult (toTf m) ts (basePlanOpts m) in
   (checkPlan plan (toTf m) err true "destination" w).1.1) = false ->
  (planTo m fs ts w).1
  = if force m then (Some fs, Some ts, None)
    else (None, None,
          Some (errorString
                  ("terraform plan command returns unexpected diffs  to_dir: "
                   ++ Dir (toTf m)))).
Proof.
  intros Hskip. unfold planTo. rewrite Hskip. cbn zeta.
  unfold tf_Plan, log_Printf, emit, bind, ret. cbn [fst snd].
  destruct (planResult (toTf m) ts _) as [plan err].
  intros Hrej.
  match goal with |- context [checkPlan plan ?tf err ?a ?s ?w0] =>
    rewrite (checkPlan_verdict plan tf err a s w w0) in Hrej;
    destruct (checkPlan plan tf err a s w0) as [[clean reason] w3]
  end.
  cbn [fst] in Hrej. subst clean. cbn [negb].
  destruct (force m); reflexivity.
Qed.

(** The source plan is checked with [allowCreate = false]: when [plan]
    gets past a source plan that terraform reported as changed, every
    resource change of that plan is a [no-op]. *)
Lemma planFrom_accepted_source (m : MultiStateMigrator) (fs ts : State)
    (w : World) (plan : option Plan) (e : error)
    (planJSON : TerraformPlanJSON) :
  fromSkipPlan m = false ->
  planResult (fromTf m) fs
    (basePlanOpts m
     ++ (if negb (String.eqb (fromTfTarget m) "")
         then [("-target=" ++ fromTfTarget m)%string] else []))%list
  = (plan, Some e) ->
  showResult (fromTf m) plan = inl planJSON ->
  (planFrom m fs ts w).1.2 = None ->
  Forall (fun rc => Actions (Change_ rc) = ["no-op"])
    (ResourceChanges planJSON).
Proof.
  intros Hskip Hplan Hshow. unfold planFrom. rewrite Hskip. cbn zeta.
  unfold tf_Plan, log_Printf, emit, bind, ret. cbn [fst snd].
  rewrite Hplan.
  match goal with |- context [checkPlan plan ?tf ?er ?a ?s ?w0] =>
    pose proof (checkPlan_accepts plan tf e a s w0) as Hacc;
    destruct (checkPlan plan tf er a s w0) as [[clean reason] w3]
  end.
  destruct clean; cbn [negb fst snd]; [|discriminate].
  intros _. destruct (Hacc eq_refl) as (msg & pj & _ & Hpj & Hcases).
  rewrite Hshow in Hpj. injection Hpj as <-.
  destruct Hcases as [Hclean|[Hfalse _]]; [|discriminate].
  now apply HasChanges_false.
Qed.

(** The destination plan is checked with [allowCreate = true]: without
    [force], when [plan] gets past a destination plan that terraform
    reported as changed, every resource change of that plan is a [no-op]
    or safe. *)
Lemma planTo_accepted_destination (m : MultiStateMigrator) (fs ts : State)
    (w : World) (plan : option Plan) (e : error)
    (planJSON : TerraformPlanJSON) :
  toSkipPlan m = false -> force m = false ->
  planResult (toTf m) ts (basePlanOpts m) = (plan, Some e) ->
  showResult (toTf m) plan = inl planJSON ->
  (planTo m fs ts w).1.2 = None ->
  Forall (fun rc => Actions (Change_ rc) = ["no-op"] \/
                    SafeChange (Change_ rc))
    (ResourceChanges planJSON).
Proof.
  intros Hskip Hforce Hplan Hshow. unfold planTo. rewrite Hskip, Hforce.
  cbn zeta. unfold tf_Plan, log_Printf, emit, bind, ret. cbn [fst snd].
  rewrite Hplan.
  match goal with |- context [checkPlan plan ?tf ?er ?a ?s ?w0] =>
    pose proof (checkPlan_accepts plan tf e a s w0) as Hacc;
    destruct (checkPlan plan tf er a s w0) as [[clean reason] w3]
  end.
  destruct clean; cbn [negb fst snd]; [|discriminate].
  intros _. destruct (Hacc eq_refl) as (msg & pj & _ & Hpj & Hcases).
  rewrite Hshow in Hpj. injection Hpj as <-.
  destruct Hcases as [Hclean|[_ Hsafe]].
  - apply HasChanges_false in Hclean.
    eapply Forall_impl; [exact Hclean|]. intros rc H. now left.
  - now apply HasOnlySafeActions_Forall.
Qed.

(** [Apply] pushes in a fixed order: the push in [fromDir] comes first and
    the push in [toDir] is attempted only after it succeeded. *)
Lemma Apply_push_order (m : MultiStateMigrator) (w : World) :
  exists pushes,
    pushCalls (trace (Apply m w).2) = (pushCalls (trace w) ++ pushes)%list /\
    (pushes = [] \/
     (exists fs, pushes = [(Dir (fromTf m), fs)]) \/
     (exists fs ts, pushes = [(Dir (fromTf m), fs); (Dir (toTf m), ts)])).
Proof.
  unfold Apply, tf_StatePush, log_Printf, setRemote, bind, ret.
  unfold pushCalls. unfold emit at 1. cbn [fst snd].
  match goal with |- context [plan m ?w0] =>
    destruct (plan_adds pushCall commandsOnly_pushCall m w0)
      as (c1 & c2 & Hadds & H1 & H2);
    unfold adds in Hadds;
    destruct (plan m w0) as [[[fs ts] err] w1]
  end.
  assert (c1 = []) as -> by (destruct H1 as [->|[? ->]]; reflexivity).
  assert (c2 = []) as -> by (destruct H2 as [->|[? ->]]; reflexivity).
  cbn [fst snd trace] in Hadds.
  rewrite flat_map_app in Hadds. cbn in Hadds. rewrite !app_nil_r in Hadds.
  destruct err as [e|].
  { exists []. split; [|left; reflexivity]. cbn [snd].
    now rewrite Hadds, app_nil_r. }
  unfold emit. cbn [fst snd trace remote].
  destruct (pushResult (fromTf m) fs) as [e|].
  { exists [(Dir (fromTf m), fs)]. split; [|right; left; eauto].
    cbn [fst snd trace]. rewrite !flat_map_app. cbn.
    now rewrite Hadds, !app_nil_r. }
  exists [(Dir (fromTf m), fs); (Dir (toTf m), ts)].
  split; [|right; right; eauto].
  destruct fs as [s1|]; cbn [fst snd trace remote];
    (destruct (pushResult (toTf m) ts) as [e|]; [|destruct ts as [s2|]]);
    cbn [fst snd trace remote]; rewrite !flat_map_app; cbn;
    rewrite Hadds, !app_nil_r, <- ?app_assoc; reflexivity.
Qed.

(** C3, at the destination plan of the sample: a tag-only update, a create
    and a no-op are accepted. *)
Lemma checkPlan_accepted_plan_witness :
  showResult (taggedTf "to_dir") (Some "tfplan")
  = inl (planOf [tagUpdate "x"; changeWith ["create"]; changeWith ["no-op"]])
  /\
  (checkPlan (Some "tfplan") (taggedTf "to_dir")
     (Some (ExitError 2 "exit status 2")) true "destination" world0).1.1
  = true /\
  Forall (fun rc =>
            Actions (Change_ rc) = ["no-op"] \/
            (true = true /\
             (Actions (Change_ rc) = ["create"] \/
              (Actions (Change_ rc) = ["update"] /\ TagOnly (Change_ rc)))))
    [tagUpdate "x"; changeWith ["create"]; changeWith ["no-op"]].
Proof.
  split; [reflexivity|]. split; [vm_compute; reflexivity|].
  apply (checkPlan_accepted_plan (Some "tfplan") (taggedTf "to_dir")
           (ExitError 2 "exit status 2") true "destination" world0
           (planOf [tagUpdate "x"; changeWith ["create"];
                    changeWith ["no-op"]])).
  - reflexivity.
  - vm_compute. reflexivity.
Defined.

(** C9, at the sample migration with target [aws_iam_role.a]. *)
Lemma plan_target_source_only_witness :
  "aws_iam_role.a" <> "" /\
  exists fromCalls toCalls,
    planCalls
      (trace (plan (migratorOf (cleanTf "from_dir") (cleanTf "to_dir") false
                      "aws_iam_role.a") world0).2)
    = (planCalls (trace world0) ++ fromCalls ++ toCalls)%list /\
    (fromCalls = [] \/
     exists state,
       fromCalls
       = [("from_dir", state,
           (["-input=false"; "-no-color"; "-detailed-exitcode"]
            ++ ["-target=aws_iam_role.a"])%list)]) /\
    (toCalls = [] \/
     exists state,
       toCalls = [("to_dir", state,
                   ["-input=false"; "-no-color"; "-detailed-exitcode"])]) /\
    (forall opt,
       opt ∈ ["-input=false"; "-no-color"; "-detailed-exitcode"] ->
       String.prefix "-target=" opt = false).
Proof.
  split; [discriminate|].
  apply (plan_target_source_only
           (migratorOf (cleanTf "from_dir") (cleanTf "to_dir") false
              "aws_iam_role.a") world0).
  discriminate.
Defined.

(** C1 (the code at a migration whose destination push fails): the claim
    asks for the destination state to be pushed before the source state.
    [Apply] pushes the source state first; when the destination push then
    fails, the moved resource [aws_iam_role.a] has left the source's
    remote state and has not reached the destination's. *)
Theorem Apply_pushes_source_first :
  let r := Apply (migratorOf (cleanTf "from_dir") (pushFailTf "to_dir")
                    false "") world0 in
  remote world0 !! "from_dir" = Some "aws_iam_role.a" /\
  r.1 = Some (errorString "failed to push state") /\
  pushCalls (trace r.2)
  = [("from_dir", Some ""); ("to_dir", Some "aws_iam_role.a")] /\
  remote r.2 !! "from_dir" = Some "" /\
  remote r.2 !! "to_dir" = Some "".
Proof. vm_compute. repeat split; reflexivity. Qed.

(** C2 (the code at a forced migration whose source plan is rejected):
    the claim asks for [force] to downgrade the rejection to a warning on
    either side. With [force] set and a rejected source plan, [Apply]
    returns the error, runs no destination plan and pushes nothing; the
    same rejection on the destination side is let through. *)
Theorem force_ignored_for_source_plan :
  let rejectedSource :=
    Apply (migratorOf (driftedTf "from_dir") (cleanTf "to_dir") true "")
      world0 in
  let rejectedDestination :=
    Apply (migratorOf (cleanTf "from_dir") (driftedTf "to_dir") true "")
      world0 in
  rejectedSource.1
  = Some (joinError
            [joinError
               [errorString
                  "terraform plan command returns unexpected diffs in from_dir: from_dir"]]) /\
  planCalls (trace rejectedSource.2)
  = [("from_dir", "", ["-input=false"; "-no-color"; "-detailed-exitcode"])] /\
  pushCalls (trace rejectedSource.2) = [] /\
  rejectedDestination.1 = None /\
  pushCalls (trace rejectedDestination.2)
  = [("from_dir", Some ""); ("to_dir", Some "aws_iam_role.a")].
Proof. vm_compute. repeat split; reflexivity. Qed.

End migrator.

(* ===================================================================== *)
(** * Properties of the history runner                                   *)
(* ===================================================================== *)

Section runner.
Import command spec sample.

Lemma storageWrites_app (t1 t2 : list Event) :
  (storageWrites (t1 ++ t2) = storageWrites t1 ++ storageWrites t2)%list.
Proof. apply flat_map_app. Qed.

Lemma appliedFiles_app (t1 t2 : list Event) :
  (appliedFiles (t1 ++ t2) = appliedFiles t1 ++ appliedFiles t2)%list.
Proof. apply flat_map_app. Qed.

Lemma lexLe_trans (s1 s2 s3 : string) :
  lexLe s1 s2 -> lexLe s2 s3 -> lexLe s1 s3.
Proof.
  unfold lexLe, String.leb.
  revert s2 s3. induction s1 as [|c1 s1 IH]; intros [|c2 s2] [|c3 s3]; cbn;
    try congruence.
  unfold Ascii.compare.
  destruct (N.compare_spec (Ascii.N_of_ascii c1) (Ascii.N_of_ascii c2));
    destruct (N.compare_spec (Ascii.N_of_ascii c2) (Ascii.N_of_ascii c3));
    destruct (N.compare_spec (Ascii.N_of_ascii c1) (Ascii.N_of_ascii c3));
    try congruence; try lia.
  apply IH.
Qed.

Lemma elem_of_insertSorted (x y : string) (l : list string) :
  y ∈ insertSorted x l <-> y = x \/ y ∈ l.
Proof.
  induction l as [|z l IH]; cbn [insertSorted].
  - rewrite list_elem_of_singleton, elem_of_nil. tauto.
  - destruct (String.leb x z); rewrite !elem_of_cons; [tauto|].
    rewrite IH. tauto.
Qed.

Lemma insertSorted_sorted (x : string) (l : list string) :
  StronglySorted lexLe l -> StronglySorted lexLe (insertSorted x l).
Proof.
  induction l as [|z l IH]; cbn [insertSorted]; intros Hl.
  - repeat constructor.
  - apply StronglySorted_inv in Hl as [Hl Hz].
    destruct (String.leb x z) eqn:E.
    + constructor; [constructor; assumption|].
      constructor; [exact E|].
      eapply Forall_impl; [exact Hz|]. intros y Hy.
      exact (lexLe_trans _ _ _ E Hy).
    + constructor; [apply IH, Hl|].
      apply Forall_forall. intros y Hy.
      apply elem_of_insertSorted in Hy as [->|Hy].
      * destruct (String.leb_total x z) as [H|H]; [congruence | exact H].
      * rewrite Forall_forall in Hz. now apply Hz.
Qed.

Lemma sortStrings_sorted (l : list string) :
  StronglySorted lexLe (sortStrings l).
Proof.
  induction l as [|x l IH]; cbn; [constructor|].
  now apply insertSorted_sorted.
Qed.

Lemma elem_of_sortStrings (x : string) (l : list string) :
  x ∈ sortStrings l <-> x ∈ l.
Proof.
  induction l as [|y l IH]; cbn; [reflexivity|].
  rewrite elem_of_insertSorted, elem_of_cons, IH. reflexivity.
Qed.

Lemma StronglySorted_filter (P : string -> bool) (l : list string) :
  StronglySorted lexLe l -> StronglySorted lexLe (List.filter P l).
Proof.
  induction 1 as [|x l Hl IH Hx]; cbn; [constructor|].
  destruct (P x); [|exact IH].
  constructor; [exact IH|].
  apply Forall_forall. intros y Hy.
  apply list_elem_of_In, filter_In in Hy as [Hy _].
  rewrite Forall_forall in Hx. now apply Hx, list_elem_of_In.
Qed.

(** Scan yields the [.hcl] files of the directory, in lexicographic
    order. *)
Lemma Scan_sorted (dir : gmap string string) : StronglySorted lexLe (Scan dir).
Proof. apply sortStrings_sorted. Qed.

Lemma elem_of_Scan (dir : gmap string string) (f : string) :
  f ∈ Scan dir <-> HasSuffix f ".hcl" = true /\ is_Some (dir !! f).
Proof.
  unfold Scan. rewrite elem_of_sortStrings, list_elem_of_In, filter_In.
  rewrite <- list_elem_of_In, list_elem_of_fmap.
  split.
  - intros [([k v] & -> & Hin%elem_of_map_to_list) Hs]. split; [exact Hs|].
    cbn. eauto.
  - intros [Hs [v Hv]]. split; [|exact Hs].
    exists (f, v). split; [reflexivity|]. now apply elem_of_map_to_list.
Qed.

(** The unapplied migrations are in lexicographic order. *)
Lemma UnappliedMigrations_sorted (h : History) (dir : gmap string string) :
  StronglySorted lexLe (UnappliedMigrations h (Scan dir)).
Proof. apply StronglySorted_filter, Scan_sorted. Qed.

(** What the backfill does to the state: only the records in memory
    change, each by [backfillRecord]. *)
Lemma updateMissingMD5Hashes_run (r : HistoryRunner) (s : St) :
  updateMissingMD5Hashes r s
  = (None,
     mkSt (mkHistory (version (hc s))
             (map_imap (fun f rec => Some (backfillRecord r f rec))
                (records (hc s))))
       (storage s) (trace s) (clock s)).
Proof. reflexivity. Qed.

Lemma lookup_backfill (r : HistoryRunner) (s : St) (f : string) :
  records (hc (updateMissingMD5Hashes r s).2) !! f
  = backfillRecord r f <$> records (hc s) !! f.
Proof.
  rewrite updateMissingMD5Hashes_run. cbn [snd hc records].
  rewrite map_lookup_imap. now destruct (records (hc s) !! f).
Qed.

(** C7: [updateMissingMD5Hashes] sets the [md5_hash] of every history
    record whose hash is empty and whose migration file exists on disk to
    the MD5 of that file's current content; a record whose file is
    missing is skipped without error and its hash stays empty; a record
    that already has a non-empty hash is never overwritten. *)
Theorem updateMissingMD5Hashes_backfills (r : HistoryRunner) (s : St)
    (f : string) (rec : Record_) :
  records (hc s) !! f = Some rec ->
  let res := updateMissingMD5Hashes r s in
  res.1 = None /\
  (MD5Hash rec = "" ->
   forall content, migrationDir r !! f = Some content ->
     records (hc res.2) !! f
     = Some (mkRecord (Type_ rec) (Name rec) (AppliedAt rec)
               (md5 (env r) content))) /\
  (MD5Hash rec = "" -> migrationDir r !! f = None ->
   records (hc res.2) !! f = Some rec) /\
  (MD5Hash rec <> "" -> records (hc res.2) !! f = Some rec).
Proof.
  intros Hrec res. subst res. split; [reflexivity|].
  rewrite lookup_backfill, Hrec. cbn [fmap option_fmap option_map].
  unfold backfillRecord.
  split; [|split].
  - intros -> content ->. reflexivity.
  - intros -> ->. reflexivity.
  - intros Hne%String.eqb_neq. now rewrite Hne.
Qed.

(** The backfill neither adds nor removes a record, and leaves the
    storage alone. *)
Lemma updateMissingMD5Hashes_frame (r : HistoryRunner) (s : St) :
  let res := updateMissingMD5Hashes r s in
  (forall f, records (hc s) !! f = None -> records (hc res.2) !! f = None) /\
  storage res.2 = storage s /\ trace res.2 = trace s.
Proof.
  cbn zeta. split; [|split; reflexivity].
  intros f Hnone. now rewrite lookup_backfill, Hnone.
Qed.

(** C6: [Apply] invoked with a file name that already has a record in
    the history returns an error, and nothing changes: neither the
    persisted history nor the records in memory, and nothing is run. *)
Theorem Apply_already_applied (r : HistoryRunner) (s : St) (rec : Record_) :
  filename r <> "" ->
  records (hc s) !! filename r = Some rec ->
  Apply r s = (Some (ErrAlreadyApplied (filename r)), s).
Proof.
  intros Hname Hrec. unfold Apply, nonEmpty.
  apply String.eqb_neq in Hname. rewrite Hname. cbn [negb].
  unfold applyFile, getHistory, bind, AlreadyApplied. now rewrite Hrec.
Qed.

(** Planning one file touches neither the storage nor the records. *)
Lemma planFile_frame (r : HistoryRunner) (f : string) (s : St) :
  let s' := (planFile r f s).2 in
  storage s' = storage s /\ hc s' = hc s /\
  storageWrites (trace s') = storageWrites (trace s).
Proof.
  unfold planFile. destruct (loadMigrationFile r f) as [mc|e].
  - unfold emit, bind, ret. destruct (PlanError (MigratorOf mc));
      cbn [snd storage hc trace]; rewrite storageWrites_app; cbn;
      now rewrite app_nil_r.
  - cbn. auto.
Qed.

Lemma planLoop_frame (r : HistoryRunner) (files : list string) (s : St) :
  let s' := (planLoop r files s).2 in
  storage s' = storage s /\ hc s' = hc s /\
  storageWrites (trace s') = storageWrites (trace s).
Proof.
  revert s. induction files as [|f rest IH]; intros s; cbn [planLoop].
  - cbn. auto.
  - unfold bind. pose proof (planFile_frame r f s) as Hf.
    destruct (planFile r f s) as [err s1]. cbn [snd] in Hf.
    specialize (IH s1). destruct (planLoop r rest s1) as [errs s2].
    cbn [snd] in IH |- *. unfold ret. cbn [snd].
    destruct IH as (-> & -> & ->). exact Hf.
Qed.

(** C10: the [Plan] operation of the history runner, with or without a
    file name and whether it succeeds or fails, never writes to the
    history storage: it issues no write, and after it returns the
    storage holds what it held before, also when the backfill has
    changed records in memory. *)
Theorem Plan_never_writes (r : HistoryRunner) (s : St) :
  storage (Plan r s).2 = storage s /\
  storageWrites (trace (Plan r s).2) = storageWrites (trace s).
Proof.
  unfold Plan. destruct (nonEmpty (filename r)).
  - destruct (planFile_frame r (filename r) s) as (H1 & _ & H2). auto.
  - unfold planDir, getHistory, bind.
    destruct (validateNoDuplicates r (hc s)); [cbn; auto|].
    rewrite updateMissingMD5Hashes_run.
    match goal with |- context [planLoop r ?files ?s1] =>
      pose proof (planLoop_frame r files s1) as Hloop;
      destruct (planLoop r files s1) as [errs s2]
    end.
    cbn [snd storage trace] in Hloop. destruct Hloop as (H1 & _ & H2).
    destruct errs; cbn; auto.
Qed.

(** The record that [appendRecord] writes for a migration file. *)
Lemma appendRecord_run (r : HistoryRunner) (f : string)
    (mc : MigrationConfig) (s : St) :
  appendRecord r f mc s
  = (tt,
     mkSt (mkHistory (version (hc s))
             (<[f := mkRecord (MigrationType mc) (MigrationName mc) (clock s)
                       (md5 (env r) (default "" (migrationDir r !! f)))]>
                (records (hc s))))
       (storage s) (trace s) (S (clock s))).
Proof. reflexivity. Qed.

(** [Save] on a storage that accepts writes. *)
Lemma Save_run (s : St) :
  WriteError (storage s) = false ->
  Save s
  = (None,
     mkSt (hc s) (mkStorage (hc s) false (ReadError (storage s)))
       (trace s ++ [EvStorageWrite (hc s)]) (clock s)).
Proof.
  intros Hw. unfold Save, storage_Write, getHistory, emit, bind.
  cbn [storage hc trace clock]. now rewrite Hw.
Qed.

(** The loop of [applyDir] on a list of files whose first failure is
    [f]: every file before [f] is applied, recorded and persisted; the
    loop stops at [f] with its error. *)
Lemma applyLoop_stops (r : HistoryRunner) (pre : list string) (f : string)
    (post : list string) (mcf : MigrationConfig) :
  (forall g, g ∈ pre ->
     exists mc, loadMigrationFile r g = inl mc /\
                ApplyError (MigratorOf mc) = false) ->
  loadMigrationFile r f = inl mcf ->
  ApplyError (MigratorOf mcf) = true ->
  forall (appended : nat) (s : St),
    WriteError (storage s) = false ->
    let res := applyLoop r (pre ++ f :: post) appended s in
    res.1 = Some (ErrApply f) /\
    appliedFiles (trace res.2)
    = (appliedFiles (trace s) ++ pre ++ [f])%list /\
    (forall g, g ∈ pre ->
       exists mc t,
         loadMigrationFile r g = inl mc /\
         records (hc res.2) !! g
         = Some (mkRecord (MigrationType mc) (MigrationName mc) t
                   (md5 (env r) (default "" (migrationDir r !! g))))) /\
    (forall k, k ∉ pre -> records (hc res.2) !! k = records (hc s) !! k) /\
    (if decide (appended + length pre = 0) then storage res.2 = storage s
     else Data (storage res.2) = hc res.2).
Proof.
  intros Hpre Hf Hfail.
  induction pre as [|g pre IH]; intros appended s Hw res; subst res.
  - cbn [app applyLoop]. rewrite Hf. unfold bind, emit. rewrite Hfail.
    cbn [fst snd].
    assert (Hnone : forall g, g ∈ [] -> exists mc t,
              loadMigrationFile r g = inl mc /\
              records (hc s) !! g
              = Some (mkRecord (MigrationType mc) (MigrationName mc) t
                        (md5 (env r) (default "" (migrationDir r !! g))))).
    { intros g Hg. inversion Hg. }
    destruct appended as [|n]; cbn [stopAndPersist].
    + cbn [ret fst snd trace hc storage]. unfold ret. cbn [fst snd trace hc storage].
      rewrite appliedFiles_app. cbn. rewrite ?app_nil_r.
      repeat split; auto.
    + unfold bind. rewrite Save_run by exact Hw.
      unfold ret. cbn [fst snd trace hc storage Data].
      rewrite !appliedFiles_app. cbn. rewrite ?app_nil_r.
      repeat split; auto.
  - destruct (Hpre g) as (mc & Hload & Hok); [left|].
    set (s1' :=
           mkSt (mkHistory (version (hc s))
                   (<[g := mkRecord (MigrationType mc) (MigrationName mc)
                             (clock s)
                             (md5 (env r) (default "" (migrationDir r !! g)))]>
                      (records (hc s))))
             (mkStorage
                (mkHistory (version (hc s))
                   (<[g := mkRecord (MigrationType mc) (MigrationName mc)
                             (clock s)
                             (md5 (env r) (default "" (migrationDir r !! g)))]>
                      (records (hc s))))
                false (ReadError (storage s)))
             ((trace s ++ [EvMigratorApply g])
              ++ [EvStorageWrite
                    (mkHistory (version (hc s))
                       (<[g := mkRecord (MigrationType mc) (MigrationName mc)
                                 (clock s)
                                 (md5 (env r)
                                    (default "" (migrationDir r !! g)))]>
                          (records (hc s))))])
             (S (clock s))).
    assert (Hstep : applyLoop r ((g :: pre) ++ f :: post) appended s
                    = applyLoop r (pre ++ f :: post) (S appended) s1').
    { cbn [app applyLoop]. rewrite Hload. unfold bind, emit. cbn [fst snd].
      rewrite Hok, appendRecord_run.
      rewrite Save_run by exact Hw. reflexivity. }
    rewrite Hstep.
    assert (Hpre' : forall g0, g0 ∈ pre ->
              exists mc0, loadMigrationFile r g0 = inl mc0 /\
                          ApplyError (MigratorOf mc0) = false).
    { intros g0 Hg0. apply Hpre. now right. }
    specialize (IH Hpre' (S appended) s1' eq_refl). cbn zeta in IH.
    destruct IH as (Hres & Htrace & Hrecs & Hother & Hstore).
    split; [exact Hres|]. split; [|split; [|split]].
    + rewrite Htrace. subst s1'. cbn [trace].
      rewrite !appliedFiles_app. cbn. rewrite ?app_nil_r.
      now rewrite <- !app_assoc.
    + intros g0 Hg0. destruct (decide (g0 ∈ pre)) as [Hin|Hnotin].
      * apply Hrecs, Hin.
      * apply elem_of_cons in Hg0 as [->|Hin]; [|contradiction].
        exists mc, (clock s). split; [exact Hload|].
        rewrite (Hother g Hnotin). subst s1'. cbn [hc records].
        apply lookup_insert_eq.
    + intros k Hk. apply not_elem_of_cons in Hk as [Hne Hk].
      rewrite (Hother k Hk). subst s1'. cbn [hc records].
      now apply lookup_insert_ne.
    + cbn [length]. destruct (decide (appended + S (length pre) = 0)) as [E|_];
        [lia|].
      destruct (decide (S appended + length pre = 0)) as [E|_]; [lia|].
      exact Hstore.
Qed.

(** The backfill does not change which files are unapplied. *)
Lemma UnappliedMigrations_backfill (r : HistoryRunner) (s : St)
    (files : list string) :
  UnappliedMigrations (hc (updateMissingMD5Hashes r s).2) files
  = UnappliedMigrations (hc s) files.
Proof.
  unfold UnappliedMigrations. apply List.filter_ext. intros f.
  unfold AlreadyApplied. rewrite lookup_backfill.
  now destruct (records (hc s) !! f).
Qed.

Lemma UnappliedMigrations_lookup (h : History) (files : list string)
    (f : string) :
  f ∈ UnappliedMigrations h files -> records h !! f = None.
Proof.
  unfold UnappliedMigrations. rewrite list_elem_of_In, filter_In.
  unfold AlreadyApplied. intros [_ H].
  now destruct (records h !! f).
Qed.

(** C5: when the unapplied migrations of a directory are applied in
    order and the apply of one of them fails, the run stops at that
    migration (it is the last one whose [Apply] is run, after the ones
    before it in lexicographic order), its error is
    returned, the records appended for the migrations that succeeded
    before it are in the storage, and neither the storage nor the
    records in memory hold a record for the failed migration. The
    storage is one that accepts writes and from which the runner was
    loaded. *)
Theorem Apply_stops_at_failed_migration (r : HistoryRunner) (s : St)
    (pre : list string) (f : string) (post : list string)
    (mcf : MigrationConfig) :
  filename r = "" ->
  validateNoDuplicates r (hc s) = None ->
  WriteError (storage s) = false ->
  Data (storage s) = hc s ->
  UnappliedMigrations (hc s) (Scan (migrationDir r)) = (pre ++ f :: post)%list ->
  (forall g, g ∈ pre ->
     exists mc, loadMigrationFile r g = inl mc /\
                ApplyError (MigratorOf mc) = false) ->
  loadMigrationFile r f = inl mcf ->
  ApplyError (MigratorOf mcf) = true ->
  let res := Apply r s in
  StronglySorted lexLe (pre ++ f :: post) /\
  res.1 = Some (ErrApply f) /\
  appliedFiles (trace res.2) = (appliedFiles (trace s) ++ pre ++ [f])%list /\
  (forall g, g ∈ pre ->
     exists mc t,
       loadMigrationFile r g = inl mc /\
       records (Data (storage res.2)) !! g
       = Some (mkRecord (MigrationType mc) (MigrationName mc) t
                 (md5 (env r) (default "" (migrationDir r !! g))))) /\
  records (Data (storage res.2)) !! f = None /\
  records (hc res.2) !! f = None.
Proof.
  intros Hdir Hvalid Hw Hsync Hun Hpre Hf Hfail res. subst res.
  split; [rewrite <- Hun; apply UnappliedMigrations_sorted|].
  assert (Hfnone : records (hc s) !! f = None).
  { apply (UnappliedMigrations_lookup _ (Scan (migrationDir r))).
    rewrite Hun. apply elem_of_app. right. left. }
  assert (Hfpre : f ∉ pre).
  { intros Hin. destruct (Hpre f Hin) as (mc & Hload & Hok).
    rewrite Hf in Hload. injection Hload as <-. congruence. }
  set (s1 := (updateMissingMD5Hashes r s).2).
  assert (Hrun : Apply r s = applyLoop r (pre ++ f :: post) 0 s1).
  { unfold Apply, nonEmpty. rewrite Hdir. cbn [String.eqb negb].
    unfold applyDir, getHistory, bind. rewrite Hvalid.
    rewrite updateMissingMD5Hashes_run.
    rewrite <- Hun, <- (UnappliedMigrations_backfill r s). reflexivity. }
  rewrite Hrun.
  destruct (applyLoop_stops r pre f post mcf Hpre Hf Hfail 0 s1 Hw)
    as (Hres & Htrace & Hrecs & Hother & Hstore).
  split; [exact Hres|]. split; [exact Htrace|].
  assert (Hf1 : records (hc s1) !! f = None).
  { subst s1. now rewrite lookup_backfill, Hfnone. }
  cbn [Nat.add] in Hstore.
  destruct (decide (length pre = 0)) as [Hlen|Hlen].
  - apply length_zero_iff_nil in Hlen. subst pre.
    rewrite Hstore. change (storage s1) with (storage s). rewrite Hsync.
    split; [intros g Hg; inversion Hg|]. split; [exact Hfnone|].
    now rewrite (Hother f Hfpre).
  - rewrite Hstore. split; [exact Hrecs|].
    split; now rewrite (Hother f Hfpre).
Qed.

(** C7, at the history of the missing-file test: the record of the
    existing file gets its hash, the record of the missing file keeps an
    empty one. *)
Lemma updateMissingMD5Hashes_backfills_witness :
  records (hc (stateOf historyMissing)) !! "20201109000001_test1.hcl"
  = Some (mkRecord "mock" "test1" 1 "") /\
  let res := updateMissingMD5Hashes (runnerOf "") (stateOf historyMissing) in
  res.1 = None /\
  records (hc res.2) !! "20201109000001_test1.hcl"
  = Some (mkRecord "mock" "test1" 1 "md5:test1") /\
  records (hc res.2) !! "20201109000099_missing.hcl"
  = Some (mkRecord "mock" "missing" 1 "").
Proof.
  split; [vm_compute; reflexivity|].
  pose proof (updateMissingMD5Hashes_backfills (runnerOf "")
                (stateOf historyMissing) "20201109000001_test1.hcl"
                (mkRecord "mock" "test1" 1 "")) as H1.
  pose proof (updateMissingMD5Hashes_backfills (runnerOf "")
                (stateOf historyMissing) "20201109000099_missing.hcl"
                (mkRecord "mock" "missing" 1 "")) as H2.
  cbn zeta in *.
  destruct H1 as (Herr & Hset & _); [vm_compute; reflexivity|].
  destruct H2 as (_ & _ & Hskip & _); [vm_compute; reflexivity|].
  split; [exact Herr|]. split.
  - apply (Hset eq_refl "test1"). vm_compute. reflexivity.
  - apply (Hskip eq_refl). vm_compute. reflexivity.
Defined.

(** C6, at the test "a migration has already been applied". *)
Lemma Apply_already_applied_witness :
  "20201109000002_test2.hcl" <> "" /\
  records (hc (stateOf history12)) !! "20201109000002_test2.hcl"
  = Some (mkRecord "mock" "test2" 2 "") /\
  Apply (runnerOf "20201109000002_test2.hcl") (stateOf history12)
  = (Some (ErrAlreadyApplied "20201109000002_test2.hcl"), stateOf history12).
Proof.
  split; [discriminate|]. split; [vm_compute; reflexivity|].
  apply (Apply_already_applied (runnerOf "20201109000002_test2.hcl")
           (stateOf history12) (mkRecord "mock" "test2" 2 "")).
  - discriminate.
  - vm_compute. reflexivity.
Defined.

(** The test "plan with backward compatibility": the backfill gives the
    old record its hash in memory, and the storage still holds the
    history without it. *)
Example Plan_backfills_in_memory_only :
  let res := Plan (runnerOf "") (stateOf history12) in
  res.1 = None /\
  records (hc res.2) !! "20201109000001_test1.hcl"
  = Some (mkRecord "mock" "test1" 1 "md5:test1") /\
  Data (storage res.2) = history12.
Proof. vm_compute. repeat split; reflexivity. Qed.

(** C5, at the test "partial apply error but save history success": the
    third migration is applied and recorded, the fourth fails. *)
Lemma Apply_stops_at_failed_migration_witness :
  let r := runnerOf "" in
  let s := stateOf history12 in
  let res := Apply r s in
  UnappliedMigrations (hc s) (Scan (migrationDir r))
  = ["20201109000003_test3.hcl"; "20201109000004_test4.hcl"] /\
  StronglySorted lexLe
    ["20201109000003_test3.hcl"; "20201109000004_test4.hcl"] /\
  res.1 = Some (ErrApply "20201109000004_test4.hcl") /\
  appliedFiles (trace res.2)
  = ["20201109000003_test3.hcl"; "20201109000004_test4.hcl"] /\
  (forall g, g ∈ ["20201109000003_test3.hcl"] ->
     exists mc t,
       loadMigrationFile r g = inl mc /\
       records (Data (storage res.2)) !! g
       = Some (mkRecord (MigrationType mc) (MigrationName mc) t
                 (md5 (env r) (default "" (migrationDir r !! g))))) /\
  records (Data (storage res.2)) !! "20201109000004_test4.hcl" = None /\
  records (hc res.2) !! "20201109000004_test4.hcl" = None.
Proof.
  cbn zeta. split; [vm_compute; reflexivity|].
  apply (Apply_stops_at_failed_migration (runnerOf "") (stateOf history12)
           ["20201109000003_test3.hcl"] "20201109000004_test4.hcl" []
           (mkMigrationConfig "mock" "test4" (mkMigrator false true))).
  - reflexivity.
  - vm_compute. reflexivity.
  - reflexivity.
  - reflexivity.
  - vm_compute. reflexivity.
  - intros g Hg. apply list_elem_of_singleton in Hg. subst g.
    exists (mkMigrationConfig "mock" "test3" (mkMigrator false false)).
    split; vm_compute; reflexivity.
  - vm_compute. reflexivity.
  - reflexivity.
Defined.

(** The other cases of [TestHistoryRunnerApply], run on the model. *)
Example Apply_no_args :
  let res := Apply (runnerWith "" "test4") (stateOf history12) in
  res.1 = None /\
  appliedFiles (trace res.2)
  = ["20201109000003_test3.hcl"; "20201109000004_test4.hcl"] /\
  dom (records (Data (storage res.2)))
  = {[ "20201109000001_test1.hcl"; "20201109000002_test2.hcl";
       "20201109000003_test3.hcl"; "20201109000004_test4.hcl" ]}.
Proof. vm_compute. repeat split; reflexivity. Qed.

Example Apply_filename_given :
  let res := Apply (runnerOf "20201109000003_test3.hcl") (stateOf history12) in
  res.1 = None /\
  appliedFiles (trace res.2) = ["20201109000003_test3.hcl"] /\
  dom (records (Data (storage res.2)))
  = {[ "20201109000001_test1.hcl"; "20201109000002_test2.hcl";
       "20201109000003_test3.hcl" ]}.
Proof. vm_compute. repeat split; reflexivity. Qed.

Example Apply_success_but_save_error :
  let res := Apply (runnerWith "" "test4") (stateWriteError history12) in
  res.1 = Some (ErrHistoryPersist "20201109000003_test3.hcl") /\
  Data (storage res.2) = history12.
Proof. vm_compute. repeat split; reflexivity. Qed.

Example Apply_error_and_save_error :
  let res := Apply (runnerOf "") (stateWriteError history12) in
  res.1 = Some (ErrHistoryPersist "20201109000003_test3.hcl") /\
  Data (storage res.2) = history12.
Proof. vm_compute. repeat split; reflexivity. Qed.

(** [TestHistoryRunnerPlan], "partial success (plan error)". *)
Example Plan_partial_success :
  let res := Plan (runnerWith "" "test4 plan_error") (stateOf history12) in
  res.1 = Some (ErrPlanDir [ErrPlan "20201109000004_test4.hcl"]) /\
  Data (storage res.2) = history12.
Proof. vm_compute. repeat split; reflexivity. Qed.

(** The storage after that run holds the three records the test
    expects. *)
Example Apply_partial_storage :
  dom (records (Data (storage (Apply (runnerOf "") (stateOf history12)).2)))
  = {[ "20201109000001_test1.hcl"; "20201109000002_test2.hcl";
       "20201109000003_test3.hcl" ]}.
Proof. vm_compute. reflexivity. Qed.

End runner.

(* ===================================================================== *)
(** * Further properties of the plan classifier                          *)
(* ===================================================================== *)

Section classifier_more.
Import tfexec spec sample.

Lemma float64_eq_sym (a b : Z) : float64_eq a b = float64_eq b a.
Proof.
  unfold float64_eq. rewrite (Z.eqb_sym a b).
  destruct (float64_isNaN a), (float64_isNaN b), (b =? a)%Z,
    (float64_isZero a), (float64_isZero b); reflexivity.
Qed.

Lemma map_all_sym (m1 m2 : gmap string value) :
  size m1 = size m2 ->
  (forall k v1 v2, m1 !! k = Some v1 -> m2 !! k = Some v2 ->
     DeepEqual v1 v2 = DeepEqual v2 v1) ->
  map_Forall (fun k v1 => match m2 !! k with
                          | Some v2 => DeepEqual v1 v2
                          | None => false
                          end = true) m1 ->
  map_Forall (fun k v2 => match m1 !! k with
                          | Some v1 => DeepEqual v2 v1
                          | None => false
                          end = true) m2.
Proof.
  intros Hsize Hsym Hall.
  assert (Hdom : dom m1 =@{gset string} dom m2).
  { apply set_subseteq_size_eq.
    - intros k [v1 Hk]%elem_of_dom. specialize (Hall k v1 Hk). cbn in Hall.
      destruct (m2 !! k) eqn:E; [|discriminate]. apply elem_of_dom. eauto.
    - rewrite !size_dom. lia. }
  intros k v2 Hk2. cbn.
  assert (Hin : k ∈ dom m1) by (rewrite Hdom; apply elem_of_dom; eauto).
  apply elem_of_dom in Hin as [v1 Hk1]. rewrite Hk1.
  specialize (Hall k v1 Hk1). cbn in Hall. rewrite Hk2 in Hall.
  now rewrite <- (Hsym k v1 v2 Hk1 Hk2).
Qed.

Lemma DeepEqual_sym (x y : value) : DeepEqual x y = DeepEqual y x.
Proof.
  remember (vsize x) as n eqn:Hn. revert x y Hn.
  induction n as [n IH] using lt_wf_ind. intros x y ->.
  destruct x as [|a|a|a|l1|m1], y as [|b|b|b|l2|m2]; try reflexivity.
  - cbn. now destruct a, b.
  - cbn [DeepEqual]. apply float64_eq_sym.
  - cbn [DeepEqual]. apply String.eqb_sym.
  - assert (Hs : forall l1' l2', (forall v, v ∈ l1' -> v ∈ l1) ->
               DeepEqual (VSlice l1') (VSlice l2')
               = DeepEqual (VSlice l2') (VSlice l1')).
    { induction l1' as [|a l1' IHl]; intros l2' Hsub.
      - destruct l2'; reflexivity.
      - destruct l2' as [|b l2']; [reflexivity|].
        rewrite !DeepEqual_slice_cons.
        rewrite (IH (vsize a)) with (y := b);
          [|apply vsize_slice, Hsub; left | reflexivity].
        rewrite IHl; [reflexivity|]. intros v Hv. apply Hsub. now right. }
    apply Hs. auto.
  - rewrite !DeepEqual_map. rewrite (Nat.eqb_sym (size m1) (size m2)).
    destruct (Nat.eqb_spec (size m2) (size m1)) as [Hsize|]; [|reflexivity].
    cbn [andb]. apply eq_true_iff_eq. rewrite !map_fold_andb. split.
    + apply map_all_sym; [lia|]. intros k v1 v2 H1 H2.
      apply (IH (vsize v1)); [eapply vsize_map; eauto | reflexivity].
    + apply map_all_sym; [lia|]. intros k v2 v1 H2 H1. symmetry.
      apply (IH (vsize v1)); [eapply vsize_map; eauto | reflexivity].
Qed.

(** A plan has changes exactly when one of its resource changes has
    actions other than exactly [no-op]. *)
Theorem HasChanges_iff (p : TerraformPlanJSON) :
  HasChanges p = true <->
  exists rc, rc ∈ ResourceChanges p /\ Actions (Change_ rc) <> ["no-op"].
Proof.
  rewrite <- Exists_exists. split.
  - intros H. apply not_Forall_Exists; [intros rc; apply _|].
    intros HF%HasChanges_false. congruence.
  - intros HE. destruct (HasChanges p) eqn:E; [reflexivity|].
    apply HasChanges_false in E. exfalso.
    apply Exists_exists in HE as (rc & Hin & Hne).
    rewrite Forall_forall in E. exact (Hne (E rc Hin)).
Qed.

Lemma HasOnlyCreateActions_Forall (p : TerraformPlanJSON) :
  HasOnlyCreateActions p = true <->
  Forall (fun rc => Actions (Change_ rc) = ["no-op"] \/
                    Actions (Change_ rc) = ["create"]) (ResourceChanges p).
Proof.
  unfold HasOnlyCreateActions.
  induction (ResourceChanges p) as [|rc rcs IH]; cbn beta iota.
  - split; [constructor | reflexivity].
  - rewrite Forall_cons, <- IH. clear IH.
    destruct (actionsAre "no-op" (Actions (Change_ rc))) eqn:Enoop.
    { apply actionsAre_true in Enoop. tauto. }
    apply actionsAre_false in Enoop.
    destruct (actionsAreNot "create" (Actions (Change_ rc))) eqn:Ecreate.
    + apply actionsAreNot_true in Ecreate. split; [discriminate|].
      intros [[?|?] _]; contradiction.
    + apply actionsAreNot_false in Ecreate. tauto.
Qed.

(** [HasOnlyCreateActions] holds exactly when every resource change is
    exactly [no-op] or exactly [create]. *)
Theorem HasOnlyCreateActions_iff (p : TerraformPlanJSON) :
  HasOnlyCreateActions p = true <->
  Forall (fun rc => Actions (Change_ rc) = ["no-op"] \/
                    Actions (Change_ rc) = ["create"]) (ResourceChanges p).
Proof. exact (HasOnlyCreateActions_Forall p). Qed.

(** The classifiers are nested: a plan without changes has only create
    actions, and a plan with only create actions has only safe actions. *)
Theorem classifiers_nested (p : TerraformPlanJSON) :
  (HasChanges p = false -> HasOnlyCreateActions p = true) /\
  (HasOnlyCreateActions p = true -> HasOnlySafeActions p = true).
Proof.
  rewrite HasChanges_false, HasOnlyCreateActions_Forall,
    HasOnlySafeActions_Forall.
  split; intros H; (eapply Forall_impl; [exact H|]); cbn beta;
    unfold SafeChange; intros rc; tauto.
Qed.

(** [HasOnlyOutputChanges] is the absence of resource changes together
    with the presence of at least one output change: a plan without any
    change at all has not "only output changes". *)
Theorem HasOnlyOutputChanges_HasChanges (p : TerraformPlanJSON) :
  HasOnlyOutputChanges p
  = negb (HasChanges p) && (0 <? size (OutputChanges p))%nat.
Proof.
  apply eq_true_iff_eq.
  rewrite andb_true_iff, negb_true_iff, HasChanges_false.
  unfold HasOnlyOutputChanges.
  induction (ResourceChanges p) as [|rc rcs IH]; cbn zeta.
  - split; [intros H; split; [constructor | exact H] | intros [_ H]; exact H].
  - rewrite Forall_cons.
    destruct (actionsAreNot "no-op" (Actions (Change_ rc))) eqn:E.
    + apply actionsAreNot_true in E. split; [discriminate | tauto].
    + apply actionsAreNot_false in E. cbn zeta in IH. rewrite IH. tauto.
Qed.

(** A resource change whose actions are none of exactly [no-op], exactly
    [create] and exactly [update] (a [read], a [delete], a replace, an
    empty list) counts as a change and makes the plan neither create-only
    nor safe. *)
Theorem other_actions_unsafe (p : TerraformPlanJSON) (rc : ResourceChange) :
  rc ∈ ResourceChanges p ->
  Actions (Change_ rc) <> ["no-op"] ->
  Actions (Change_ rc) <> ["create"] ->
  Actions (Change_ rc) <> ["update"] ->
  HasChanges p = true /\ HasOnlyCreateActions p = false /\
  HasOnlySafeActions p = false.
Proof.
  intros Hin Hnoop Hcreate Hupdate. split; [|split].
  - destruct (HasChanges p) eqn:E; [reflexivity|].
    apply HasChanges_false in E. rewrite Forall_forall in E.
    destruct (Hnoop (E rc Hin)).
  - destruct (HasOnlyCreateActions p) eqn:E; [|reflexivity].
    apply HasOnlyCreateActions_Forall in E. rewrite Forall_forall in E.
    destruct (E rc Hin); contradiction.
  - destruct (HasOnlySafeActions p) eqn:E; [|reflexivity].
    apply HasOnlySafeActions_Forall in E. rewrite Forall_forall in E.
    destruct (E rc Hin) as [?|[?|[? _]]]; contradiction.
Qed.

Lemma other_actions_unsafe_witness :
  changeWith ["read"] ∈ ResourceChanges (planOf [changeWith ["read"]]) /\
  HasChanges (planOf [changeWith ["read"]]) = true /\
  HasOnlyCreateActions (planOf [changeWith ["read"]]) = false /\
  HasOnlySafeActions (planOf [changeWith ["read"]]) = false.
Proof.
  split; [left|].
  apply (other_actions_unsafe (planOf [changeWith ["read"]])
           (changeWith ["read"])); [left | discriminate..].
Defined.

(** The verdict of [isTagOnlyChange] does not depend on the order in
    which the two [range] loops visit the entries of the maps. *)
Lemma isTagOnlyChangeIn_order_witness :
  [("id", VString "x"); ("tags", VNil)] ≡ₚ [("tags", VNil); ("id", VString "x")]
  /\
  isTagOnlyChangeIn [("id", VString "x"); ("tags", VNil)] []
    {[ "id" := VString "x"; "tags" := VNil ]} ∅
  = isTagOnlyChangeIn [("tags", VNil); ("id", VString "x")] []
      {[ "id" := VString "x"; "tags" := VNil ]} ∅.
Proof.
  split; [apply Permutation_swap|].
  apply (isTagOnlyChangeIn_order
           [("id", VString "x"); ("tags", VNil)]
           [("tags", VNil); ("id", VString "x")] [] []).
  - apply Permutation_swap.
  - reflexivity.
Defined.

(** An update whose [before] and [after] are the same mapping is
    tag-only: the heuristic only looks for differing keys, and finds
    none. *)
Theorem unchanged_update_tag_only (p : TerraformPlanJSON)
    (rc : ResourceChange) :
  isMapping (Before (Change_ rc)) ->
  canonical (Before (Change_ rc)) ->
  After (Change_ rc) = Before (Change_ rc) ->
  isTagOnlyChange p rc = true.
Proof.
  intros [m Hm] Hcan Hafter. apply isTagOnlyChange_TagOnly.
  exists m, m. rewrite Hafter. split; [exact Hm|]. split; [exact Hm|].
  intros key Hd. exfalso. rewrite Hm in Hcan.
  inversion Hcan as [| | | | |m' Hall]; subst m'.
  destruct (m !! key) as [v|] eqn:Hk; [|exact Hd].
  cbn [differs] in Hd. specialize (Hall key v Hk). cbn in Hall.
  assert (DeepEqual v v = true) by (now apply DeepEqual_eq).
  congruence.
Qed.

Lemma unchanged_update_tag_only_witness :
  isMapping (Before (Change_ unchangedUpdate)) /\
  canonical (Before (Change_ unchangedUpdate)) /\
  After (Change_ unchangedUpdate) = Before (Change_ unchangedUpdate) /\
  isTagOnlyChange (planOf [unchangedUpdate]) unchangedUpdate = true.
Proof.
  assert (Hcan : canonical (Before (Change_ unchangedUpdate))).
  { cbn. constructor. apply map_Forall_singleton. constructor. }
  split; [eexists; reflexivity|]. split; [exact Hcan|].
  split; [reflexivity|].
  apply (unchanged_update_tag_only (planOf [unchangedUpdate]) unchangedUpdate).
  - eexists; reflexivity.
  - exact Hcan.
  - reflexivity.
Defined.

Lemma differs_sym (x y : option value) : differs x y <-> differs y x.
Proof.
  destruct x as [x|], y as [y|]; cbn [differs]; try tauto.
  now rewrite DeepEqual_sym.
Qed.

(** The tag-only verdict is the same in both directions: exchanging
    [before] and [after] does not change it. *)
Theorem isTagOnlyChange_swapSides (p : TerraformPlanJSON)
    (rc : ResourceChange) :
  isTagOnlyChange p (swapSides rc) = isTagOnlyChange p rc.
Proof.
  apply eq_true_iff_eq. rewrite !isTagOnlyChange_TagOnly.
  unfold TagOnly, swapSides. cbn [Change_ Before After].
  split; intros (m1 & m2 & H1 & H2 & H); exists m2, m1;
    (split; [exact H2|]); (split; [exact H1|]);
    intros key Hd; apply H, differs_sym, Hd.
Qed.

(** On the destination side the status printed for each reported change
    agrees with the classifier: the plan has only safe actions exactly
    when every change that is not a no-op is printed as accepted. *)
Theorem destination_status_agrees (p : TerraformPlanJSON)
    (stateType : string) :
  stateType <> "" ->
  (HasOnlySafeActions p = true <->
   forall rc, rc ∈ ResourceChanges p ->
              Actions (Change_ rc) <> ["no-op"] ->
              (changeStatus p true stateType rc).1 = "✅").
Proof.
  intros Hst%String.eqb_neq.
  rewrite HasOnlySafeActions_Forall, Forall_forall.
  assert (Hone : forall rc, Actions (Change_ rc) <> ["no-op"] ->
            (SafeChange (Change_ rc) <->
             (changeStatus p true stateType rc).1 = "✅")).
  { intros rc Hne. unfold changeStatus, SafeChange. rewrite Hst.
    cbn [negb]. rewrite andb_true_r. cbn [negb]. rewrite andb_false_r.
    destruct (actionsAre "create" (Actions (Change_ rc))) eqn:Ec.
    { apply actionsAre_true in Ec. cbn. tauto. }
    apply actionsAre_false in Ec.
    destruct (actionsAre "update" (Actions (Change_ rc))) eqn:Eu;
      cbn [andb].
    - apply actionsAre_true in Eu.
      destruct (isTagOnlyChange p rc) eqn:Et; cbn [fst].
      + apply isTagOnlyChange_TagOnly in Et. tauto.
      + split; [|discriminate]. intros [?|[_ Ht]]; [contradiction|].
        apply (isTagOnlyChange_TagOnly p) in Ht. congruence.
    - apply actionsAre_false in Eu. cbn [fst].
      split; [|discriminate]. intros [?|[? _]]; contradiction. }
  split.
  - intros H rc Hin Hne. apply Hone; [exact Hne|].
    destruct (H rc Hin); [contradiction | assumption].
  - intros H rc Hin.
    destruct (decide (Actions (Change_ rc) = ["no-op"])) as [?|Hne];
      [now left | right]. apply Hone; auto.
Qed.

Lemma destination_status_agrees_witness :
  "destination" <> "" /\
  (HasOnlySafeActions (planOf [tagUpdate "x"]) = true <->
   forall rc, rc ∈ ResourceChanges (planOf [tagUpdate "x"]) ->
              Actions (Change_ rc) <> ["no-op"] ->
              (changeStatus (planOf [tagUpdate "x"]) true "destination" rc).1
              = "✅").
Proof.
  split; [discriminate|].
  apply (destination_status_agrees (planOf [tagUpdate "x"]) "destination").
  discriminate.
Defined.

(** The report lists exactly the resource changes that are not no-ops,
    each under its position in the full list (counted from 1); it is
    empty exactly when the plan has no changes. *)
Theorem reportedChanges_spec (p : TerraformPlanJSON) :
  (reportedChanges p = [] <-> HasChanges p = false) /\
  (forall n rc,
     (n, rc) ∈ reportedChanges p <->
     1 <= n /\ ResourceChanges p !! (n - 1) = Some rc /\
     Actions (Change_ rc) <> ["no-op"]).
Proof.
  unfold reportedChanges.
  set (loop := fix loop (i : nat) (rcs : list ResourceChange)
                 : list (nat * ResourceChange) :=
                 match rcs with
                 | [] => []
                 | rc :: rest =>
                     if actionsAre "no-op" (Actions (Change_ rc))
                     then loop (S i) rest
                     else (i + 1, rc) :: loop (S i) rest
                 end).
  assert (Hmem : forall rcs i n rc,
            (n, rc) ∈ loop i rcs <->
            exists j, n = i + j + 1 /\ rcs !! j = Some rc /\
                      Actions (Change_ rc) <> ["no-op"]).
  { induction rcs as [|rc0 rcs IH]; intros i n rc; cbn [loop].
    - rewrite elem_of_nil. split; [tauto|]. intros (j & _ & H & _).
      discriminate.
    - destruct (actionsAre "no-op" (Actions (Change_ rc0))) eqn:E.
      + apply actionsAre_true in E. rewrite IH. split.
        * intros (j & -> & Hj & Hne). exists (S j). split; [lia|]. auto.
        * intros ([|j] & -> & Hj & Hne).
          -- cbn in Hj. injection Hj as <-. contradiction.
          -- exists j. split; [lia|]. auto.
      + apply actionsAre_false in E. rewrite elem_of_cons, IH. split.
        * intros [[= -> ->]|(j & -> & Hj & Hne)].
          -- exists 0. split; [lia|]. auto.
          -- exists (S j). split; [lia|]. auto.
        * intros ([|j] & -> & Hj & Hne).
          -- cbn in Hj. injection Hj as <-. left.
             f_equal. lia.
          -- right. exists j. split; [lia|]. auto. }
  split.
  - rewrite HasChanges_false. split.
    + intros Hnil. apply Forall_forall. intros rc Hin.
      destruct (decide (Actions (Change_ rc) = ["no-op"])) as [?|Hne];
        [assumption|]. exfalso.
      apply list_elem_of_lookup in Hin as [j Hj].
      assert (Hmem' : (0 + j + 1, rc) ∈ loop 0 (ResourceChanges p))
        by (apply Hmem; eauto).
      rewrite Hnil in Hmem'. inversion Hmem'.
    + intros HF. destruct (loop 0 (ResourceChanges p)) as [|[n rc] l] eqn:E;
        [reflexivity|]. exfalso.
      assert (Hin : (n, rc) ∈ loop 0 (ResourceChanges p))
        by (rewrite E; left).
      apply Hmem in Hin as (j & _ & Hj & Hne).
      rewrite Forall_forall in HF. apply Hne, HF.
      apply list_elem_of_lookup. eauto.
  - intros n rc. rewrite Hmem. split.
    + intros (j & -> & Hj & Hne). split; [lia|].
      replace (0 + j + 1 - 1) with j by lia. auto.
    + intros (Hn & Hj & Hne). exists (n - 1). split; [lia|]. auto.
Qed.

End classifier_more.


(* ===================================================================== *)
(** * Further properties of the multi-state migrator                     *)
(* ===================================================================== *)

Section migrator_more.
Import tfexec tfmigrate spec sample.

(** Proves a property of a computation from the combinator lemmas for
    [ret], [bind] and [emit], case by case. *)
Ltac structure ret_l bind_l emit_l :=
  repeat first
    [ apply ret_l
    | apply emit_l
    | apply bind_l; [|intros ?; cbn beta]
    | match goal with
      | |- _ (match ?x with _ => _ end) => destruct x
      | |- _ (if ?x then _ else _) => destruct x
      | |- _ _ (match ?x with _ => _ end) => destruct x
      | |- _ _ (if ?x then _ else _) => destruct x
      end ].

Lemma keepsRemote_ret {A : Type} (x : A) : keepsRemote (ret x : M A).
Proof. intros w. reflexivity. Qed.

Lemma keepsRemote_bind {A B : Type} (c : M A) (k : A -> M B) :
  keepsRemote c -> (forall a, keepsRemote (k a)) -> keepsRemote (bind c k).
Proof.
  intros Hc Hk w. unfold bind. specialize (Hc w).
  destruct (c w) as [a w']. cbn [snd] in Hc. now rewrite Hk.
Qed.

Lemma keepsRemote_emit (e : Event) : keepsRemote (emit e).
Proof. intros w. reflexivity. Qed.

Lemma keepsRemote_planBody (m : MultiStateMigrator) (fs ts : State) :
  keepsRemote (planBody m fs ts).
Proof.
  unfold planBody, planFrom, planTo, checkPlan, tf_Plan,
    tf_ConvertPlanToJson, log_Printf.
  structure @keepsRemote_ret @keepsRemote_bind keepsRemote_emit.
Qed.

Lemma constValue_ret {A : Type} (x : A) : constValue (ret x : M A).
Proof. intros w w'. reflexivity. Qed.

Lemma constValue_bind {A B : Type} (c : M A) (k : A -> M B) :
  constValue c -> (forall a, constValue (k a)) -> constValue (bind c k).
Proof.
  intros Hc Hk w w'. unfold bind. specialize (Hc w w').
  destruct (c w) as [a w1], (c w') as [a' w1']. cbn [fst] in Hc. subst a'.
  apply Hk.
Qed.

Lemma constValue_emit (e : Event) : constValue (emit e).
Proof. intros w w'. reflexivity. Qed.

Lemma constValue_planBody (m : MultiStateMigrator) (fs ts : State) :
  constValue (planBody m fs ts).
Proof.
  unfold planBody, planFrom, planTo, checkPlan, tf_Plan,
    tf_ConvertPlanToJson, log_Printf.
  structure @constValue_ret @constValue_bind constValue_emit.
Qed.

Section ignored.
Context {X : Type} (g : Event -> list X) (Hg : checksIgnored g).

(** What comes between the set-up of the two directories and the switch
    back adds nothing that [g] sees. *)
Lemma preserves_planBody (m : MultiStateMigrator) (fs ts : State) :
  preserves g (planBody m fs ts).
Proof.
  unfold planBody, planFrom, planTo, checkPlan, tf_Plan,
    tf_ConvertPlanToJson, log_Printf.
  repeat first
    [ apply preserves_ret
    | apply preserves_emit; match goal with |- g ?e = [] => exact (Hg e) end
    | apply preserves_bind; [|intros ?; cbn beta]
    | match goal with
      | |- preserves g (match ?x with _ => _ end) => destruct x
      | |- preserves g (if ?x then _ else _) => destruct x
      end ].
Qed.
End ignored.

Lemma planTo_result (m : MultiStateMigrator) (fs ts : State) (w : World) :
  (planTo m fs ts w).1 = (Some fs, Some ts, None) \/
  exists e, (planTo m fs ts w).1 = (None, None, Some e).
Proof.
  unfold planTo, tf_Plan, log_Printf, emit, bind, ret. cbn [fst snd].
  repeat match goal with
         | |- context [match ?x with _ => _ end] => destruct x
         end; cbn [fst]; eauto.
Qed.

Lemma planFrom_result (m : MultiStateMigrator) (fs ts : State) (w : World) :
  (planFrom m fs ts w).1 = (Some fs, Some ts, None) \/
  exists e, (planFrom m fs ts w).1 = (None, None, Some e).
Proof.
  unfold planFrom, tf_Plan, log_Printf, emit, bind, ret. cbn [fst snd].
  repeat match goal with
         | |- context [match ?x with _ => _ end] => destruct x
         end; cbn [fst negb]; eauto using planTo_result.
Qed.

Lemma planBody_result (m : MultiStateMigrator) (fs ts : State) (w : World) :
  match applyActions (actions m) (fromTf m) (toTf m) fs ts with
  | inr e => (planBody m fs ts w).1 = (None, None, Some e)
  | inl (fs', ts') =>
      (planBody m fs ts w).1 = (Some fs', Some ts', None) \/
      exists e, (planBody m fs ts w).1 = (None, None, Some e)
  end.
Proof.
  unfold planBody, log_Printf, emit, bind, ret. cbn [fst snd].
  destruct (applyActions _ _ _ fs ts) as [[fs' ts']|e]; [|reflexivity].
  apply planFrom_result.
Qed.

Lemma errors_Join_None (a b : option error) :
  errors_Join a b = None <-> a = None /\ b = None.
Proof.
  destruct a, b; cbn; split; intros H; try tauto; try discriminate;
    destruct H; discriminate.
Qed.

(** [plan] leaves the remote states as they are. *)
Lemma plan_keepsRemote (m : MultiStateMigrator) : keepsRemote (plan m).
Proof.
  intros w.
  unfold plan, deferJoin, setupWorkDir, getRemote, emit, bind, ret.
  cbn [fst snd remote].
  destruct (setupResult (fromTf m) _ _ _ _); [reflexivity|].
  cbn [fst snd remote].
  destruct (setupResult (toTf m) _ _ _ _); [reflexivity|].
  cbn [fst snd remote].
  match goal with |- context [planBody m ?a ?b ?w0] =>
    pose proof (keepsRemote_planBody m a b w0) as Hbody;
    destruct (planBody m a b w0) as [[[r1 r2] r3] w1]
  end.
  cbn [fst snd remote] in Hbody |- *. exact Hbody.
Qed.

(** The result of [plan] depends on the remote states only, not on what
    was logged before. *)
Lemma plan_value (m : MultiStateMigrator) (w w' : World) :
  remote w = remote w' -> (plan m w).1 = (plan m w').1.
Proof.
  intros Hr.
  unfold plan, deferJoin, setupWorkDir, getRemote, emit, bind, ret.
  cbn [fst snd remote]. rewrite Hr.
  destruct (setupResult (fromTf m) _ _ _ _); [reflexivity|].
  cbn [fst snd remote].
  destruct (setupResult (toTf m) _ _ _ _); [reflexivity|].
  cbn [fst snd remote].
  match goal with |- context [planBody m ?a ?b ?w0] =>
    match goal with |- _ = ?rhs =>
      match rhs with context [planBody m a b ?w0'] =>
        pose proof (constValue_planBody m a b w0 w0') as Hbody;
        destruct (planBody m a b w0) as [[[r1 r2] r3] w1];
        destruct (planBody m a b w0') as [[[r1' r2'] r3'] w1']
      end
    end
  end.
  cbn [fst snd] in Hbody |- *. injection Hbody as -> -> ->. reflexivity.
Qed.

(** [plan] pushes no state. *)
Lemma plan_no_push (m : MultiStateMigrator) (w : World) :
  pushCalls (trace (plan m w).2) = pushCalls (trace w).
Proof.
  destruct (plan_adds pushCall commandsOnly_pushCall m w)
    as (c1 & c2 & Hadds & H1 & H2). unfold adds in Hadds.
  assert (c1 = []) as -> by (destruct H1 as [->|[? ->]]; reflexivity).
  assert (c2 = []) as -> by (destruct H2 as [->|[? ->]]; reflexivity).
  unfold pushCalls. now rewrite Hadds, !app_nil_r.
Qed.

(** The other direction of [checkPlan_accepts]. *)
Lemma checkPlan_accepted_when (plan : option Plan) (tf : TerraformCLI)
    (msg : string) (planJSON : TerraformPlanJSON) (allowCreate : bool)
    (stateType : string) (w : World) :
  showResult tf plan = inl planJSON ->
  HasChanges planJSON = false \/
  (allowCreate = true /\ HasOnlySafeActions planJSON = true) ->
  (checkPlan plan tf (Some (ExitError 2 msg)) allowCreate stateType w).1.1
  = true.
Proof.
  intros Hshow Hc.
  unfold checkPlan, tf_ConvertPlanToJson, log_Printf, emit, bind, ret.
  cbn [fst snd]. rewrite Hshow.
  destruct Hc as [Hc|[-> Hc]]; rewrite Hc; cbn [negb andb].
  - reflexivity.
  - destruct (HasChanges planJSON); reflexivity.
Qed.

(** The actions are applied in order, each to the states the one before
    it produced, and the first error ends the loop: applying a list of
    actions followed by another is applying the first list and then the
    second to its result. *)
Theorem applyActions_app (acts1 acts2 : list MultiStateAction)
    (fromTf toTf : TerraformCLI) (fs ts : State) :
  applyActions (acts1 ++ acts2) fromTf toTf fs ts
  = match applyActions acts1 fromTf toTf fs ts with
    | inr err => inr err
    | inl (fs', ts') => applyActions acts2 fromTf toTf fs' ts'
    end.
Proof.
  revert fs ts. induction acts1 as [|a acts1 IH]; intros fs ts; cbn.
  - reflexivity.
  - destruct (a fromTf toTf fs ts) as [[fs' ts']|err]; [apply IH|reflexivity].
Qed.

(** [checkPlan] accepts in exactly three cases: the plan command
    returned no error; or it exited with code 2, the plan converts to
    JSON and the JSON has no changes; or it exited with code 2, creates
    are allowed, the plan converts to JSON and the JSON has only safe
    actions. *)
Theorem checkPlan_accepts_iff (plan : option Plan) (tf : TerraformCLI)
    (er : option error) (allowCreate : bool) (stateType : string)
    (w : World) :
  (checkPlan plan tf er allowCreate stateType w).1.1 = true <->
  er = None \/
  exists msg planJSON,
    er = Some (ExitError 2 msg) /\ showResult tf plan = inl planJSON /\
    (HasChanges planJSON = false \/
     (allowCreate = true /\ HasOnlySafeActions planJSON = true)).
Proof.
  split.
  - destruct er as [e|]; [|now left]. intros H. right.
    destruct (checkPlan_accepts _ _ _ _ _ _ H) as (msg & pj & -> & Hs & Hc).
    eauto.
  - intros [->|(msg & pj & -> & Hshow & Hc)]; [reflexivity|].
    now apply (checkPlan_accepted_when plan tf msg pj).
Qed.

(** The destination check is the weaker one: a plan result that
    [checkPlan] accepts for the source state is accepted for the
    destination state as well. *)
Theorem checkPlan_monotone (plan : option Plan) (tf : TerraformCLI)
    (er : option error) (w w' : World) :
  (checkPlan plan tf er false "source" w).1.1 = true ->
  (checkPlan plan tf er true "destination" w').1.1 = true.
Proof.
  destruct er as [e|]; [|reflexivity]. intros H.
  destruct (checkPlan_accepts _ _ _ _ _ _ H)
    as (msg & pj & -> & Hs & [Hc|[Hf _]]); [|discriminate Hf].
  apply (checkPlan_accepted_when plan tf msg pj); [exact Hs | now left].
Qed.

Lemma checkPlan_monotone_witness :
  (checkPlan (Some "tfplan") (cleanTf "to_dir")
     (Some (ExitError 2 "exit status 2")) false "source" world0).1.1 = true /\
  (checkPlan (Some "tfplan") (cleanTf "to_dir")
     (Some (ExitError 2 "exit status 2")) true "destination" world0).1.1
  = true.
Proof.
  split; [reflexivity|].
  apply (checkPlan_monotone (Some "tfplan") (cleanTf "to_dir")
           (Some (ExitError 2 "exit status 2")) world0 world0).
  reflexivity.
Defined.

(** Every error of the plan command other than an exit with code 2 is
    rejected without looking at the plan: nothing is converted to JSON,
    one line is logged, and the reason names the state type and the
    error. *)
Theorem checkPlan_other_errors (plan : option Plan) (tf : TerraformCLI)
    (e : error) (allowCreate : bool) (stateType : string) (w : World) :
  (forall msg, e <> ExitError 2 msg) ->
  checkPlan plan tf (Some e) allowCreate stateType w
  = (false,
     "❌ REJECTED: unexpected error in " ++ stateType ++ " state: "
     ++ Error e,
     mkWorld (remote w)
       (trace w ++ [EvLog ("[ERROR] [migrator] unexpected error: "
                           ++ Error e)])).
Proof.
  intros Hne. unfold checkPlan.
  destruct e as [code msg|msg|errs]; try reflexivity.
  destruct code as [|[c|[c|c|]|]|c]; try reflexivity.
  exfalso. exact (Hne msg eq_refl).
Qed.

Lemma checkPlan_other_errors_witness :
  (forall msg, ExitError 1 "exit status 1" <> ExitError 2 msg) /\
  checkPlan (Some "tfplan") (cleanTf "to_dir")
    (Some (ExitError 1 "exit status 1")) true "destination" world0
  = (false,
     "❌ REJECTED: unexpected error in " ++ "destination" ++ " state: "
     ++ Error (ExitError 1 "exit status 1"),
     mkWorld (remote world0)
       (trace world0
        ++ [EvLog ("[ERROR] [migrator] unexpected error: "
                   ++ Error (ExitError 1 "exit status 1"))])).
Proof.
  split; [intros msg; discriminate|].
  apply (checkPlan_other_errors (Some "tfplan") (cleanTf "to_dir")
           (ExitError 1 "exit status 1") true "destination" world0).
  intros msg. discriminate.
Defined.

Lemma prefix_app (p s : string) : String.prefix p (p ++ s) = true.
Proof.
  induction p as [|a p IH].
  - now destruct s.
  - change (String.prefix (String a p) (String a (p ++ s)) = true).
    cbn [String.prefix].
    destruct (Ascii.ascii_dec a a); [exact IH | contradiction].
Qed.

(** The reason that [checkPlan] returns agrees with its verdict: it
    starts with the mark of an accepted plan exactly when the verdict is
    true. *)
Theorem checkPlan_reason_agrees (plan : option Plan) (tf : TerraformCLI)
    (er : option error) (allowCreate : bool) (stateType : string)
    (w : World) :
  (checkPlan plan tf er allowCreate stateType w).1.1
  = String.prefix "✅ ACCEPTED: "
      (checkPlan plan tf er allowCreate stateType w).1.2.
Proof.
  unfold checkPlan, tf_ConvertPlanToJson, log_Printf, emit, bind, ret.
  repeat match goal with
         | |- context [match ?x with _ => _ end] => destruct x
         end; cbn [fst snd];
    first [ symmetry; apply prefix_app | reflexivity ].
Qed.

(** For the source state the printed status and the verdict disagree on
    a tag-only update: [LogResourceChangesWithStatus] prints it as
    accepted, while [checkPlan] rejects the plan that contains it. *)
Theorem source_tag_only_update (plan : option Plan) (tf : TerraformCLI)
    (msg stateType : string) (w : World) (planJSON : TerraformPlanJSON)
    (rc : ResourceChange) :
  stateType <> "" ->
  showResult tf plan = inl planJSON ->
  rc ∈ ResourceChanges planJSON ->
  Actions (Change_ rc) = ["update"] ->
  TagOnly (Change_ rc) ->
  changeStatus planJSON false stateType rc
  = ("✅", "ACCEPTED (tag-only change)") /\
  (checkPlan plan tf (Some (ExitError 2 msg)) false stateType w).1.1 = false.
Proof.
  intros Hst%String.eqb_neq Hshow Hin Hupd Htag. split.
  - unfold changeStatus. rewrite Hst, Hupd. cbn [negb].
    apply (isTagOnlyChange_TagOnly planJSON) in Htag. rewrite Htag.
    reflexivity.
  - destruct (checkPlan _ _ _ _ _ _).1.1 eqn:E; [|reflexivity].
    apply checkPlan_accepts in E as (msg' & pj & _ & Hs & [Hc|[Hf _]]);
      [|discriminate Hf].
    rewrite Hshow in Hs. injection Hs as <-.
    apply HasChanges_false in Hc. rewrite Forall_forall in Hc.
    specialize (Hc rc Hin). congruence.
Qed.

Lemma source_tag_only_update_witness :
  "source" <> "" /\
  showResult (taggedTf "from_dir") (Some "tfplan")
  = inl (planOf [tagUpdate "x"; changeWith ["create"];
                 changeWith ["no-op"]]) /\
  tagUpdate "x" ∈ ResourceChanges (planOf [tagUpdate "x";
                                           changeWith ["create"];
                                           changeWith ["no-op"]]) /\
  Actions (Change_ (tagUpdate "x")) = ["update"] /\
  TagOnly (Change_ (tagUpdate "x")) /\
  changeStatus (planOf [tagUpdate "x"; changeWith ["create"];
                        changeWith ["no-op"]]) false "source" (tagUpdate "x")
  = ("✅", "ACCEPTED (tag-only change)") /\
  (checkPlan (Some "tfplan") (taggedTf "from_dir")
     (Some (ExitError 2 "exit status 2")) false "source" world0).1.1 = false.
Proof.
  assert (Htag : TagOnly (Change_ (tagUpdate "x"))).
  { apply (isTagOnlyChange_TagOnly (planOf [])). vm_compute. reflexivity. }
  split; [discriminate|]. split; [reflexivity|]. split; [left|].
  split; [reflexivity|]. split; [exact Htag|].
  apply (source_tag_only_update (Some "tfplan") (taggedTf "from_dir")
           "exit status 2" "source" world0
           (planOf [tagUpdate "x"; changeWith ["create"];
                    changeWith ["no-op"]]) (tagUpdate "x")).
  - discriminate.
  - reflexivity.
  - left.
  - reflexivity.
  - exact Htag.
Defined.

(** [plan] switches back to remote exactly the directories it set up, in
    the reverse order: when the set-up of the source directory fails
    nothing is switched back; when the set-up of the destination
    directory fails the source directory is switched back; otherwise the
    destination directory is switched back first and the source
    directory last, whatever happens in between. *)
Theorem plan_restores_backends (m : MultiStateMigrator) (w : World) :
  backendSteps (trace (plan m w).2)
  = (backendSteps (trace w)
     ++ match setupResult (fromTf m) (fromWorkspace m)
                (IsBackendTerraformCloud (o m)) (BackendConfig (o m)) false
        with
        | Some _ => [Overridden (Dir (fromTf m))]
        | None =>
            match setupResult (toTf m) (toWorkspace m)
                    (IsBackendTerraformCloud (o m)) (BackendConfig (o m))
                    false with
            | Some _ => [Overridden (Dir (fromTf m));
                         Overridden (Dir (toTf m));
                         SwitchedBack (Dir (fromTf m))]
            | None => [Overridden (Dir (fromTf m));
                       Overridden (Dir (toTf m));
                       SwitchedBack (Dir (toTf m));
                       SwitchedBack (Dir (fromTf m))]
            end
        end)%list.
Proof.
  assert (Hg : checksIgnored backendStep) by (intros []; cbn; trivial).
  unfold backendSteps.
  unfold plan, deferJoin, setupWorkDir, getRemote, emit, bind, ret.
  cbn [fst snd remote trace].
  destruct (setupResult (fromTf m) _ _ _ _).
  { cbn [fst snd trace]. now rewrite flat_map_app. }
  cbn [fst snd remote trace].
  destruct (setupResult (toTf m) _ _ _ _).
  { cbn [fst snd trace]. rewrite !flat_map_app. cbn.
    now rewrite <- !app_assoc. }
  cbn [fst snd remote trace].
  match goal with |- context [planBody m ?a ?b ?w0] =>
    pose proof (preserves_planBody backendStep Hg m a b w0) as Hbody;
    destruct (planBody m a b w0) as [[[r1 r2] r3] w1]
  end.
  cbn [fst snd trace] in Hbody |- *.
  rewrite !flat_map_app, Hbody, !flat_map_app. cbn.
  now rewrite <- !app_assoc.
Qed.

(** [Plan] is a dry run: it leaves every remote state as it is and
    pushes no state, whether it succeeds or fails. *)
Theorem Plan_is_dry_run (m : MultiStateMigrator) (w : World) :
  remote (Plan_ m w).2 = remote w /\
  pushCalls (trace (Plan_ m w).2) = pushCalls (trace w).
Proof.
  unfold Plan_, log_Printf, emit, bind, ret. cbn [fst snd].
  match goal with |- context [plan m ?w0] =>
    pose proof (plan_keepsRemote m w0) as Hr;
    pose proof (plan_no_push m w0) as Hp;
    destruct (plan m w0) as [[[r1 r2] r3] w1]
  end.
  cbn [fst snd remote trace] in Hr, Hp.
  unfold pushCalls in *. rewrite flat_map_app in Hp. cbn in Hp.
  rewrite app_nil_r in Hp.
  destruct r3; cbn [fst snd remote trace];
    rewrite ?flat_map_app; cbn [flat_map pushCall app];
    rewrite ?app_nil_r; split; assumption.
Qed.

(** When [plan] returns no error it returns both new states, and then
    both set-ups succeeded, the actions applied to the two pulled states
    gave exactly these states, and both directories were switched back
    to remote without error. *)
Theorem plan_success (m : MultiStateMigrator) (w : World)
    (f t : option State) :
  (plan m w).1 = (f, t, None) ->
  exists fs ts,
    f = Some fs /\ t = Some ts /\
    setupResult (fromTf m) (fromWorkspace m) (IsBackendTerraformCloud (o m))
      (BackendConfig (o m)) false = None /\
    setupResult (toTf m) (toWorkspace m) (IsBackendTerraformCloud (o m))
      (BackendConfig (o m)) false = None /\
    applyActions (actions m) (fromTf m) (toTf m)
      (default "" (remote w !! Dir (fromTf m)))
      (default "" (remote w !! Dir (toTf m))) = inl (fs, ts) /\
    switchBackResult (fromTf m) = None /\
    switchBackResult (toTf m) = None.
Proof.
  unfold plan, deferJoin, setupWorkDir, getRemote, bind, ret.
  unfold emit at 1. cbn [fst snd remote].
  destruct (setupResult (fromTf m) _ _ _ _) as [e|] eqn:Efrom;
    [cbn; discriminate|].
  cbn [fst snd remote]. unfold emit at 1. cbn [fst snd remote].
  destruct (setupResult (toTf m) _ _ _ _) as [e|] eqn:Eto.
  { cbn [fst snd]. unfold emit. cbn [fst snd].
    destruct (switchBackResult (fromTf m)); cbn; discriminate. }
  cbn [fst snd remote].
  match goal with |- context [planBody m ?a ?b ?w0] =>
    pose proof (planBody_result m a b w0) as Hbody;
    destruct (planBody m a b w0) as [[[r1 r2] r3] w1]
  end.
  cbn [fst snd] in Hbody |- *. unfold emit. cbn [fst snd].
  intros [= -> -> Hjoin].
  apply errors_Join_None in Hjoin as [Hjoin Hsf].
  apply errors_Join_None in Hjoin as [-> Hst].
  destruct (applyActions _ _ _ _ _) as [[fs ts]|e]; [|discriminate].
  destruct Hbody as [[= -> ->]|[e [=]]].
  exists fs, ts. repeat split; auto.
Qed.

Lemma plan_success_witness :
  (plan cleanMigrator world0).1 = (Some "", Some "aws_iam_role.a", None) /\
  exists fs ts,
    Some "" = Some fs /\ Some "aws_iam_role.a" = Some ts /\
    setupResult (fromTf cleanMigrator) (fromWorkspace cleanMigrator)
      (IsBackendTerraformCloud (o cleanMigrator))
      (BackendConfig (o cleanMigrator)) false = None /\
    setupResult (toTf cleanMigrator) (toWorkspace cleanMigrator)
      (IsBackendTerraformCloud (o cleanMigrator))
      (BackendConfig (o cleanMigrator)) false = None /\
    applyActions (actions cleanMigrator) (fromTf cleanMigrator)
      (toTf cleanMigrator)
      (default "" (remote world0 !! Dir (fromTf cleanMigrator)))
      (default "" (remote world0 !! Dir (toTf cleanMigrator)))
    = inl (fs, ts) /\
    switchBackResult (fromTf cleanMigrator) = None /\
    switchBackResult (toTf cleanMigrator) = None.
Proof.
  split; [vm_compute; reflexivity|].
  apply (plan_success cleanMigrator world0 (Some "")
           (Some "aws_iam_role.a")).
  vm_compute. reflexivity.
Defined.

(** Runs [Apply] up to the end of its planning phase, whose result is
    [Hplan]; [Hr] and [Hp] name the facts that the phase kept the remote
    states and pushed nothing. *)
Ltac apply_phase m w Hplan Hr Hp :=
  let Hv := fresh "Hv" in
  unfold Apply, tf_StatePush, setRemote, log_Printf, emit, bind, ret;
  cbn [fst snd];
  match goal with |- context [plan m ?w0] =>
    pose proof (plan_value m w0 w eq_refl) as Hv;
    pose proof (plan_keepsRemote m w0) as Hr;
    pose proof (plan_no_push m w0) as Hp;
    destruct (plan m w0) as [[[? ?] ?] ?]
  end;
  cbn [fst snd remote trace] in Hv, Hr, Hp;
  rewrite Hplan in Hv; injection Hv as -> -> ->;
  unfold pushCalls in *; rewrite flat_map_app in Hp; cbn in Hp;
  rewrite app_nil_r in Hp.

(** When the planning phase fails, [Apply] returns its error, pushes
    nothing and leaves every remote state as it is. *)
Theorem Apply_plan_error (m : MultiStateMigrator) (w : World)
    (f t : option State) (e : error) :
  (plan m w).1 = (f, t, Some e) ->
  (Apply m w).1 = Some e /\
  remote (Apply m w).2 = remote w /\
  pushCalls (trace (Apply m w).2) = pushCalls (trace w).
Proof.
  intros Hplan. apply_phase m w Hplan Hr Hp.
  cbn [fst snd remote trace]. auto.
Qed.

Lemma Apply_plan_error_witness :
  (plan (migratorOf (driftedTf "from_dir") (cleanTf "to_dir") false "")
     world0).1
  = (None, None,
     Some (joinError
             [joinError
                [errorString
                   ("terraform plan command returns unexpected diffs "
                    ++ "in from_dir: from_dir")]])) /\
  (Apply (migratorOf (driftedTf "from_dir") (cleanTf "to_dir") false "")
     world0).1
  = Some (joinError
            [joinError
               [errorString
                  ("terraform plan command returns unexpected diffs "
                   ++ "in from_dir: from_dir")]]) /\
  remote (Apply (migratorOf (driftedTf "from_dir") (cleanTf "to_dir") false
                   "") world0).2 = remote world0 /\
  pushCalls (trace (Apply (migratorOf (driftedTf "from_dir")
                             (cleanTf "to_dir") false "") world0).2)
  = pushCalls (trace world0).
Proof.
  split; [vm_compute; reflexivity|].
  apply (Apply_plan_error
           (migratorOf (driftedTf "from_dir") (cleanTf "to_dir") false "")
           world0 None None).
  vm_compute. reflexivity.
Defined.

(** When the push of the source state fails, [Apply] returns that
    error: the destination state is not pushed and every remote state is
    as before. *)
Theorem Apply_source_push_fails (m : MultiStateMigrator) (w : World)
    (fs ts : State) (e : error) :
  (plan m w).1 = (Some fs, Some ts, None) ->
  pushResult (fromTf m) (Some fs) = Some e ->
  (Apply m w).1 = Some e /\
  remote (Apply m w).2 = remote w /\
  pushCalls (trace (Apply m w).2)
  = (pushCalls (trace w) ++ [(Dir (fromTf m), Some fs)])%list.
Proof.
  intros Hplan Hpush. apply_phase m w Hplan Hr Hp.
  cbn [fst snd remote trace]. rewrite Hpush. cbn [fst snd remote trace].
  rewrite !flat_map_app. cbn. rewrite Hp, !app_nil_r. auto.
Qed.

Lemma Apply_source_push_fails_witness :
  (plan (migratorOf (pushFailTf "from_dir") (cleanTf "to_dir") false "")
     world0).1 = (Some "", Some "aws_iam_role.a", None) /\
  pushResult
    (fromTf (migratorOf (pushFailTf "from_dir") (cleanTf "to_dir") false ""))
    (Some "") = Some (errorString "failed to push state") /\
  (Apply (migratorOf (pushFailTf "from_dir") (cleanTf "to_dir") false "")
     world0).1 = Some (errorString "failed to push state") /\
  remote (Apply (migratorOf (pushFailTf "from_dir") (cleanTf "to_dir") false
                   "") world0).2 = remote world0 /\
  pushCalls (trace (Apply (migratorOf (pushFailTf "from_dir")
                             (cleanTf "to_dir") false "") world0).2)
  = (pushCalls (trace world0)
     ++ [(Dir (fromTf (migratorOf (pushFailTf "from_dir") (cleanTf "to_dir")
                         false "")), Some "")])%list.
Proof.
  split; [vm_compute; reflexivity|]. split; [reflexivity|].
  apply (Apply_source_push_fails
           (migratorOf (pushFailTf "from_dir") (cleanTf "to_dir") false "")
           world0 "" "aws_iam_role.a").
  - vm_compute. reflexivity.
  - reflexivity.
Defined.

(** When the push of the destination state fails, [Apply] returns that
    error after the source state has been pushed: the remote of the
    source directory holds its new state, the remote of the destination
    directory its old one, and nothing undoes the first push. *)
Theorem Apply_destination_push_fails (m : MultiStateMigrator) (w : World)
    (fs ts : State) (e : error) :
  (plan m w).1 = (Some fs, Some ts, None) ->
  pushResult (fromTf m) (Some fs) = None ->
  pushResult (toTf m) (Some ts) = Some e ->
  (Apply m w).1 = Some e /\
  remote (Apply m w).2 = <[Dir (fromTf m) := fs]> (remote w) /\
  pushCalls (trace (Apply m w).2)
  = (pushCalls (trace w)
     ++ [(Dir (fromTf m), Some fs); (Dir (toTf m), Some ts)])%list.
Proof.
  intros Hplan Hpush1 Hpush2. apply_phase m w Hplan Hr Hp.
  cbn [fst snd remote trace]. rewrite Hpush1. cbn [fst snd remote trace].
  rewrite Hpush2. cbn [fst snd remote trace].
  rewrite !flat_map_app. cbn. rewrite Hp, Hr, !app_nil_r, <- !app_assoc.
  auto.
Qed.

Lemma Apply_destination_push_fails_witness :
  (plan (migratorOf (cleanTf "from_dir") (pushFailTf "to_dir") false "")
     world0).1 = (Some "", Some "aws_iam_role.a", None) /\
  pushResult
    (fromTf (migratorOf (cleanTf "from_dir") (pushFailTf "to_dir") false ""))
    (Some "") = None /\
  pushResult
    (toTf (migratorOf (cleanTf "from_dir") (pushFailTf "to_dir") false ""))
    (Some "aws_iam_role.a") = Some (errorString "failed to push state") /\
  (Apply (migratorOf (cleanTf "from_dir") (pushFailTf "to_dir") false "")
     world0).1 = Some (errorString "failed to push state") /\
  remote (Apply (migratorOf (cleanTf "from_dir") (pushFailTf "to_dir") false
                   "") world0).2
  = <[Dir (fromTf (migratorOf (cleanTf "from_dir") (pushFailTf "to_dir")
                     false "")) := ""]> (remote world0) /\
  pushCalls (trace (Apply (migratorOf (cleanTf "from_dir")
                             (pushFailTf "to_dir") false "") world0).2)
  = (pushCalls (trace world0)
     ++ [(Dir (fromTf (migratorOf (cleanTf "from_dir") (pushFailTf "to_dir")
                         false "")), Some "");
         (Dir (toTf (migratorOf (cleanTf "from_dir") (pushFailTf "to_dir")
                       false "")), Some "aws_iam_role.a")])%list.
Proof.
  split; [vm_compute; reflexivity|]. split; [reflexivity|].
  split; [reflexivity|].
  apply (Apply_destination_push_fails
           (migratorOf (cleanTf "from_dir") (pushFailTf "to_dir") false "")
           world0 "" "aws_iam_role.a").
  - vm_compute. reflexivity.
  - reflexivity.
  - reflexivity.
Defined.

(** When the planning phase and both pushes succeed, [Apply] returns no
    error and the remotes of the two directories hold the two new
    states; every other remote state is as before. *)
Theorem Apply_success (m : MultiStateMigrator) (w : World) (fs ts : State) :
  (plan m w).1 = (Some fs, Some ts, None) ->
  pushResult (fromTf m) (Some fs) = None ->
  pushResult (toTf m) (Some ts) = None ->
  (Apply m w).1 = None /\
  remote (Apply m w).2
  = <[Dir (toTf m) := ts]> (<[Dir (fromTf m) := fs]> (remote w)) /\
  pushCalls (trace (Apply m w).2)
  = (pushCalls (trace w)
     ++ [(Dir (fromTf m), Some fs); (Dir (toTf m), Some ts)])%list.
Proof.
  intros Hplan Hpush1 Hpush2. apply_phase m w Hplan Hr Hp.
  cbn [fst snd remote trace]. rewrite Hpush1. cbn [fst snd remote trace].
  rewrite Hpush2. cbn [fst snd remote trace].
  rewrite !flat_map_app. cbn. rewrite Hp, Hr, !app_nil_r, <- !app_assoc.
  auto.
Qed.

Lemma Apply_success_witness :
  (plan cleanMigrator world0).1 = (Some "", Some "aws_iam_role.a", None) /\
  pushResult (fromTf cleanMigrator) (Some "") = None /\
  pushResult (toTf cleanMigrator) (Some "aws_iam_role.a") = None /\
  (Apply cleanMigrator world0).1 = None /\
  remote (Apply cleanMigrator world0).2
  = <[Dir (toTf cleanMigrator) := "aws_iam_role.a"]>
      (<[Dir (fromTf cleanMigrator) := ""]> (remote world0)) /\
  pushCalls (trace (Apply cleanMigrator world0).2)
  = (pushCalls (trace world0)
     ++ [(Dir (fromTf cleanMigrator), Some "");
         (Dir (toTf cleanMigrator), Some "aws_iam_role.a")])%list.
Proof.
  split; [vm_compute; reflexivity|]. split; [reflexivity|].
  split; [reflexivity|].
  apply (Apply_success cleanMigrator world0 "" "aws_iam_role.a").
  - vm_compute. reflexivity.
  - reflexivity.
  - reflexivity.
Defined.

(** With both plan checks skipped [plan] runs no [terraform plan] and no
    [terraform show]; it fails only when a set-up, an action or a switch
    back to remote fails. *)
Theorem plan_both_skipped (m : MultiStateMigrator) (w : World) :
  fromSkipPlan m = true -> toSkipPlan m = true ->
  planCalls (trace (plan m w).2) = planCalls (trace w) /\
  showCalls (trace (plan m w).2) = showCalls (trace w) /\
  ((plan m w).1.2 = None <->
   setupResult (fromTf m) (fromWorkspace m) (IsBackendTerraformCloud (o m))
     (BackendConfig (o m)) false = None /\
   setupResult (toTf m) (toWorkspace m) (IsBackendTerraformCloud (o m))
     (BackendConfig (o m)) false = None /\
   (exists fs ts,
      applyActions (actions m) (fromTf m) (toTf m)
        (default "" (remote w !! Dir (fromTf m)))
        (default "" (remote w !! Dir (toTf m))) = inl (fs, ts)) /\
   switchBackResult (fromTf m) = None /\
   switchBackResult (toTf m) = None).
Proof.
  intros Hfrom Hto.
  unfold planCalls, showCalls, plan, deferJoin, setupWorkDir, planBody,
    planFrom, planTo, getRemote, log_Printf, emit, bind, ret.
  rewrite Hfrom, Hto. cbn [fst snd remote trace].
  destruct (setupResult (fromTf m) _ _ _ _) as [e1|].
  { cbn [fst snd remote trace]. rewrite !flat_map_app. cbn.
    rewrite !app_nil_r. split; [reflexivity|]. split; [reflexivity|].
    split; [discriminate | intros [H _]; discriminate H]. }
  cbn [fst snd remote trace].
  destruct (setupResult (toTf m) _ _ _ _) as [e2|].
  { cbn [fst snd remote trace]. rewrite !flat_map_app. cbn.
    rewrite !app_nil_r. split; [reflexivity|]. split; [reflexivity|].
    split; [|intros (_ & H & _); discriminate H].
    destruct (switchBackResult (fromTf m)); discriminate. }
  cbn [fst snd remote trace].
  destruct (applyActions _ _ _ _ _) as [[fs ts]|e3];
    cbn [fst snd remote trace]; rewrite !flat_map_app; cbn;
    rewrite !app_nil_r; (split; [reflexivity|]); (split; [reflexivity|]).
  - rewrite ?errors_Join_None. split.
    + intros [H1 H2]. destruct (switchBackResult (toTf m)); [discriminate|].
      repeat split; eauto.
    + intros (_ & _ & _ & H1 & ->). auto.
  - split; [|intros (_ & _ & (? & ? & H) & _); discriminate H].
    destruct (switchBackResult (toTf m)), (switchBackResult (fromTf m));
      discriminate.
Qed.

Lemma plan_both_skipped_witness :
  fromSkipPlan skippingMigrator = true /\
  toSkipPlan skippingMigrator = true /\
  planCalls (trace (plan skippingMigrator world0).2)
  = planCalls (trace world0) /\
  showCalls (trace (plan skippingMigrator world0).2)
  = showCalls (trace world0) /\
  ((plan skippingMigrator world0).1.2 = None <->
   setupResult (fromTf skippingMigrator) (fromWorkspace skippingMigrator)
     (IsBackendTerraformCloud (o skippingMigrator))
     (BackendConfig (o skippingMigrator)) false = None /\
   setupResult (toTf skippingMigrator) (toWorkspace skippingMigrator)
     (IsBackendTerraformCloud (o skippingMigrator))
     (BackendConfig (o skippingMigrator)) false = None /\
   (exists fs ts,
      applyActions (actions skippingMigrator) (fromTf skippingMigrator)
        (toTf skippingMigrator)
        (default "" (remote world0 !! Dir (fromTf skippingMigrator)))
        (default "" (remote world0 !! Dir (toTf skippingMigrator)))
      = inl (fs, ts)) /\
   switchBackResult (fromTf skippingMigrator) = None /\
   switchBackResult (toTf skippingMigrator) = None).
Proof.
  split; [reflexivity|]. split; [reflexivity|].
  apply (plan_both_skipped skippingMigrator world0); reflexivity.
Defined.

(** Without a target both plans run with the same options: the base
    options. *)
Theorem plan_without_target (m : MultiStateMigrator) (w : World) :
  fromTfTarget m = "" ->
  exists new,
    planCalls (trace (plan m w).2) = (planCalls (trace w) ++ new)%list /\
    Forall (fun call => call.2 = basePlanOpts m) new.
Proof.
  intros Htarget.
  destruct (plan_adds planCall commandsOnly_planCall m w)
    as (c1 & c2 & Hadds & H1 & H2).
  exists (c1 ++ c2)%list. split; [exact Hadds|].
  rewrite Htarget in H1. cbn [String.eqb negb] in H1.
  rewrite app_nil_r in H1.
  apply Forall_app. split.
  - destruct H1 as [->|[st ->]]; repeat constructor.
  - destruct H2 as [->|[st ->]]; repeat constructor.
Qed.

Lemma plan_without_target_witness :
  fromTfTarget cleanMigrator = "" /\
  exists new,
    planCalls (trace (plan cleanMigrator world0).2)
    = (planCalls (trace world0) ++ new)%list /\
    Forall (fun call => call.2 = basePlanOpts cleanMigrator) new.
Proof.
  split; [reflexivity|].
  apply (plan_without_target cleanMigrator world0). reflexivity.
Defined.

(** With the [PlanOut] option set, every [terraform plan] that [plan]
    runs, in the source and in the destination directory alike, is given
    the same [-out=] file. *)
Theorem plan_out_shared (m : MultiStateMigrator) (w : World) :
  PlanOut (o m) <> "" ->
  exists new,
    planCalls (trace (plan m w).2) = (planCalls (trace w) ++ new)%list /\
    Forall (fun call => ("-out=" ++ PlanOut (o m))%string ∈ call.2) new.
Proof.
  intros Hout%String.eqb_neq.
  assert (Hbase : ("-out=" ++ PlanOut (o m))%string ∈ basePlanOpts m).
  { unfold basePlanOpts. rewrite Hout. cbn [negb].
    apply elem_of_app. right. left. }
  destruct (plan_adds planCall commandsOnly_planCall m w)
    as (c1 & c2 & Hadds & H1 & H2).
  exists (c1 ++ c2)%list. split; [exact Hadds|].
  apply Forall_app. split.
  - destruct H1 as [->|[st ->]]; [constructor|].
    cbn [planCall]. constructor; [|constructor]. cbn [snd].
    apply elem_of_app. left. exact Hbase.
  - destruct H2 as [->|[st ->]]; [constructor|].
    cbn [planCall]. constructor; [exact Hbase | constructor].
Qed.

Lemma plan_out_shared_witness :
  PlanOut (o planOutMigrator) <> "" /\
  exists new,
    planCalls (trace (plan planOutMigrator world0).2)
    = (planCalls (trace world0) ++ new)%list /\
    Forall (fun call =>
              ("-out=" ++ PlanOut (o planOutMigrator))%string ∈ call.2) new.
Proof.
  split; [discriminate|].
  apply (plan_out_shared planOutMigrator world0). discriminate.
Defined.

Lemma planTo_rejected_witness :
  toSkipPlan (migratorOf (cleanTf "from_dir") (driftedTf "to_dir") true "")
  = false /\
  (let '(plan, err) :=
     planResult
       (toTf (migratorOf (cleanTf "from_dir") (driftedTf "to_dir") true ""))
       "aws_iam_role.a"
       (basePlanOpts
          (migratorOf (cleanTf "from_dir") (driftedTf "to_dir") true "")) in
   (checkPlan plan
      (toTf (migratorOf (cleanTf "from_dir") (driftedTf "to_dir") true ""))
      err true "destination" world0).1.1) = false /\
  (planTo (migratorOf (cleanTf "from_dir") (driftedTf "to_dir") true "")
     "" "aws_iam_role.a" world0).1
  = if force (migratorOf (cleanTf "from_dir") (driftedTf "to_dir") true "")
    then (Some "", Some "aws_iam_role.a", None)
    else (None, None,
          Some (errorString
                  ("terraform plan command returns unexpected diffs  to_dir: "
                   ++ Dir (toTf (migratorOf (cleanTf "from_dir")
                                   (driftedTf "to_dir") true ""))))).
Proof.
  split; [reflexivity|]. split; [reflexivity|].
  apply (planTo_rejected
           (migratorOf (cleanTf "from_dir") (driftedTf "to_dir") true "")
           "" "aws_iam_role.a" world0); reflexivity.
Defined.

End migrator_more.

(* ===================================================================== *)
(** * Properties of the migrator configuration                           *)
(* ===================================================================== *)

Section config_more.
Import tfmigrate spec sample migrator_config.
Context {Migrator : Type}
  (parse : string -> MultiStateAction + error)
  (ctor : string -> string -> string -> string -> list MultiStateAction ->
          option MigratorOption -> bool -> bool -> bool -> string -> Migrator).

(** The loop succeeds exactly when every string parses, and then it
    appends the parsed actions in the order of the strings. *)
Lemma buildActions_ok (strs : list string) (acc acts : list MultiStateAction) :
  buildActions parse acc strs = inl acts <->
  exists new, acts = (acc ++ new)%list /\
              Forall2 (fun s a => parse s = inl a) strs new.
Proof.
  revert acc. induction strs as [|s strs IH]; intros acc; cbn.
  - split.
    + intros [= <-]. exists []. now rewrite app_nil_r.
    + intros (new & -> & H). inversion H. now rewrite app_nil_r.
  - destruct (parse s) as [a|e] eqn:E.
    + rewrite IH. split.
      * intros (new & -> & H). exists (a :: new).
        rewrite <- app_assoc. split; [reflexivity|]. now constructor.
      * intros (new & -> & H). inversion H as [|? a' ? new' Ha Hrest]; subst.
        rewrite E in Ha. injection Ha as <-.
        exists new'. rewrite <- app_assoc. auto.
    + split; [discriminate|]. intros (new & _ & H).
      inversion H; subst. congruence.
Qed.

Lemma buildActions_error (pre : list string) (s : string)
    (post : list string) (acc : list MultiStateAction) (e : error) :
  Forall (fun x => exists a, parse x = inl a) pre ->
  parse s = inr e ->
  buildActions parse acc (pre ++ s :: post) = inr e.
Proof.
  intros Hpre Hs. revert acc.
  induction Hpre as [|x pre [a Ha] _ IH]; intros acc; cbn.
  - now rewrite Hs.
  - rewrite Ha. apply IH.
Qed.

Lemma length_zero_string (s : string) :
  (String.length s =? 0)%nat = String.eqb s "".
Proof. destruct s; reflexivity. Qed.

(** [NewMigrator] returns a migrator exactly when the configuration has
    at least one action and every action string parses. *)
Theorem NewMigrator_ok_iff (c : MultiStateMigratorConfig)
    (o : option MigratorOption) :
  (exists mig c', NewMigrator parse Migrator ctor c o = (inl mig, c')) <->
  Actions c <> [] /\
  Forall (fun s => exists a, parse s = inl a) (Actions c).
Proof.
  unfold NewMigrator.
  destruct (Actions c) as [|s strs] eqn:Hacts; cbn [length Nat.eqb].
  - split; [intros (mig & c' & [=]) | intros [H _]; contradiction].
  - destruct (buildActions parse [] (s :: strs)) as [acts|e] eqn:E.
    + split; [|eauto]. intros _. split; [discriminate|].
      apply buildActions_ok in E as (new & _ & H).
      clear -H. induction H; constructor; eauto.
    + split; [intros (mig & c' & [=])|]. intros [_ H]. exfalso.
      assert (exists new, Forall2 (fun s a => parse s = inl a) (s :: strs) new)
        as [new Hnew].
      { clear -H. induction H as [|x l [a Ha] _ [new IH]];
          [exists []; constructor | exists (a :: new); now constructor]. }
      assert (buildActions parse [] (s :: strs) = inl ([] ++ new)%list)
        by (apply buildActions_ok; eauto).
      congruence.
Qed.

(** [NewMigrator] fails with the error of the first action string that
    does not parse, and then leaves the configuration as it was: the
    workspace defaults are not filled in. *)
Theorem NewMigrator_first_error (c : MultiStateMigratorConfig)
    (o : option MigratorOption) (pre : list string) (s : string)
    (post : list string) (e : error) :
  Actions c = (pre ++ s :: post)%list ->
  Forall (fun x => exists a, parse x = inl a) pre ->
  parse s = inr e ->
  NewMigrator parse Migrator ctor c o = (inr e, c).
Proof.
  intros Hacts Hpre Hs. unfold NewMigrator. rewrite Hacts.
  rewrite length_app. cbn [length].
  replace (length pre + S (length post) =? 0)%nat with false
    by (symmetry; apply Nat.eqb_neq; lia).
  now rewrite (buildActions_error pre s post [] e Hpre Hs).
Qed.

(** When [NewMigrator] succeeds, the migrator is built from the parsed
    actions in the order of the configuration and is passed everything
    else unchanged, except that an empty workspace becomes [default];
    the same defaults are written into the configuration, so that a
    second call on it builds the same migrator and changes nothing. *)
Theorem NewMigrator_success (c c' : MultiStateMigratorConfig)
    (o : option MigratorOption) (mig : Migrator) :
  NewMigrator parse Migrator ctor c o = (inl mig, c') ->
  exists acts,
    Forall2 (fun s a => parse s = inl a) (Actions c) acts /\
    c' = mkMultiStateMigratorConfig (FromDir c) (FromSkipPlan c) (ToDir c)
           (ToSkipPlan c)
           (if String.eqb (FromWorkspace c) "" then "default"
            else FromWorkspace c)
           (if String.eqb (ToWorkspace c) "" then "default"
            else ToWorkspace c)
           (Actions c) (Force c) (FromTfTarget c) /\
    mig = ctor (FromDir c) (ToDir c) (FromWorkspace c') (ToWorkspace c')
            acts o (Force c) (FromSkipPlan c) (ToSkipPlan c)
            (FromTfTarget c) /\
    FromWorkspace c' <> "" /\ ToWorkspace c' <> "" /\
    NewMigrator parse Migrator ctor c' o = (inl mig, c').
Proof.
  unfold NewMigrator at 1.
  destruct (length (Actions c) =? 0)%nat eqn:Hlen; [discriminate|].
  destruct (buildActions parse [] (Actions c)) as [acts|e] eqn:E;
    [|discriminate].
  rewrite !length_zero_string.
  intros H. exists acts.
  pose proof E as E'. apply buildActions_ok in E' as (new & -> & Hnew).
  cbn [app] in *.
  assert (Hc' : c' = mkMultiStateMigratorConfig (FromDir c) (FromSkipPlan c)
                       (ToDir c) (ToSkipPlan c)
                       (if String.eqb (FromWorkspace c) "" then "default"
                        else FromWorkspace c)
                       (if String.eqb (ToWorkspace c) "" then "default"
                        else ToWorkspace c)
                       (Actions c) (Force c) (FromTfTarget c)).
  { destruct c as [fd fsk td tsk fw tw acts fo tg].
    destruct fw as [|? ?], tw as [|? ?]; cbn in H |- *;
      injection H as _ <-; reflexivity. }
  assert (Hmig : mig = ctor (FromDir c) (ToDir c) (FromWorkspace c')
                         (ToWorkspace c') new o (Force c) (FromSkipPlan c)
                         (ToSkipPlan c) (FromTfTarget c)).
  { rewrite Hc'. destruct c as [fd fsk td tsk fw tw acts fo tg].
    destruct fw as [|? ?], tw as [|? ?]; cbn in H |- *;
      injection H as <- _; reflexivity. }
  assert (Hfw : FromWorkspace c' <> "").
  { rewrite Hc'. cbn. destruct (String.eqb_spec (FromWorkspace c) "");
      [discriminate | assumption]. }
  assert (Htw : ToWorkspace c' <> "").
  { rewrite Hc'. cbn. destruct (String.eqb_spec (ToWorkspace c) "");
      [discriminate | assumption]. }
  split; [exact Hnew|]. split; [exact Hc'|]. split; [exact Hmig|].
  split; [exact Hfw|]. split; [exact Htw|].
  unfold NewMigrator. rewrite !length_zero_string.
  apply String.eqb_neq in Hfw, Htw.
  assert (Hacts : Actions c' = Actions c) by (rewrite Hc'; reflexivity).
  rewrite Hacts, Hlen, E. rewrite Hfw. cbn zeta. rewrite Htw.
  rewrite Hmig. f_equal. f_equal.
  rewrite Hc'. reflexivity.
Qed.

End config_more.

Section config_examples.
Import tfmigrate spec sample migrator_config.

Lemma NewMigrator_first_error_witness :
  Actions (configOf ["mv aws_iam_role.a aws_iam_role.a"; "bogus"])
  = (["mv aws_iam_role.a aws_iam_role.a"] ++ "bogus" :: [])%list /\
  Forall (fun x => exists a, parseAction x = inl a)
    ["mv aws_iam_role.a aws_iam_role.a"] /\
  parseAction "bogus" = inr (errorString "unknown action: bogus") /\
  NewMigrator parseAction MultiStateMigrator migratorIn
    (configOf ["mv aws_iam_role.a aws_iam_role.a"; "bogus"]) None
  = (inr (errorString "unknown action: bogus"),
     configOf ["mv aws_iam_role.a aws_iam_role.a"; "bogus"]).
Proof.
  assert (Hpre : Forall (fun x => exists a, parseAction x = inl a)
                   ["mv aws_iam_role.a aws_iam_role.a"]).
  { constructor; [exists mvAll; reflexivity | constructor]. }
  split; [reflexivity|]. split; [exact Hpre|]. split; [reflexivity|].
  apply (NewMigrator_first_error parseAction migratorIn
           (configOf ["mv aws_iam_role.a aws_iam_role.a"; "bogus"]) None
           ["mv aws_iam_role.a aws_iam_role.a"] "bogus" []
           (errorString "unknown action: bogus")).
  - reflexivity.
  - exact Hpre.
  - reflexivity.
Defined.

Lemma NewMigrator_success_witness :
  NewMigrator parseAction MultiStateMigrator migratorIn
    (configOf ["mv aws_iam_role.a aws_iam_role.a"]) None
  = (inl (migratorIn "from_dir" "to_dir" "default" "default" [mvAll] None
            false false false ""),
     mkMultiStateMigratorConfig "from_dir" false "to_dir" false "default"
       "default" ["mv aws_iam_role.a aws_iam_role.a"] false "") /\
  exists acts,
    Forall2 (fun s a => parseAction s = inl a)
      (Actions (configOf ["mv aws_iam_role.a aws_iam_role.a"])) acts /\
    mkMultiStateMigratorConfig "from_dir" false "to_dir" false "default"
      "default" ["mv aws_iam_role.a aws_iam_role.a"] false ""
    = mkMultiStateMigratorConfig
        (FromDir (configOf ["mv aws_iam_role.a aws_iam_role.a"]))
        (FromSkipPlan (configOf ["mv aws_iam_role.a aws_iam_role.a"]))
        (ToDir (configOf ["mv aws_iam_role.a aws_iam_role.a"]))
        (ToSkipPlan (configOf ["mv aws_iam_role.a aws_iam_role.a"]))
        (if String.eqb
              (FromWorkspace (configOf ["mv aws_iam_role.a aws_iam_role.a"]))
              ""
         then "default"
         else FromWorkspace (configOf ["mv aws_iam_role.a aws_iam_role.a"]))
        (if String.eqb
              (ToWorkspace (configOf ["mv aws_iam_role.a aws_iam_role.a"]))
              ""
         then "default"
         else ToWorkspace (configOf ["mv aws_iam_role.a aws_iam_role.a"]))
        (Actions (configOf ["mv aws_iam_role.a aws_iam_role.a"]))
        (Force (configOf ["mv aws_iam_role.a aws_iam_role.a"]))
        (FromTfTarget (configOf ["mv aws_iam_role.a aws_iam_role.a"])) /\
    migratorIn "from_dir" "to_dir" "default" "default" [mvAll] None false
      false false ""
    = migratorIn (FromDir (configOf ["mv aws_iam_role.a aws_iam_role.a"]))
        (ToDir (configOf ["mv aws_iam_role.a aws_iam_role.a"]))
        (FromWorkspace
           (mkMultiStateMigratorConfig "from_dir" false "to_dir" false
              "default" "default" ["mv aws_iam_role.a aws_iam_role.a"] false
              ""))
        (ToWorkspace
           (mkMultiStateMigratorConfig "from_dir" false "to_dir" false
              "default" "default" ["mv aws_iam_role.a aws_iam_role.a"] false
              ""))
        acts None
        (Force (configOf ["mv aws_iam_role.a aws_iam_role.a"]))
        (FromSkipPlan (configOf ["mv aws_iam_role.a aws_iam_role.a"]))
        (ToSkipPlan (configOf ["mv aws_iam_role.a aws_iam_role.a"]))
        (FromTfTarget (configOf ["mv aws_iam_role.a aws_iam_role.a"])) /\
    FromWorkspace
      (mkMultiStateMigratorConfig "from_dir" false "to_dir" false "default"
         "default" ["mv aws_iam_role.a aws_iam_role.a"] false "") <> "" /\
    ToWorkspace
      (mkMultiStateMigratorConfig "from_dir" false "to_dir" false "default"
         "default" ["mv aws_iam_role.a aws_iam_role.a"] false "") <> "" /\
    NewMigrator parseAction MultiStateMigrator migratorIn
      (mkMultiStateMigratorConfig "from_dir" false "to_dir" false "default"
         "default" ["mv aws_iam_role.a aws_iam_role.a"] false "") None
    = (inl (migratorIn "from_dir" "to_dir" "default" "default" [mvAll] None
              false false false ""),
       mkMultiStateMigratorConfig "from_dir" false "to_dir" false "default"
         "default" ["mv aws_iam_role.a aws_iam_role.a"] false "").
Proof.
  split; [reflexivity|].
  apply (NewMigrator_success parseAction migratorIn
           (configOf ["mv aws_iam_role.a aws_iam_role.a"])
           (mkMultiStateMigratorConfig "from_dir" false "to_dir" false
              "default" "default" ["mv aws_iam_role.a aws_iam_role.a"] false
              "")
           None
           (migratorIn "from_dir" "to_dir" "default" "default" [mvAll] None
              false false false "")).
  reflexivity.
Defined.

End config_examples.
